(** * C-ID course equivalency lookup: query resolver, classifier, loader

    A shallow embedding of [course_equivalency_app_dpg.py]: [load_data],
    [smart_search], [EquivalencyApp.load_de_anza_courses] and
    [EquivalencyApp.show_equivalencies], together with the string and
    data-frame operations they call; then the two list boxes and their
    callbacks, [extract_dept_and_number] and the rows of the results table.

    Conventions of the model.
    - Text is ASCII: a [string] is a sequence of 7-bit characters; the case
      conversions only move [a-z] to [A-Z].
    - A data frame is the list of its rows, in frame order.  A cell of a raw
      CSV column is an [option string]: [None] is polars' null.
    - Python exceptions are explicit: every operation that can raise returns
      an [outcome].
    - Three behaviours of the data-frame library are not fixed by the program
      text: the row order and the surviving representative of
      [DataFrame.unique], the order of [Series.unique], and whether [is_in]
      lets a null cell match a null in the list.  They are the fields of the
      class [Polars]; the general theorems hold for every instance, the
      evaluations on sample data name the instance they use. *)

From Stdlib Require Import String Ascii List Bool Arith Lia PeanoNat.
From Stdlib Require Import DecimalString Permutation Sorted OrderedTypeEx.
Import ListNotations.
Open Scope string_scope.
Open Scope list_scope.
Open Scope nat_scope.

Set Implicit Arguments.

(** ** Outcomes *)

(** What ends a call without a value.  [ComputeError] is the exception polars
    raises for a pattern that is not a valid regular expression.
    [NotModelled] marks a pattern that uses regex syntax this development does
    not interpret (classes, counted repetition, flags, letter escapes other
    than [\b], a repetition applied to a repetition or to an assertion, bytes
    above 127): the model gives no verdict there. *)
Inductive failure : Type :=
| ComputeError
| NotModelled.

Inductive outcome (A : Type) : Type :=
| Ok (a : A)
| Raised (e : failure).

Arguments Ok {A} a.
Arguments Raised {A} e.

Definition bind {A B : Type} (m : outcome A) (k : A -> outcome B) : outcome B :=
  match m with
  | Ok a => k a
  | Raised e => Raised e
  end.

Notation "x <- m ;; k" := (bind m (fun x => k))
  (at level 61, m at next level, right associativity).

(** A Python [for] loop whose body can raise, threading the loop state. *)
Fixpoint for_each {A S : Type} (body : S -> A -> outcome S) (xs : list A) (s : S)
  : outcome S :=
  match xs with
  | [] => Ok s
  | x :: xs' => s' <- body s x ;; for_each body xs' s'
  end.

(** ** Characters *)

Module Char.

Definition code (c : ascii) : nat := nat_of_ascii c.

Definition between (lo hi : nat) (c : ascii) : bool :=
  (lo <=? code c) && (code c <=? hi).

Definition is_upper : ascii -> bool := between 65 90.
Definition is_lower : ascii -> bool := between 97 122.
Definition is_digit : ascii -> bool := between 48 57.
Definition is_newline (c : ascii) : bool := code c =? 10.
Definition is_hyphen (c : ascii) : bool := code c =? 45.

(** Whitespace of the Rust side ([\s] of the regex crate, [str::trim]):
    tab, line feed, vertical tab, form feed, carriage return, space. *)
Definition is_rust_space (c : ascii) : bool :=
  between 9 13 c || (code c =? 32).

(** Whitespace of the Python side ([str.isspace], which [str.strip],
    [str.split] and [\s] of [re] share): the above and the four separators
    0x1c..0x1f. *)
Definition is_py_space (c : ascii) : bool :=
  is_rust_space c || between 28 31 c.

(** [\w] restricted to ASCII. *)
Definition is_word (c : ascii) : bool :=
  is_upper c || is_lower c || is_digit c || (code c =? 95).

Definition upper (c : ascii) : ascii :=
  if is_lower c then ascii_of_nat (code c - 32) else c.

End Char.

(** ** Strings *)

Module Str.

Definition is_empty (s : string) : bool :=
  match s with
  | EmptyString => true
  | String _ _ => false
  end.

Fixpoint map (f : ascii -> ascii) (s : string) : string :=
  match s with
  | EmptyString => EmptyString
  | String c t => String (f c) (map f t)
  end.

Fixpoint forallb (p : ascii -> bool) (s : string) : bool :=
  match s with
  | EmptyString => true
  | String c t => p c && forallb p t
  end.

(** [str.upper()] / [str.to_uppercase()]. *)
Definition upper : string -> string := map Char.upper.

(** The longest prefix whose characters satisfy [p], and what follows. *)
Fixpoint span (p : ascii -> bool) (s : string) : string * string :=
  match s with
  | EmptyString => (EmptyString, EmptyString)
  | String c t =>
      if p c then let (a, b) := span p t in (String c a, b)
      else (EmptyString, s)
  end.

Fixpoint lstrip (ws : ascii -> bool) (s : string) : string :=
  match s with
  | EmptyString => EmptyString
  | String c t => if ws c then lstrip ws t else s
  end.

Fixpoint rstrip (ws : ascii -> bool) (s : string) : string :=
  match s with
  | EmptyString => EmptyString
  | String c t =>
      match rstrip ws t with
      | EmptyString => if ws c then EmptyString else String c EmptyString
      | t' => String c t'
      end
  end.

(** [str.strip()] (Python) and [str.strip_chars()] (polars), by the
    whitespace test of the side that runs it. *)
Definition strip (ws : ascii -> bool) (s : string) : string :=
  rstrip ws (lstrip ws s).

(** [str.split()] without argument: the maximal runs of non-whitespace. *)
Fixpoint split_from (ws : ascii -> bool) (cur : string) (s : string) : list string :=
  match s with
  | EmptyString => if is_empty cur then [] else [cur]
  | String c t =>
      if ws c
      then (if is_empty cur then split_from ws EmptyString t
            else cur :: split_from ws EmptyString t)
      else split_from ws (cur ++ String c EmptyString)%string t
  end.

Definition split (ws : ascii -> bool) (s : string) : list string :=
  split_from ws EmptyString s.

(** [str.replace_all(r"\s+", " ")]: every maximal whitespace run becomes one
    space. *)
Fixpoint collapse (ws : ascii -> bool) (in_run : bool) (s : string) : string :=
  match s with
  | EmptyString => EmptyString
  | String c t =>
      if ws c
      then (if in_run then collapse ws true t
            else String " "%char (collapse ws true t))
      else String c (collapse ws false t)
  end.

(** [str.startswith] / [str.starts_with]. *)
Fixpoint starts_with (p s : string) : bool :=
  match p, s with
  | EmptyString, _ => true
  | String a p', String b s' => Ascii.eqb a b && starts_with p' s'
  | String _ _, EmptyString => false
  end.

(** Literal substring containment: [p in s]. *)
Fixpoint contains (p s : string) : bool :=
  starts_with p s ||
  match s with
  | EmptyString => false
  | String _ t => contains p t
  end.

(** [sep.join(xs)]. *)
Fixpoint join (sep : string) (xs : list string) : string :=
  match xs with
  | [] => EmptyString
  | [x] => x
  | x :: rest => (x ++ sep ++ join sep rest)%string
  end.

Definition of_nat (n : nat) : string := NilZero.string_of_uint (Nat.to_uint n).

End Str.

(** ** Regular expressions of [str.contains]

    polars' [str.contains(pattern)] has [literal=False] and [strict=True] by
    default: the pattern is compiled by the Rust regex crate and a row is kept
    when the pattern matches somewhere in the cell; a pattern that does not
    compile raises.  The fragment interpreted here: literal characters, [.],
    [^], [$], [|], groups, the postfix operators [*], [+], [?] with their lazy
    forms, a backslash before a punctuation meta-character, and [\b]. *)

Module Regex.

Inductive regex : Type :=
| Eps
| Lit (c : ascii)
| AnyChar                      (* [.]: any character but line feed *)
| Bol                          (* [^]: start of the text *)
| Eol                          (* [$]: end of the text *)
| WordB                        (* [\b] *)
| Cat (a b : regex)
| Alt (a b : regex)
| Star (a : regex).

Definition Plus (a : regex) : regex := Cat a (Star a).
Definition Opt (a : regex) : regex := Alt a Eps.

(** *** Parsing *)

(** A group under construction: the alternatives already closed by [|] and the
    atoms of the current alternative, both most recent first. *)
Record frame : Type := Frame { branches : list regex; atoms : list regex }.

Definition empty_frame : frame := Frame [] [].

Definition push_atom (a : regex) (f : frame) : frame :=
  Frame (branches f) (a :: atoms f).

Definition close_concat (f : frame) : regex :=
  fold_left (fun acc a => Cat a acc) (atoms f) Eps.

Definition close_frame (f : frame) : regex :=
  fold_left (fun acc b => Alt b acc) (branches f) (close_concat f).

Definition next_branch (f : frame) : frame :=
  Frame (close_concat f :: branches f) [].

Inductive mode : Type :=
| Normal
| AfterRep       (* the previous character was [*], [+] or [?] *)
| AfterLazy      (* ... followed by the [?] that makes it lazy *)
| Escaped.       (* the previous character was a backslash *)

Definition is_rep_op (c : ascii) : bool :=
  Str.contains (String c EmptyString) "*+?".

(** Characters a backslash turns into themselves. *)
Definition is_escapable_meta (c : ascii) : bool :=
  Str.contains (String c EmptyString) "\.+*?()|[]{}^$#&-~".

(** Characters with no meaning of their own in a pattern. *)
Definition is_plain (c : ascii) : bool :=
  negb (Str.contains (String c EmptyString) "\.^$|()*+?[]{}")
  && (Char.code c <? 128).

Definition is_assertion (a : regex) : bool :=
  match a with
  | Bol | Eol | WordB => true
  | _ => false
  end.

Definition repeat_atom (op : ascii) (a : regex) : regex :=
  if Ascii.eqb op "*" then Star a
  else if Ascii.eqb op "+" then Plus a
  else Opt a.

(** One left-to-right pass over the pattern, with the stack of enclosing
    groups. *)
Fixpoint parse (m : mode) (cur : frame) (stack : list frame) (s : string)
  : outcome regex :=
  match s with
  | EmptyString =>
      match m, stack with
      | Escaped, _ => Raised ComputeError          (* pattern ends in a backslash *)
      | _, _ :: _ => Raised ComputeError           (* unclosed group *)
      | _, [] => Ok (close_frame cur)
      end
  | String c t =>
      match m with
      | Escaped =>
          if is_escapable_meta c then parse Normal (push_atom (Lit c) cur) stack t
          else if Ascii.eqb c "b" then parse Normal (push_atom WordB cur) stack t
          else Raised NotModelled
      | _ =>
          if is_rep_op c then
            match m with
            | AfterLazy => Raised NotModelled
            | AfterRep =>
                if Ascii.eqb c "?" then parse AfterLazy cur stack t
                else Raised NotModelled
            | _ =>
                match atoms cur with
                | [] => Raised ComputeError        (* nothing to repeat *)
                | a :: rest =>
                    if is_assertion a then Raised NotModelled
                    else parse AfterRep (Frame (branches cur) (repeat_atom c a :: rest))
                           stack t
                end
            end
          else if Ascii.eqb c "\" then parse Escaped cur stack t
          else if Ascii.eqb c "." then parse Normal (push_atom AnyChar cur) stack t
          else if Ascii.eqb c "^" then parse Normal (push_atom Bol cur) stack t
          else if Ascii.eqb c "$" then parse Normal (push_atom Eol cur) stack t
          else if Ascii.eqb c "|" then parse Normal (next_branch cur) stack t
          else if Ascii.eqb c "(" then
            match t with
            | String "?" _ => Raised NotModelled   (* flags, non-capturing, named *)
            | _ => parse Normal empty_frame (cur :: stack) t
            end
          else if Ascii.eqb c ")" then
            match stack with
            | [] => Raised ComputeError            (* unopened group *)
            | outer :: stack' =>
                parse Normal (push_atom (close_frame cur) outer) stack' t
            end
          else if is_plain c then parse Normal (push_atom (Lit c) cur) stack t
          else Raised NotModelled
      end
  end.

Definition compile (pattern : string) : outcome regex :=
  parse Normal empty_frame [] pattern.

(** *** Matching *)

(** A position in the text: the character before it, if any, and the text
    from it on. *)
Record cursor : Type := Cursor { prev : option ascii; rest : string }.

Definition at_word (o : option ascii) : bool :=
  match o with
  | Some c => Char.is_word c
  | None => false
  end.

Definition next_char (k : cursor) : option ascii :=
  match rest k with
  | EmptyString => None
  | String c _ => Some c
  end.

(** The positions after zero or more rounds of [step], each round consuming at
    least one character; [fuel] bounds the characters left. *)
Fixpoint star_ends (step : cursor -> list cursor) (fuel : nat) (k : cursor)
  : list cursor :=
  match fuel with
  | 0 => [k]
  | S n =>
      k :: flat_map
             (fun k' =>
                if String.length (rest k') <? String.length (rest k)
                then star_ends step n k' else [])
             (step k)
  end.

(** The positions where a match of [r] that starts at [k] can end. *)
Fixpoint ends (r : regex) (k : cursor) : list cursor :=
  match r with
  | Eps => [k]
  | Lit c =>
      match rest k with
      | String d t => if Ascii.eqb c d then [Cursor (Some d) t] else []
      | EmptyString => []
      end
  | AnyChar =>
      match rest k with
      | String d t => if Char.is_newline d then [] else [Cursor (Some d) t]
      | EmptyString => []
      end
  | Bol => match prev k with None => [k] | Some _ => [] end
  | Eol => match rest k with EmptyString => [k] | String _ _ => [] end
  | WordB => if xorb (at_word (prev k)) (at_word (next_char k)) then [k] else []
  | Cat a b => flat_map (ends b) (ends a k)
  | Alt a b => ends a k ++ ends b k
  | Star a => star_ends (ends a) (String.length (rest k)) k
  end.

Fixpoint cursors_from (p : option ascii) (s : string) : list cursor :=
  Cursor p s ::
  match s with
  | EmptyString => []
  | String c t => cursors_from (Some c) t
  end.

Definition matches_at (r : regex) (k : cursor) : bool :=
  match ends r k with
  | [] => false
  | _ :: _ => true
  end.

(** Unanchored search, [Regex::is_match]. *)
Definition is_match (r : regex) (text : string) : bool :=
  existsb (matches_at r) (cursors_from None text).

(** [re.escape] of Python 3.7 and later: a backslash before each special
    character. *)
Definition py_special (c : ascii) : bool :=
  Str.contains (String c EmptyString) "()[]{}?*+-|^$\.&~# "
  || Char.between 9 13 c.

Fixpoint escape (s : string) : string :=
  match s with
  | EmptyString => EmptyString
  | String c t =>
      if py_special c then String "\" (String c (escape t))
      else String c (escape t)
  end.

(** The regex of a pattern made of plain characters only. *)
Fixpoint literal_onto (p : string) (tail : regex) : regex :=
  match p with
  | EmptyString => tail
  | String c t => Cat (Lit c) (literal_onto t tail)
  end.

Definition literal (p : string) : regex := literal_onto p Eps.

Fixpoint push_lits (p : string) (f : frame) : frame :=
  match p with
  | EmptyString => f
  | String c t => push_lits t (push_atom (Lit c) f)
  end.

End Regex.

(** ** Data frames *)

(** One row of the frame [load_data] returns: the five required CSV columns
    (cells may be null) and the three normalised columns added at load. *)
Record Row : Type := MkRow {
  cid : option string;            (* "C-ID #" *)
  cid_descriptor : option string; (* "C-ID Descriptor" *)
  institution : option string;    (* "Institution" *)
  local_title : option string;    (* "Local Course Title(s)" *)
  local_dept_number : option string; (* "Local Dept. Name & Number" *)
  Institution_norm : string;
  Dept_norm : string;
  Title_norm : string
}.

Definition DataFrame : Type := list Row.

Definition is_empty_frame (df : DataFrame) : bool :=
  match df with
  | [] => true
  | _ :: _ => false
  end.

Definition fill_null (default : string) (cell : option string) : string :=
  match cell with
  | Some s => s
  | None => default
  end.

Definition cell_eqb (a b : option string) : bool :=
  match a, b with
  | Some x, Some y => String.eqb x y
  | None, None => true
  | _, _ => false
  end.

(** The columns [smart_search] passes as [subset] to [unique], in its order. *)
Definition core_fields (r : Row) : list (option string) :=
  [cid r; cid_descriptor r; institution r; local_dept_number r; local_title r].

(** The behaviours of polars the program leaves open. *)
Class Polars : Type := {
  (** [DataFrame.unique(subset=core columns)], with the defaults
      [keep="any"], [maintain_order=False]. *)
  unique_rows : DataFrame -> DataFrame;
  (** [Series.unique()], with the default [maintain_order=False]. *)
  unique_cells : list (option string) -> list (option string);
  (** Whether [is_in] counts a null cell as a member of a list that holds a
      null. *)
  nulls_equal : bool;
  unique_rows_nodup : forall df, NoDup (map core_fields (unique_rows df));
  unique_rows_sound : forall df r, In r (unique_rows df) -> In r df;
  unique_rows_complete :
    forall df r, In r df -> In (core_fields r) (map core_fields (unique_rows df));
  unique_cells_nodup : forall cells, NoDup (unique_cells cells);
  unique_cells_same : forall cells c, In c (unique_cells cells) <-> In c cells
}.

(** [df.filter(pl.col(col).str.contains(pattern))]. *)
Definition filter_contains (col : Row -> string) (pattern : string) (df : DataFrame)
  : outcome DataFrame :=
  re <- Regex.compile pattern ;;
  Ok (filter (fun row => Regex.is_match re (col row)) df).

(** [pl.col("C-ID #").is_in(cids)] as a filter predicate: a null result drops
    the row. *)
Definition is_in `{Polars} (cids : list (option string)) (row : Row) : bool :=
  match cid row with
  | Some s => existsb (cell_eqb (Some s)) cids
  | None => nulls_equal && existsb (cell_eqb None) cids
  end.

(** ** Constants of the program *)

Definition HOME_INSTITUTION : string := "De Anza College".
Definition MIN_SEARCH_CHARS : nat := 2.
Definition MAX_DISPLAY_RESULTS : nat := 2000.

Definition REQUIRED_COLS : list string :=
  ["C-ID #"; "C-ID Descriptor"; "Institution"; "Local Course Title(s)";
   "Local Dept. Name & Number"].

Definition common_words : list string :=
  ["DE"; "LA"; "OF"; "AND"; "THE"; "FOR"; "IN"; "ON"; "AT"; "TO"; "A"; "AN"].

(** ** [smart_search] *)

(** The [re.match] of line 113 (two to five capitals, separators, a number
    with an optional capital, optional blanks, the remainder): the three groups
    on a match.  The quantifiers are greedy.  The runs of capitals, of
    separators and of digits are maximal, because what follows each of them
    cannot start with one of its characters.  [.] stops at a line feed and [$]
    holds at the end of the text or before a final line feed; giving back a
    digit, the optional capital or a blank only moves the start of the
    remainder to the left, which does not bring its end closer, so the greedy
    attempt decides. *)
Definition is_separator (c : ascii) : bool := Char.is_py_space c || Char.is_hyphen c.

Definition optional_upper (s : string) : string * string :=
  match s with
  | String c t => if Char.is_upper c then (String c EmptyString, t) else (EmptyString, s)
  | EmptyString => (EmptyString, EmptyString)
  end.

Definition at_line_end (s : string) : bool :=
  match s with
  | EmptyString => true
  | String c EmptyString => Char.is_newline c
  | String _ (String _ _) => false
  end.

Definition cid_pattern (s : string) : option (string * string * string) :=
  let (letters, s1) := Str.span Char.is_upper s in
  if (2 <=? String.length letters) && (String.length letters <=? 5) then
    let (seps, s2) := Str.span is_separator s1 in
    if Str.is_empty seps then None else
    let (digits, s3) := Str.span Char.is_digit s2 in
    if Str.is_empty digits then None else
    let (letter, s4) := optional_upper s3 in
    let (_, s5) := Str.span Char.is_py_space s4 in
    let (trailing, s6) := Str.span (fun c => negb (Char.is_newline c)) s5 in
    if at_line_end s6 then Some (letters, (digits ++ letter)%string, trailing)
    else None
  else None.

(** [dept_pattern = re.compile(r'^[A-Z]{2,5}$')], used with [match]. *)
Definition dept_pattern (s : string) : bool :=
  let (letters, s1) := Str.span Char.is_upper s in
  (2 <=? String.length letters) && (String.length letters <=? 5) && at_line_end s1.

Definition in_words (kw : string) (words : list string) : bool :=
  existsb (String.eqb kw) words.

(** "Sort De Anza first": the rows whose normalised institution contains the
    upper-cased home name, then the others. *)
Definition de_anza_first (df : DataFrame) : outcome DataFrame :=
  is_de_anza <- Regex.compile (Str.upper HOME_INSTITUTION) ;;
  let de_anza_rows := filter (fun r => Regex.is_match is_de_anza (Institution_norm r)) df in
  let other_rows :=
    filter (fun r => negb (Regex.is_match is_de_anza (Institution_norm r))) df in
  Ok (if negb (is_empty_frame other_rows) then de_anza_rows ++ other_rows
      else de_anza_rows).

(** The extra-keyword filter of the fast path: institution or title. *)
Definition filter_extra (results : DataFrame) (keyword : string) : outcome DataFrame :=
  re <- Regex.compile keyword ;;
  Ok (filter (fun r => Regex.is_match re (Institution_norm r)
                       || Regex.is_match re (Title_norm r)) results).

(** The direct C-ID match of the fast path. *)
Definition cid_match (df : DataFrame) (dept_code cid_number : string) : outcome DataFrame :=
  filter_contains (fun r => Str.upper (fill_null "" (cid r)))
    (dept_code ++ " " ++ cid_number)%string df.

(** Lines 112-139.  [Some rows] is the [return] inside the branch, [None] is
    falling out of it to the keyword search. *)
Definition fast_path (df : DataFrame) (query : string) : outcome (option DataFrame) :=
  match cid_pattern (Str.upper query) with
  | Some (dept_code, cid_number, group3) =>
      let extra := Str.strip Char.is_py_space group3 in
      cid_results <- cid_match df dept_code cid_number ;;
      if negb (is_empty_frame cid_results) then
        cid_results <-
          (if negb (Str.is_empty extra)
           then for_each filter_extra (Str.split Char.is_py_space extra) cid_results
           else Ok cid_results) ;;
        rows <- de_anza_first cid_results ;;
        Ok (Some rows)
      else Ok None
  | None => Ok None
  end.

(** Lines 144-153: the keywords that match some institution, and the rest. *)
Definition split_institution (df : DataFrame) (acc : list string * list string)
  (keyword : string) : outcome (list string * list string) :=
  institution_match <- filter_contains Institution_norm keyword df ;;
  if negb (is_empty_frame institution_match)
  then Ok (fst acc ++ [keyword], snd acc)
  else Ok (fst acc, snd acc ++ [keyword]).

Definition dept_regex (keyword : string) : string :=
  ("\b" ++ Regex.escape keyword)%string.

(** Lines 167-177: one round of the categorising loop. *)
Definition categorize (results : DataFrame) (acc : list string * list string)
  (keyword : string) : outcome (list string * list string) :=
  if dept_pattern keyword && negb (in_words keyword common_words) then
    dept_rows <- filter_contains Dept_norm (dept_regex keyword) results ;;
    title_rows <- filter_contains Title_norm keyword results ;;
    let dept_count := length dept_rows in
    let title_count := length title_rows in
    if (0 <? dept_count) && (title_count <? dept_count * 10)
    then Ok (fst acc ++ [keyword], snd acc)
    else if 0 <? title_count
    then Ok (fst acc, snd acc ++ [keyword])
    else Ok acc
  else Ok (fst acc, snd acc ++ [keyword]).

(** Lines 141-184: the institution keywords found and the rows left by the
    institution, department and title filters. *)
Definition keyword_filter (df : DataFrame) (query : string)
  : outcome (list string * DataFrame) :=
  let keywords := Str.split Char.is_py_space (Str.upper query) in
  kinds <- for_each (split_institution df) keywords ([], []) ;;
  let institution_keywords := fst kinds in
  let non_institution_keywords := snd kinds in
  results <- for_each (fun res kw => filter_contains Institution_norm kw res)
               institution_keywords df ;;
  cats <- for_each (categorize results) non_institution_keywords ([], []) ;;
  let dept_keywords := fst cats in
  let title_keywords := snd cats in
  results <- for_each (fun res kw => filter_contains Dept_norm (dept_regex kw) res)
               dept_keywords results ;;
  results <- for_each (fun res kw => filter_contains Title_norm kw res)
               title_keywords results ;;
  Ok (institution_keywords, results).

(** Lines 186-203: the expansion by C-ID when no institution was named, and
    the final [unique]. *)
Definition finish_search `{Polars} (df : DataFrame) (institution_keywords : list string)
  (results : DataFrame) : outcome DataFrame :=
  if is_empty_frame results then Ok []
  else
    match institution_keywords with
    | [] =>
        let cids := unique_cells (map cid results) in
        match cids with
        | [] => Ok []
        | _ :: _ =>
            results <- de_anza_first (filter (is_in cids) df) ;;
            Ok (unique_rows results)
        end
    | _ :: _ => Ok (unique_rows results)
    end.

(** Lines 141-203. *)
Definition keyword_path `{Polars} (df : DataFrame) (query : string) : outcome DataFrame :=
  found <- keyword_filter df query ;;
  finish_search df (fst found) (snd found).

Definition smart_search `{Polars} (df : DataFrame) (query : string) : outcome DataFrame :=
  let query := Str.strip Char.is_py_space query in
  if Str.is_empty query || (String.length query <? MIN_SEARCH_CHARS) then Ok []
  else
    fast <- fast_path df query ;;
    match fast with
    | Some rows => Ok rows
    | None => keyword_path df query
    end.

(** ** [load_data] *)

Definition nl : string := String (ascii_of_nat 10) EmptyString.

(** What [pl.read_csv(path, infer_schema_length=0)] returns: the header and
    the data rows, every cell a string or null. *)
Record CsvTable : Type := MkCsv {
  columns : list string;
  data_rows : list (list (option string))
}.

(** The part of the operating system [load_data] consults. *)
Record FileSystem : Type := MkFs {
  abspath : string -> string;                 (* [os.path.abspath] *)
  isfile : string -> bool;                    (* [os.path.isfile] *)
  read_csv : string -> CsvTable + string      (* the frame, or the exception text *)
}.

(** How [load_data] ends: with the frame, or by raising [CidCsvError]. *)
Inductive load_result : Type :=
| Loaded (df : DataFrame)
| CidCsvError (message : string).

Fixpoint rfind_slash (s : string) : option nat :=
  match s with
  | EmptyString => None
  | String c t =>
      match rfind_slash t with
      | Some i => Some (S i)
      | None => if Ascii.eqb c "/" then Some 0 else None
      end
  end.

Definition is_slash (c : ascii) : bool := Ascii.eqb c "/".

(** [os.path.dirname] of [posixpath]: up to and including the last slash,
    then without trailing slashes unless it is slashes only. *)
Definition dirname (p : string) : string :=
  let i := match rfind_slash p with Some i => S i | None => 0 end in
  let head := String.substring 0 i p in
  if negb (Str.is_empty head) && negb (Str.forallb is_slash head)
  then Str.rstrip is_slash head else head.

Fixpoint index_of (name : string) (cols : list string) : option nat :=
  match cols with
  | [] => None
  | c :: rest =>
      if String.eqb c name then Some 0
      else match index_of name rest with Some i => Some (S i) | None => None end
  end.

Definition has_column (cols : list string) (name : string) : bool :=
  match index_of name cols with
  | Some _ => true
  | None => false
  end.

(** The cell of column [name] in a data row; null when the row is short. *)
Definition cell (cols : list string) (row : list (option string)) (name : string)
  : option string :=
  match index_of name cols with
  | Some i => match nth_error row i with Some c => c | None => None end
  | None => None
  end.

(** Lines 75-79: the three normalised columns. *)
Definition with_norm_columns (cols : list string) (row : list (option string)) : Row :=
  let inst := cell cols row "Institution" in
  let dept := cell cols row "Local Dept. Name & Number" in
  let title := cell cols row "Local Course Title(s)" in
  {| cid := cell cols row "C-ID #";
     cid_descriptor := cell cols row "C-ID Descriptor";
     institution := inst;
     local_title := title;
     local_dept_number := dept;
     Institution_norm := Str.upper (fill_null "" inst);
     Dept_norm := Str.collapse Char.is_rust_space false (Str.upper (fill_null "" dept));
     Title_norm := Str.upper (fill_null "" title) |}.

Definition missing_file_message (path : string) : string :=
  ("Data file not found: cid.csv" ++ nl ++ nl
   ++ "Place a file named 'cid.csv' in this folder:" ++ nl ++ dirname path)%string.

Definition unreadable_message (detail : string) : string :=
  ("Could not read cid.csv as CSV." ++ nl ++ nl
   ++ "Make sure the file is a valid CSV (comma-separated, UTF-8)." ++ nl
   ++ "Detail: " ++ detail)%string.

Definition empty_message : string :=
  ("cid.csv is empty." ++ nl ++ nl
   ++ "The file must contain a header row and at least one data row.")%string.

Definition bullet (c : string) : string := ("  • " ++ c)%string.

Definition missing_columns_message (missing : list string) : string :=
  ("cid.csv is missing required column(s)." ++ nl ++ nl
   ++ "Missing: " ++ Str.join ", " missing ++ nl ++ nl
   ++ "Required columns (exact names):" ++ nl
   ++ Str.join nl (map bullet REQUIRED_COLS))%string.

Definition load_data (fs : FileSystem) (path : string) : load_result :=
  let path := abspath fs path in
  if negb (isfile fs path) then CidCsvError (missing_file_message path)
  else
    match read_csv fs path with
    | inr detail => CidCsvError (unreadable_message detail)
    | inl table =>
        if length (data_rows table) =? 0 then CidCsvError empty_message
        else
          let missing :=
            filter (fun c => negb (has_column (columns table) c)) REQUIRED_COLS in
          match missing with
          | _ :: _ => CidCsvError (missing_columns_message missing)
          | [] => Loaded (map (with_norm_columns (columns table)) (data_rows table))
          end
    end.

(** ** [EquivalencyApp] *)

(** A row of [self.de_anza_courses]: a frame row with the two extracted
    columns. *)
Record Course : Type := MkCourse {
  course_row : Row;
  Dept : string;
  Number : string
}.

(** The state the selection handlers read and write. *)
Record App : Type := MkApp {
  app_df : option DataFrame;                 (* [self.df] *)
  de_anza_courses : option (list Course);    (* [self.de_anza_courses] *)
  current_results : option DataFrame;        (* [self.current_results] *)
  results_count : string;                    (* text of the "results_count" item *)
  results_table : list Row                   (* rows shown in "results_table" *)
}.

Definition is_dept_char (c : ascii) : bool := Char.is_upper c || Char.is_rust_space c.

Definition first_char (s : string) : string :=
  match s with
  | String c _ => String c EmptyString
  | EmptyString => EmptyString
  end.

(** The two groups of the extraction pattern of lines 378-379 (capitals and
    blanks, lazily; blanks; a digit and the remainder of the text) as the Rust
    regex crate matches it: the text splits at its first character that is
    neither a capital nor a blank, which must be a digit with no line feed
    after it; group 1 is the shortest non-empty prefix of the part before
    that leaves only blanks, at least one, up to the digit. *)
Definition extract_groups (s : string) : option (string * string) :=
  let (head, tail) := Str.span is_dept_char s in
  match tail with
  | String d _ =>
      if Char.is_digit d && Str.forallb (fun c => negb (Char.is_newline c)) tail then
        let trimmed := Str.rstrip Char.is_rust_space head in
        let group1 := if Str.is_empty trimmed then first_char head else trimmed in
        if negb (Str.is_empty group1) && (String.length group1 <? String.length head)
        then Some (group1, tail) else None
      else None
  | EmptyString => None
  end.

(** [str.extract(pattern, n).fill_null("").str.strip_chars()] on a cell. *)
Definition extract_column (n : nat) (c : option string) : string :=
  match c with
  | None => EmptyString
  | Some s =>
      match extract_groups s with
      | Some (g1, g2) => Str.strip Char.is_rust_space (if n =? 1 then g1 else g2)
      | None => EmptyString
      end
  end.

(** [pl.col("Institution").str.to_uppercase().str.contains("DE ANZA")]; a null
    cell gives null, which [filter] drops. *)
Definition filter_de_anza (df : DataFrame) : outcome DataFrame :=
  re <- Regex.compile "DE ANZA" ;;
  Ok (filter (fun r => match institution r with
                       | Some s => Regex.is_match re (Str.upper s)
                       | None => false
                       end) df).

Definition has_cid (r : Row) : bool :=
  match cid r with
  | Some s => negb (String.eqb s "")
  | None => false
  end.

Definition to_course (r : Row) : Course :=
  {| course_row := r;
     Dept := extract_column 1 (local_dept_number r);
     Number := extract_column 2 (local_dept_number r) |}.

(** Lines 360-387, without the console output and the window call. *)
Definition load_de_anza_courses (app : App) : outcome App :=
  match app_df app with
  | None => Ok app
  | Some df =>
      de_anza_df <- filter_de_anza df ;;
      let de_anza_df := filter has_cid de_anza_df in
      let courses := map to_course de_anza_df in
      let courses :=
        filter (fun c => negb (String.eqb (Dept c) "") && negb (String.eqb (Number c) ""))
          courses in
      Ok (MkApp (app_df app) (Some courses) (current_results app)
            (results_count app) (results_table app))
  end.

(** Lines 542-549: the filter of [show_equivalencies]. *)
Definition number_match (course_number : string) (c : Course) : bool :=
  String.eqb (Number c) course_number
  || Str.starts_with (course_number ++ " ")%string (Number c)
  || Str.starts_with (course_number ++ "+")%string (Number c).

Definition select_course (courses : list Course) (department course_number : string)
  : list Course :=
  filter (fun c => String.eqb (Dept c) department && number_match course_number c) courses.

(** [set_value("results_count", text)] followed by [clear_table()]. *)
Definition report_nothing (app : App) (text : string) : App :=
  MkApp (app_df app) (de_anza_courses app) (current_results app) text [].

(** Lines 690-732, up to the rendering of the cells. *)
Definition display_results `{Polars} (app : App) (result_df : DataFrame) : App :=
  let total_rows := length result_df in
  let unique_cids := unique_cells (map cid result_df) in
  let found :=
    ("Found " ++ Str.of_nat (length unique_cids) ++ " C-ID(s), "
     ++ Str.of_nat total_rows ++ " course(s)")%string in
  if MAX_DISPLAY_RESULTS <? total_rows
  then MkApp (app_df app) (de_anza_courses app) (current_results app)
         (found ++ " - Showing first " ++ Str.of_nat MAX_DISPLAY_RESULTS)%string
         (firstn MAX_DISPLAY_RESULTS result_df)
  else MkApp (app_df app) (de_anza_courses app) (current_results app) found result_df.

(** Lines 536-574. *)
Definition show_equivalencies `{Polars} (app : App) (department course_number : string)
  : App :=
  match app_df app, de_anza_courses app with
  | Some df, Some courses =>
      let de_anza_course := select_course courses department course_number in
      match de_anza_course with
      | [] => report_nothing app "Course not found"
      | _ :: _ =>
          let cids := unique_cells (map (fun c => cid (course_row c)) de_anza_course) in
          match cids with
          | [] => report_nothing app "No CID found for this course"
          | first :: _ =>
              if cell_eqb first (Some "")
              then report_nothing app "No CID found for this course"
              else
                let result_df := filter (is_in cids) df in
                match result_df with
                | [] => report_nothing app "No equivalent courses found"
                | _ :: _ =>
                    display_results
                      (MkApp (app_df app) (de_anza_courses app) (Some result_df)
                         (results_count app) (results_table app))
                      result_df
                end
          end
      end
  | _, _ => app
  end.

(** ** [EquivalencyApp]: the list boxes and their handlers

    The handlers below run after [setup_gui], so every item they test with
    [does_item_exist] exists.  [self.df.filter] on a missing frame raises
    [AttributeError]. *)

Inductive called (A : Type) : Type :=
| Returned (a : A)
| AttributeError.

Arguments Returned {A} a.
Arguments AttributeError {A}.

(** A Python [dict] with string keys: the entries in insertion order, one per
    key. *)
Definition dict (V : Type) : Type := list (string * V).

Fixpoint dict_get {V : Type} (k : string) (d : dict V) : option V :=
  match d with
  | [] => None
  | (k', v) :: rest => if String.eqb k' k then Some v else dict_get k rest
  end.

(** [d[k] = v]: a new key goes last, an old key keeps its place. *)
Fixpoint dict_set {V : Type} (k : string) (v : V) (d : dict V) : dict V :=
  match d with
  | [] => [(k, v)]
  | (k', v') :: rest =>
      if String.eqb k' k then (k, v) :: rest else (k', v') :: dict_set k v rest
  end.

(** [sorted(xs, key=key)] for keys compared with [lt]: the stable sort. *)
Fixpoint insert_by {A K : Type} (lt : K -> K -> bool) (key : A -> K) (x : A)
  (l : list A) : list A :=
  match l with
  | [] => [x]
  | y :: rest =>
      if lt (key x) (key y) then x :: y :: rest
      else y :: insert_by lt key x rest
  end.

Definition sorted_by {A K : Type} (lt : K -> K -> bool) (key : A -> K) (l : list A)
  : list A :=
  fold_left (fun acc x => insert_by lt key x acc) l [].

(** Lines 420-424. *)
Definition first_course_number (number_str : string) : string :=
  if Str.is_empty number_str then EmptyString
  else Str.strip Char.is_py_space
         (fst (Str.span (fun c => negb (Ascii.eqb c "+")) number_str)).

(** [int(digits)] for a run of decimal digits. *)
Fixpoint int_of_digits (acc : nat) (digits : string) : nat :=
  match digits with
  | EmptyString => acc
  | String c t => int_of_digits (acc * 10 + (Char.code c - 48)) t
  end.

(** Lines 426-436. *)
Definition natural_sort_key (s : string) : nat * string :=
  let s := Str.strip Char.is_py_space s in
  let (digits, rest) := Str.span Char.is_digit s in
  let suffix := Str.strip Char.is_py_space rest in
  let num := if Str.is_empty digits then 0 else int_of_digits 0 digits in
  (num, suffix).

(** [<] on the keys, as Python compares tuples of an [int] and a [str]. *)
Definition key_lt (a b : nat * string) : bool :=
  (fst a <? fst b) || ((fst a =? fst b) && String.ltb (snd a) (snd b)).

Definition MAX_TITLE_LEN : nat := 40.

Definition short_title (title : string) : string :=
  (String.substring 0 MAX_TITLE_LEN title
   ++ (if Nat.ltb MAX_TITLE_LEN (String.length title) then "..." else ""))%string.

(** Lines 458-461: the label of a course in the list box. *)
Definition course_label (first_num cid_text short : string) : string :=
  if negb (Str.is_empty cid_text)
  then (if negb (Str.is_empty short)
        then first_num ++ " (" ++ cid_text ++ ") :: " ++ short
        else first_num ++ " (" ++ cid_text ++ ")")%string
  else (if negb (Str.is_empty short)
        then first_num ++ " :: " ++ short
        else first_num)%string.

(** Lines 449-462: one round of the loop that fills [seen]. *)
Definition see_course (seen : dict (string * string)) (c : Course)
  : dict (string * string) :=
  let number := Number c in
  let title := Str.strip Char.is_py_space (fill_null "" (local_title (course_row c))) in
  let cid_text := Str.strip Char.is_py_space (fill_null "" (cid (course_row c))) in
  let first_num := first_course_number number in
  if Str.is_empty first_num then seen
  else
    match dict_get first_num seen with
    | Some _ => seen
    | None =>
        dict_set first_num (course_label first_num cid_text (short_title title), number)
          seen
    end.

Definition seen_courses (dept_courses : list Course) : dict (string * string) :=
  fold_left see_course dept_courses [].

(** [seen[n]]; every [n] asked for is a key of [seen]. *)
Definition seen_entry (seen : dict (string * string)) (n : string) : string * string :=
  match dict_get n seen with
  | Some e => e
  | None => (EmptyString, EmptyString)
  end.

(** Line 466; [int] of a run of ASCII digits does not raise, so the fallback
    of lines 467-468 is not taken. *)
Definition sorted_numbers (seen : dict (string * string)) : list string :=
  sorted_by key_lt natural_sort_key (map fst seen).

(** The state the handlers of the list boxes read and write, around the
    [App]. *)
Record Window : Type := MkWindow {
  win_app : App;
  selected_dept : option string;             (* [self.selected_dept] *)
  selected_course : option string;           (* [self.selected_course] *)
  dept_items : list string;                  (* items of "dept_listbox" *)
  course_items : list string;                (* items of "course_listbox" *)
  course_display_to_number : dict (string * string);
                                             (* [self._course_display_to_number] *)
  selected_dept_info : string;               (* text of "selected_dept_info" *)
  selected_course_info : string              (* text of "selected_course_info" *)
}.

Definition with_app (w : Window) (app : App) : Window :=
  MkWindow app (selected_dept w) (selected_course w) (dept_items w) (course_items w)
    (course_display_to_number w) (selected_dept_info w) (selected_course_info w).

Definition sort_strings (l : list string) : list string :=
  sorted_by String.ltb (fun s => s) l.

(** Lines 391-401: the sorted distinct departments; the [Dept] column has no
    null. *)
Definition populate_departments `{Polars} (w : Window) : Window :=
  match de_anza_courses (win_app w) with
  | None => w
  | Some courses =>
      let departments :=
        sort_strings
          (map (fill_null "") (unique_cells (map (fun c => Some (Dept c)) courses))) in
      MkWindow (win_app w) (selected_dept w) (selected_course w) departments
        (course_items w) (course_display_to_number w) (selected_dept_info w)
        (selected_course_info w)
  end.

(** Lines 438-479. *)
Definition populate_courses (w : Window) (department : string) : Window :=
  match de_anza_courses (win_app w) with
  | None => w
  | Some courses =>
      let dept_courses := filter (fun c => String.eqb (Dept c) department) courses in
      let seen := seen_courses dept_courses in
      let sorted_nums := sorted_numbers seen in
      let items := EmptyString :: map (fun n => fst (seen_entry seen n)) sorted_nums in
      let table :=
        fold_left (fun d n => dict_set (fst (seen_entry seen n))
                                (n, snd (seen_entry seen n)) d)
          sorted_nums [] in
      let table := dict_set EmptyString (EmptyString, EmptyString) table in
      MkWindow (win_app w) (selected_dept w) (selected_course w) (dept_items w)
        items table (selected_dept_info w) (selected_course_info w)
  end.

(** Lines 508-534. *)
Definition show_department_courses `{Polars} (app : App) (department : string)
  : called App :=
  match de_anza_courses app with
  | None => Returned app
  | Some courses =>
      let dept_courses := filter (fun c => String.eqb (Dept c) department) courses in
      match dept_courses with
      | [] => Returned (report_nothing app "No courses found for this department")
      | _ :: _ =>
          let cids := unique_cells (map (fun c => cid (course_row c)) dept_courses) in
          match app_df app with
          | None => AttributeError
          | Some df =>
              let result_df := filter (is_in cids) df in
              match result_df with
              | [] => Returned (report_nothing app "No courses found")
              | _ :: _ =>
                  Returned
                    (display_results
                       (MkApp (app_df app) (de_anza_courses app) (Some result_df)
                          (results_count app) (results_table app))
                       result_df)
              end
          end
      end
  end.

(** Lines 403-418. *)
Definition on_dept_selected `{Polars} (w : Window) (app_data : string) : called Window :=
  let w := MkWindow (win_app w) (Some app_data) None (dept_items w) (course_items w)
             (course_display_to_number w)
             ("Department: " ++ app_data)%string "Course: None" in
  let w := populate_courses w app_data in
  match show_department_courses (win_app w) app_data with
  | Returned app => Returned (with_app w app)
  | AttributeError => AttributeError
  end.

(** [text.split(sep)[0]]: the text before the first [sep]. *)
Fixpoint before_first (sep s : string) : string :=
  if Str.starts_with sep s then EmptyString
  else match s with
       | EmptyString => EmptyString
       | String c t => String c (before_first sep t)
       end.

(** Lines 499-503: the course number a selected label stands for. *)
Definition resolve_course_number (table : dict (string * string)) (app_data : string)
  : string :=
  let course_number :=
    if Str.contains " :: " app_data
    then Str.strip Char.is_py_space (before_first " :: " app_data)
    else Str.strip Char.is_py_space app_data in
  match table with
  | [] => course_number
  | _ :: _ =>
      match dict_get app_data table with
      | Some entry => fst entry
      | None => course_number
      end
  end.

(** Lines 481-506. *)
Definition on_course_selected `{Polars} (w : Window) (app_data : string) : called Window :=
  match selected_dept w with
  | None => Returned w
  | Some dept =>
      if Str.is_empty dept then Returned w
      else
        let w := MkWindow (win_app w) (selected_dept w) (Some app_data) (dept_items w)
                   (course_items w) (course_display_to_number w)
                   (selected_dept_info w) (selected_course_info w) in
        if Str.is_empty (Str.strip Char.is_py_space app_data) then
          let w := MkWindow (win_app w) (selected_dept w) (selected_course w)
                     (dept_items w) (course_items w) (course_display_to_number w)
                     (selected_dept_info w) "Course: (All courses)" in
          match show_department_courses (win_app w) dept with
          | Returned app => Returned (with_app w app)
          | AttributeError => AttributeError
          end
        else
          let w := MkWindow (win_app w) (selected_dept w) (selected_course w)
                     (dept_items w) (course_items w) (course_display_to_number w)
                     (selected_dept_info w) ("Course: " ++ app_data)%string in
          let course_number :=
            resolve_course_number (course_display_to_number w) app_data in
          Returned (with_app w (show_equivalencies (win_app w) dept course_number))
  end.

(** Lines 576-596. *)
Definition clear_selection (w : Window) : Window :=
  MkWindow
    (MkApp (app_df (win_app w)) (de_anza_courses (win_app w))
       (current_results (win_app w)) "Ready - Select a department and course" [])
    None None (dept_items w) [] (course_display_to_number w)
    "Department: None" "Course: None".

(** ** The callbacks of the window

    [setup_gui] registers [on_dept_selected] with the department list,
    [on_course_selected] with the course list and [clear_selection] with the
    button (lines 290, 303 and 316); the library calls them one at a time.
    The sort callback of the table reads and writes no field of the
    application and is left out. *)

Inductive Event : Type :=
| DeptSelected (app_data : string)
| CourseSelected (app_data : string)
| ClearClicked.

Definition handle `{Polars} (w : Window) (e : Event) : called Window :=
  match e with
  | DeptSelected app_data => on_dept_selected w app_data
  | CourseSelected app_data => on_course_selected w app_data
  | ClearClicked => Returned (clear_selection w)
  end.

Fixpoint handle_all `{Polars} (w : Window) (events : list Event) : called Window :=
  match events with
  | [] => Returned w
  | e :: rest =>
      match handle w e with
      | Returned w' => handle_all w' rest
      | AttributeError => AttributeError
      end
  end.

(** ** [extract_dept_and_number] and the rows of the results table *)

Definition is_py_dept_char (c : ascii) : bool := Char.is_upper c || Char.is_py_space c.

(** What [.*] followed by [$] takes of a text in Python's [re]: all of it, or
    all but a line feed that ends it. *)
Fixpoint chomp (s : string) : string :=
  match s with
  | EmptyString => EmptyString
  | String c EmptyString => if Char.is_newline c then EmptyString else s
  | String c t => String c (chomp t)
  end.

(** The two groups of the [re.match] of line 94.  The pattern is the one of
    lines 378-379, matched here by Python: the blanks are those of
    [str.isspace], and the end of the text may be taken before a final line
    feed. *)
Definition match_dept_and_number (s : string) : option (string * string) :=
  let (head, tail) := Str.span is_py_dept_char s in
  match tail with
  | String d _ =>
      let number := chomp tail in
      if Char.is_digit d && Str.forallb (fun c => negb (Char.is_newline c)) number then
        let trimmed := Str.rstrip Char.is_py_space head in
        let group1 := if Str.is_empty trimmed then first_char head else trimmed in
        if negb (Str.is_empty group1) && (String.length group1 <? String.length head)
        then Some (group1, number) else None
      else None
  | EmptyString => None
  end.

(** Lines 84-97. *)
Definition extract_dept_and_number (course_str : string) : string * string :=
  if Str.is_empty course_str then (EmptyString, EmptyString)
  else
    match match_dept_and_number (Str.strip Char.is_py_space course_str) with
    | Some (g1, g2) => (Str.strip Char.is_py_space g1, Str.strip Char.is_py_space g2)
    | None => (EmptyString, course_str)
    end.

(** A row of "results_table": the five cells in column order, and whether the
    row is drawn with the theme of the home institution. *)
Record TableRow : Type := MkTableRow {
  shown_cid : string;
  shown_school : string;
  shown_dept : string;
  shown_number : string;
  shown_title : string;
  is_de_anza : bool
}.

(** Lines 707-732: one round of the loop that adds the rows. *)
Definition render_row (r : Row) : TableRow :=
  let school := Str.strip Char.is_py_space (fill_null "" (institution r)) in
  let local_course := Str.strip Char.is_py_space (fill_null "" (local_dept_number r)) in
  let (dept, number) := extract_dept_and_number local_course in
  let title := Str.strip Char.is_py_space (fill_null "" (local_title r)) in
  let cid_text := Str.strip Char.is_py_space (fill_null "" (cid r)) in
  MkTableRow cid_text school dept number title
    (Str.contains (Str.upper HOME_INSTITUTION) (Str.upper school)).

(** ** Two instances of the library behaviour *)

Definition cells_eq_dec (a b : option string) : {a = b} + {a <> b}.
Proof. decide equality. apply string_dec. Defined.

Definition core_eq_dec (a b : list (option string)) : {a = b} + {a <> b} :=
  list_eq_dec cells_eq_dec a b.

(** Keep the first element of every group of elements with the same key, in
    list order (what [maintain_order=True] would give). *)
Fixpoint keep_first {A K : Type} (eq_dec : forall a b : K, {a = b} + {a <> b})
  (key : A -> K) (seen : list K) (l : list A) : list A :=
  match l with
  | [] => []
  | x :: rest =>
      if in_dec eq_dec (key x) seen then keep_first eq_dec key seen rest
      else x :: keep_first eq_dec key (key x :: seen) rest
  end.

Definition first_rows (df : DataFrame) : DataFrame :=
  keep_first core_eq_dec core_fields [] df.

Definition first_cells (cells : list (option string)) : list (option string) :=
  keep_first cells_eq_dec (fun c => c) [] cells.

(** ** Properties of result sets *)

(** The predicate the program partitions by: the normalised institution
    contains the upper-cased home name. *)
Definition is_home (r : Row) : bool :=
  Str.contains (Str.upper HOME_INSTITUTION) (Institution_norm r).

(** [kw] occurs in [s] at the start of a word: at the start of [s] or right
    after a character that is not a word character. *)
Fixpoint word_start_from (before : option ascii) (kw s : string) : bool :=
  (negb (Regex.at_word before) && Str.starts_with kw s) ||
  match s with
  | EmptyString => false
  | String c t => word_start_from (Some c) kw t
  end.

Definition starts_a_word (kw s : string) : bool := word_start_from None kw s.

(** Every home row is before every other row. *)
Definition home_rows_first (rows : DataFrame) : Prop :=
  forall i j a b,
    nth_error rows i = Some a -> nth_error rows j = Some b ->
    is_home a = true -> is_home b = false -> i < j.

(** [l] is [src] with some elements left out, order kept. *)
Inductive subsequence {A : Type} : list A -> list A -> Prop :=
| sub_nil : subsequence [] []
| sub_skip x l src : subsequence l src -> subsequence l (x :: src)
| sub_keep x l src : subsequence l src -> subsequence (x :: l) (x :: src).

(** No two rows agree on the five core columns. *)
Definition no_duplicate_rows (rows : DataFrame) : Prop :=
  NoDup (map core_fields rows).

(** ** Notions used to state the properties *)

(** The rows whose upper-cased C-ID contains "DEPT NUMBER". *)
Definition direct_match (df : DataFrame) (dept_code cid_number : string) : DataFrame :=
  filter (fun r => Str.contains (dept_code ++ " " ++ cid_number)%string
                     (Str.upper (fill_null "" (cid r)))) df.

(** The rows the expansion selects, before they are ordered. *)
Definition expansion `{Polars} (df results : DataFrame) : DataFrame :=
  filter (is_in (unique_cells (map cid results))) df.

(** The two counts of the classifier, by their meaning. *)
Definition dept_count (results : DataFrame) (kw : string) : nat :=
  length (filter (fun r => starts_a_word kw (Dept_norm r)) results).

Definition title_count (results : DataFrame) (kw : string) : nat :=
  length (filter (fun r => Str.contains kw (Title_norm r)) results).

(** The rows [load_de_anza_courses] keeps. *)
Definition is_de_anza_listed (r : Row) : bool :=
  match institution r with
  | Some s => Str.contains "DE ANZA" (Str.upper s)
  | None => false
  end.

Definition listed (c : Course) : bool :=
  negb (String.eqb (Dept c) "") && negb (String.eqb (Number c) "").

(** The required columns a table lacks, in the order of [REQUIRED_COLS]. *)
Definition missing_columns (table : CsvTable) : list string :=
  filter (fun c => negb (has_column (columns table) c)) REQUIRED_COLS.

(** ** The keyword search, token by token *)

(** Whether a pattern compiles, and the test [str.contains(pattern)] makes on
    a cell when it does. *)
Definition compiles (pattern : string) : bool :=
  match Regex.compile pattern with
  | Ok _ => true
  | Raised _ => false
  end.

Definition contains_re (pattern text : string) : bool :=
  match Regex.compile pattern with
  | Ok re => Regex.is_match re text
  | Raised _ => false
  end.

(** The keywords of a query, as line 141 splits them. *)
Definition tokens (query : string) : list string :=
  Str.split Char.is_py_space (Str.upper query).

(** Line 149-150: the keyword matches the institution of some row. *)
Definition names_institution (df : DataFrame) (kw : string) : bool :=
  existsb (fun r => contains_re kw (Institution_norm r)) df.

Definition institution_tokens (df : DataFrame) (kws : list string) : list string :=
  filter (names_institution df) kws.

Definition other_tokens (df : DataFrame) (kws : list string) : list string :=
  filter (fun kw => negb (names_institution df kw)) kws.

(** Lines 156-158: the rows that match every institution keyword. *)
Definition working_set (df : DataFrame) (kws : list string) : DataFrame :=
  filter (fun r => forallb (fun kw => contains_re kw (Institution_norm r))
                     (institution_tokens df kws)) df.

(** Lines 168-177, for one keyword against the working set. *)
Definition dept_shaped (kw : string) : bool :=
  dept_pattern kw && negb (in_words kw common_words).

Definition dept_hits (working : DataFrame) (kw : string) : nat :=
  length (filter (fun r => contains_re (dept_regex kw) (Dept_norm r)) working).

Definition title_hits (working : DataFrame) (kw : string) : nat :=
  length (filter (fun r => contains_re kw (Title_norm r)) working).

Definition is_department (working : DataFrame) (kw : string) : bool :=
  dept_shaped kw && (0 <? dept_hits working kw)
  && (title_hits working kw <? dept_hits working kw * 10).

Definition is_title (working : DataFrame) (kw : string) : bool :=
  if dept_shaped kw
  then negb (is_department working kw) && (0 <? title_hits working kw)
  else true.

Definition department_tokens (df : DataFrame) (kws : list string) : list string :=
  filter (is_department (working_set df kws)) (other_tokens df kws).

Definition title_tokens (df : DataFrame) (kws : list string) : list string :=
  filter (is_title (working_set df kws)) (other_tokens df kws).

(** The test the whole query makes on a row: every institution keyword in the
    institution, every department keyword at a word start of the department,
    every title keyword in the title. *)
Definition row_passes (df : DataFrame) (kws : list string) (r : Row) : bool :=
  forallb (fun kw => contains_re kw (Institution_norm r)) (institution_tokens df kws)
  && forallb (fun kw => contains_re (dept_regex kw) (Dept_norm r))
       (department_tokens df kws)
  && forallb (fun kw => contains_re kw (Title_norm r)) (title_tokens df kws).

(** Characters that cannot make a pattern invalid or special: everything but
    the regex meta-characters, within ASCII. *)
Definition plain_text (s : string) : bool := Str.forallb Regex.is_plain s.

(** ** Shapes of normalised text *)

(** No lower-case letter. *)
Definition no_lower (s : string) : bool :=
  Str.forallb (fun c => negb (Char.is_lower c)) s.

(** The only whitespace is the space, and no two spaces are adjacent. *)
Definition single_spaced (s : string) : bool :=
  Str.forallb (fun c => negb (Char.is_rust_space c) || Ascii.eqb c " ") s
  && negb (Str.contains "  " s).

(** ** Notions of the list boxes *)

(** The test one trailing word of a C-ID query makes on a row. *)
Definition extra_test (kw : string) (r : Row) : bool :=
  contains_re kw (Institution_norm r) || contains_re kw (Title_norm r).

(** The listed courses of a department: [dept_courses] of lines 443 and
    514. *)
Definition department_courses (courses : list Course) (department : string)
  : list Course :=
  filter (fun c => String.eqb (Dept c) department) courses.

(** The only whitespace of a course number is the space. *)
Definition only_space_blanks (s : string) : bool :=
  Str.forallb (fun c => negb (Char.is_py_space c) || Ascii.eqb c " ") s.

(** The first course number of a course, and the label lines 458-461 give
    it. *)
Definition first_number_of (c : Course) : string := first_course_number (Number c).

Definition label_of (c : Course) : string :=
  course_label (first_number_of c)
    (Str.strip Char.is_py_space (fill_null "" (cid (course_row c))))
    (short_title (Str.strip Char.is_py_space (fill_null "" (local_title (course_row c))))).

(** ** Sample catalogue *)

Module Sample.

(** A data row of a CSV file whose header is [REQUIRED_COLS], as [load_data]
    stores it. *)
Definition row (c descr inst title dept : string) : Row :=
  with_norm_columns REQUIRED_COLS [Some c; Some descr; Some inst; Some title; Some dept].

Definition foothill_acct : Row :=
  row "ACCT 110" "Financial Accounting" "Foothill College" "Financial Accounting" "ACTG 1A".
Definition de_anza_acct : Row :=
  row "ACCT 110" "Financial Accounting" "De Anza College" "Financial Accounting I" "ACCT 1A".
Definition de_anza_biol : Row :=
  row "BIOL 190" "Cell and Molecular Biology" "De Anza College" "Cell Biology"
    "BIOL 6A + BIOL 6C".
Definition hartnell_biol : Row :=
  row "BIOL 190" "Cell and Molecular Biology" "Hartnell College" "Cell Biology" "BIO 1".

Definition catalog : DataFrame :=
  [foothill_acct; de_anza_acct; de_anza_biol; hartnell_biol].

(** The same catalogue with one line of the file repeated. *)
Definition catalog_twice : DataFrame := catalog ++ [foothill_acct].

(** Two courses that have no C-ID: the cell is the empty string. *)
Definition foothill_no_cid : Row :=
  row "" "" "Foothill College" "Marine Biology" "BIOL 13".
Definition de_anza_no_cid : Row :=
  row "" "" "De Anza College" "Bookkeeping" "ACCT 58".

Definition catalog_no_cid : DataFrame := [foothill_no_cid; de_anza_no_cid].

(** A title in which the pattern [C.S] matches although the three characters
    do not occur in it. *)
Definition foothill_access : Row :=
  row "ITIS 160" "Access Control" "Foothill College" "Access Control" "CNET 55".



Definition started (df : DataFrame) : App := MkApp (Some df) None None "" [].

Definition file_system (table : CsvTable + string) (present : bool) : FileSystem :=
  MkFs (fun p => ("/srv/app/" ++ p)%string) (fun _ => present) (fun _ => table).

(** The application once the course index of the catalogue is loaded, and its
    window before any choice. *)
Definition loaded : App :=
  MkApp (Some catalog)
    (Some (filter listed
             (map to_course (filter has_cid (filter is_de_anza_listed catalog)))))
    None "" [].

Definition window : Window := MkWindow loaded None None [] [] [] "" "".

End Sample.

(** * Facts *)

(** ** Lists and strings *)

Ltac by_cases_on_char c :=
  destruct c as [[] [] [] [] [] [] [] []]; try discriminate; try reflexivity.

Lemma filter_ext_eq {A : Type} (f g : A -> bool) (l : list A) :
  (forall x, f x = g x) -> filter f l = filter g l.
Proof.
  intros E. induction l as [|x l IH]; simpl; [reflexivity|].
  rewrite E, IH. reflexivity.
Qed.

Lemma filter_subsequence {A : Type} (f : A -> bool) (l : list A) :
  subsequence (filter f l) l.
Proof.
  induction l as [|x l IH]; simpl.
  - constructor.
  - destruct (f x); now constructor.
Qed.

Lemma subsequence_refl {A : Type} (l : list A) : subsequence l l.
Proof. induction l; now constructor. Qed.

Lemma subsequence_trans {A : Type} (a b c : list A) :
  subsequence a b -> subsequence b c -> subsequence a c.
Proof.
  intros Hab Hbc. revert a Hab.
  induction Hbc as [|x l src Hbc IH|x l src Hbc IH]; intros a Hab.
  - exact Hab.
  - constructor. now apply IH.
  - inversion Hab; subst.
    + apply sub_skip. now apply IH.
    + apply sub_keep. now apply IH.
Qed.

Lemma span_all (p : ascii -> bool) (s : string) :
  Str.forallb p (fst (Str.span p s)) = true.
Proof.
  induction s as [|c t IH]; simpl; [reflexivity|].
  destruct (p c) eqn:E; [|reflexivity].
  destruct (Str.span p t); simpl in *. now rewrite E.
Qed.

Lemma span_of_run (p : ascii -> bool) (a b : string) :
  Str.forallb p a = true ->
  (match b with String c _ => p c = false | EmptyString => True end) ->
  Str.span p (a ++ b)%string = (a, b).
Proof.
  intros Ha Hb. induction a as [|c a IH]; simpl in *.
  - destruct b as [|c b]; [reflexivity|]. simpl. now rewrite Hb.
  - apply andb_true_iff in Ha as [Hc Ha]. rewrite Hc, (IH Ha). reflexivity.
Qed.

Lemma forallb_weaken (p q : ascii -> bool) (s : string) :
  (forall c, p c = true -> q c = true) ->
  Str.forallb p s = true -> Str.forallb q s = true.
Proof.
  intros Hpq. induction s as [|c t IH]; simpl; [reflexivity|].
  intros H. apply andb_true_iff in H as [Hc Ht].
  now rewrite (Hpq _ Hc), (IH Ht).
Qed.

Lemma forallb_append (p : ascii -> bool) (a b : string) :
  Str.forallb p (a ++ b)%string = Str.forallb p a && Str.forallb p b.
Proof.
  induction a as [|c a IH]; simpl; [reflexivity|].
  now rewrite IH, andb_assoc.
Qed.

Lemma append_assoc (a b c : string) :
  ((a ++ b) ++ c)%string = (a ++ (b ++ c))%string.
Proof. induction a as [|x a IH]; simpl; [reflexivity|]. now rewrite IH. Qed.

Lemma starts_with_append (p rest : string) :
  Str.starts_with p (p ++ rest)%string = true.
Proof.
  induction p as [|c p IH]; simpl; [reflexivity|].
  now rewrite Ascii.eqb_refl, IH.
Qed.

Lemma starts_with_split (p s : string) :
  Str.starts_with p s = true -> exists rest, s = (p ++ rest)%string.
Proof.
  revert s. induction p as [|c p IH]; intros s H; simpl in *.
  - now exists s.
  - destruct s as [|d s]; [discriminate|].
    apply andb_true_iff in H as [Hc Hp].
    apply Ascii.eqb_eq in Hc. subst d.
    destruct (IH _ Hp) as [rest ->]. now exists rest.
Qed.

Lemma contains_here (p s : string) :
  Str.starts_with p s = true -> Str.contains p s = true.
Proof. intros H. destruct s; simpl in *; now rewrite H. Qed.

Lemma contains_append_r (p a b : string) :
  Str.contains p b = true -> Str.contains p (a ++ b)%string = true.
Proof.
  intros H. induction a as [|c a IH]; simpl; [exact H|].
  rewrite IH. apply orb_true_r.
Qed.

Lemma starts_with_append_l (p a b : string) :
  Str.starts_with p a = true -> Str.starts_with p (a ++ b)%string = true.
Proof.
  revert a. induction p as [|c p IH]; intros a H; simpl in *; [reflexivity|].
  destruct a as [|d a]; [discriminate|]. simpl.
  apply andb_true_iff in H as [Hc Hp]. now rewrite Hc, (IH _ Hp).
Qed.

Lemma contains_append_l (p a b : string) :
  Str.contains p a = true -> Str.contains p (a ++ b)%string = true.
Proof.
  induction a as [|c a IH]; intros H.
  - simpl in H. rewrite orb_false_r in H.
    destruct p; [|discriminate]. destruct b; reflexivity.
  - simpl in H. apply orb_true_iff in H as [H|H].
    + apply contains_here. now apply (starts_with_append_l _ (String c a)).
    + simpl. rewrite (IH H). apply orb_true_r.
Qed.

Lemma contains_self (p : string) : Str.contains p p = true.
Proof.
  apply contains_here. induction p as [|c p IH]; simpl; [reflexivity|].
  now rewrite Ascii.eqb_refl, IH.
Qed.

(** ** Regular expressions *)

Module RegexFacts.
Import Regex.

Lemma upper_is_plain c : Char.is_upper c = true -> is_plain c = true.
Proof. by_cases_on_char c. Qed.

Lemma digit_is_plain c : Char.is_digit c = true -> is_plain c = true.
Proof. by_cases_on_char c. Qed.

Lemma upper_not_special c : Char.is_upper c = true -> py_special c = false.
Proof. by_cases_on_char c. Qed.

Lemma upper_is_word c : Char.is_upper c = true -> Char.is_word c = true.
Proof. by_cases_on_char c. Qed.

Lemma parse_plain_char c cur stack t :
  is_plain c = true ->
  parse Normal cur stack (String c t) = parse Normal (push_atom (Lit c) cur) stack t.
Proof. by_cases_on_char c. Qed.

Lemma parse_plain p : forall cur stack,
  Str.forallb is_plain p = true ->
  parse Normal cur stack p = parse Normal (push_lits p cur) stack EmptyString.
Proof.
  induction p as [|c t IH]; intros cur stack H; simpl in H.
  - reflexivity.
  - apply andb_true_iff in H as [Hc Ht].
    rewrite parse_plain_char by exact Hc. now rewrite IH.
Qed.

Lemma push_lits_branches p : forall f, branches (push_lits p f) = branches f.
Proof. induction p as [|c t IH]; intros f; simpl; [reflexivity|]. now rewrite IH. Qed.

Lemma push_lits_concat p : forall f acc,
  fold_left (fun acc a => Cat a acc) (atoms (push_lits p f)) acc =
  fold_left (fun acc a => Cat a acc) (atoms f) (literal_onto p acc).
Proof.
  induction p as [|c t IH]; intros f acc; simpl; [reflexivity|].
  now rewrite IH.
Qed.

Lemma compile_plain p :
  Str.forallb is_plain p = true -> compile p = Ok (literal p).
Proof.
  intros H. unfold compile. rewrite parse_plain by exact H. simpl.
  unfold close_frame, close_concat.
  rewrite push_lits_branches, push_lits_concat. reflexivity.
Qed.

Lemma matches_at_literal_onto p : forall tail k,
  (forall k', matches_at tail k' = true) ->
  matches_at (literal_onto p tail) k = Str.starts_with p (rest k).
Proof.
  induction p as [|c t IH]; intros tail k Htail; simpl.
  - apply Htail.
  - destruct k as [pv [|d s]]; simpl; [reflexivity|].
    unfold matches_at. simpl.
    destruct (Ascii.eqb c d); simpl; [|reflexivity].
    rewrite app_nil_r. apply (IH tail (Cursor (Some d) s) Htail).
Qed.

Lemma matches_at_literal p k :
  matches_at (literal p) k = Str.starts_with p (rest k).
Proof. apply matches_at_literal_onto. reflexivity. Qed.

Lemma is_match_literal p text : is_match (literal p) text = Str.contains p text.
Proof.
  unfold is_match. generalize (@None ascii) as pv.
  induction text as [|c t IH]; intros pv; simpl.
  - rewrite matches_at_literal. simpl. reflexivity.
  - rewrite matches_at_literal. simpl. now rewrite IH.
Qed.

End RegexFacts.

(** ** Filters of the search *)

Module SearchFacts.
Import Regex RegexFacts.

Lemma filter_contains_plain (col : Row -> string) (p : string) (df : DataFrame) :
  Str.forallb is_plain p = true ->
  filter_contains col p df = Ok (filter (fun r => Str.contains p (col r)) df).
Proof.
  intros H. unfold filter_contains. rewrite compile_plain by exact H. simpl.
  f_equal. apply filter_ext_eq. intros r. apply is_match_literal.
Qed.

Lemma de_anza_first_eq (df : DataFrame) :
  de_anza_first df =
  Ok (filter is_home df ++ filter (fun r => negb (is_home r)) df).
Proof.
  unfold de_anza_first.
  rewrite compile_plain by reflexivity. simpl.
  rewrite (filter_ext_eq
             (fun r => is_match (literal (Str.upper HOME_INSTITUTION)) (Institution_norm r))
             is_home) by (intros r; apply is_match_literal).
  rewrite (filter_ext_eq
             (fun r => negb (is_match (literal (Str.upper HOME_INSTITUTION))
                           (Institution_norm r)))
             (fun r => negb (is_home r)))
    by (intros r; f_equal; apply is_match_literal).
  destruct (filter (fun r => negb (is_home r)) df); simpl.
  - now rewrite app_nil_r.
  - reflexivity.
Qed.

Lemma partition_home_first (df : DataFrame) :
  home_rows_first (filter is_home df ++ filter (fun r => negb (is_home r)) df).
Proof.
  intros i j a b Hi Hj Ha Hb.
  assert (Li : i < length (filter is_home df)).
  { destruct (Nat.lt_ge_cases i (length (filter is_home df))) as [L|L]; [exact L|].
    rewrite nth_error_app2 in Hi by exact L.
    apply nth_error_In, filter_In in Hi as [_ Hi].
    rewrite Ha in Hi. discriminate. }
  destruct (Nat.lt_ge_cases j (length (filter is_home df))) as [L|L]; [|lia].
  rewrite nth_error_app1 in Hj by exact L.
  apply nth_error_In, filter_In in Hj as [_ Hj].
  rewrite Hb in Hj. discriminate.
Qed.

Lemma filter_app_same {A : Type} (f g : A -> bool) (l : list A) :
  (forall x, g x = true -> f x = true) ->
  filter f (filter g l) = filter g l.
Proof.
  intros H. induction l as [|x l IH]; simpl; [reflexivity|].
  destruct (g x) eqn:E; simpl; [|exact IH].
  now rewrite (H _ E), IH.
Qed.

Lemma filter_none {A : Type} (f g : A -> bool) (l : list A) :
  (forall x, g x = true -> f x = false) ->
  filter f (filter g l) = [].
Proof.
  intros H. induction l as [|x l IH]; simpl; [reflexivity|].
  destruct (g x) eqn:E; simpl; [|exact IH].
  now rewrite (H _ E), IH.
Qed.

Lemma escape_capitals (kw : string) :
  Str.forallb Char.is_upper kw = true -> escape kw = kw.
Proof.
  induction kw as [|c t IH]; simpl; [reflexivity|].
  intros H. apply andb_true_iff in H as [Hc Ht].
  now rewrite (upper_not_special _ Hc), (IH Ht).
Qed.

Lemma compile_dept_regex (kw : string) :
  Str.forallb Char.is_upper kw = true ->
  compile (dept_regex kw) = Ok (Cat WordB (literal kw)).
Proof.
  intros H. unfold dept_regex. rewrite escape_capitals by exact H.
  unfold compile. simpl.
  rewrite parse_plain by (eapply forallb_weaken; [apply upper_is_plain|exact H]).
  simpl. unfold close_frame, close_concat.
  rewrite push_lits_branches, push_lits_concat. reflexivity.
Qed.

Lemma matches_at_word_start (kw : string) (k : cursor) :
  Str.forallb Char.is_upper kw = true -> kw <> EmptyString ->
  matches_at (Cat WordB (literal kw)) k =
  negb (at_word (prev k)) && Str.starts_with kw (rest k).
Proof.
  intros H Hne. unfold matches_at at 1. simpl.
  destruct kw as [|c kw]; [congruence|].
  simpl in H. apply andb_true_iff in H as [Hc _].
  destruct k as [pv [|d s]]; simpl.
  - unfold next_char. simpl. rewrite xorb_false_r.
    destruct (at_word pv); reflexivity.
  - unfold next_char. simpl.
    destruct (Ascii.eqb c d) eqn:E.
    + apply Ascii.eqb_eq in E. subst d. rewrite (upper_is_word _ Hc).
      rewrite xorb_true_r. destruct (at_word pv); simpl; [reflexivity|].
      rewrite app_nil_r.
      change (matches_at (literal (String c kw)) (Cursor pv (String c s)) =
              Str.starts_with kw s).
      rewrite matches_at_literal. simpl. now rewrite Ascii.eqb_refl.
    + simpl. rewrite andb_false_r.
      destruct (xorb (at_word pv) (Char.is_word d)); simpl; [|reflexivity].
      now rewrite E.
Qed.

Lemma is_match_word_start (kw text : string) :
  Str.forallb Char.is_upper kw = true -> kw <> EmptyString ->
  is_match (Cat WordB (literal kw)) text = starts_a_word kw text.
Proof.
  intros H Hne. unfold is_match, starts_a_word. generalize (@None ascii) as pv.
  induction text as [|c t IH]; intros pv; simpl.
  - rewrite matches_at_word_start by assumption. simpl. reflexivity.
  - rewrite matches_at_word_start by assumption. simpl. now rewrite IH.
Qed.

Lemma filter_dept_regex (kw : string) (df : DataFrame) :
  Str.forallb Char.is_upper kw = true -> kw <> EmptyString ->
  filter_contains Dept_norm (dept_regex kw) df =
  Ok (filter (fun r => starts_a_word kw (Dept_norm r)) df).
Proof.
  intros H Hne. unfold filter_contains. rewrite compile_dept_regex by exact H. simpl.
  f_equal. apply filter_ext_eq. intros r. now apply is_match_word_start.
Qed.

End SearchFacts.

(** ** The instances satisfy the laws *)

Section KeepFirst.
Context {A K : Type}.
Variable eq_dec : forall a b : K, {a = b} + {a <> b}.
Variable key : A -> K.

Lemma keep_first_sound (l : list A) : forall seen x,
  In x (keep_first eq_dec key seen l) -> In x l.
Proof.
  induction l as [|y l IH]; intros seen x H; simpl in *; [exact H|].
  destruct (in_dec eq_dec (key y) seen).
  - right. eapply IH, H.
  - destruct H as [->|H]; [now left|right; eapply IH, H].
Qed.

Lemma keep_first_fresh (l : list A) : forall seen x,
  In x (keep_first eq_dec key seen l) -> ~ In (key x) seen.
Proof.
  induction l as [|y l IH]; intros seen x H; simpl in *; [contradiction|].
  destruct (in_dec eq_dec (key y) seen) as [i|n].
  - eapply IH, H.
  - destruct H as [->|H]; [exact n|].
    intros Hin. apply (IH _ _ H). now right.
Qed.

Lemma keep_first_nodup (l : list A) : forall seen,
  NoDup (map key (keep_first eq_dec key seen l)).
Proof.
  induction l as [|y l IH]; intros seen; simpl; [constructor|].
  destruct (in_dec eq_dec (key y) seen) as [i|n]; [apply IH|].
  simpl. constructor; [|apply IH].
  intros Hin. apply in_map_iff in Hin as [x [Hk Hx]].
  apply keep_first_fresh in Hx. apply Hx. left. now symmetry.
Qed.

Lemma keep_first_complete (l : list A) : forall seen x,
  In x l -> In (key x) seen \/ In (key x) (map key (keep_first eq_dec key seen l)).
Proof.
  induction l as [|y l IH]; intros seen x H; simpl in *; [contradiction|].
  destruct (in_dec eq_dec (key y) seen) as [i|n].
  - destruct H as [->|H]; [now left|now apply IH].
  - destruct H as [->|H]; [right; now left|].
    destruct (IH (key y :: seen) x H) as [[E|S]|R].
    + right. left. exact E.
    + now left.
    + right. now right.
Qed.

Lemma keep_first_subsequence (l : list A) : forall seen,
  subsequence (keep_first eq_dec key seen l) l.
Proof.
  induction l as [|y l IH]; intros seen; simpl; [constructor|].
  destruct (in_dec eq_dec (key y) seen); [apply sub_skip|apply sub_keep]; apply IH.
Qed.
End KeepFirst.

Lemma first_cells_same (cells : list (option string)) (c : option string) :
  In c (first_cells cells) <-> In c cells.
Proof.
  split.
  - apply keep_first_sound.
  - intros H.
    destruct (keep_first_complete cells_eq_dec (fun c => c) cells [] c H) as [[]|R].
    now rewrite map_id in R.
Qed.

Lemma first_cells_nodup (cells : list (option string)) : NoDup (first_cells cells).
Proof.
  rewrite <- (map_id (first_cells cells)). apply keep_first_nodup.
Qed.

Lemma first_rows_complete (df : DataFrame) (r : Row) :
  In r df -> In (core_fields r) (map core_fields (first_rows df)).
Proof.
  intros H. now destruct (keep_first_complete core_eq_dec core_fields df [] r H) as [[]|R].
Qed.

(** Order kept, first representative kept. *)
Definition first_seen (null_matches : bool) : Polars := {|
  unique_rows := first_rows;
  unique_cells := first_cells;
  nulls_equal := null_matches;
  unique_rows_nodup := fun df => keep_first_nodup core_eq_dec core_fields df [];
  unique_rows_sound := fun df => keep_first_sound core_eq_dec core_fields df [];
  unique_rows_complete := first_rows_complete;
  unique_cells_nodup := first_cells_nodup;
  unique_cells_same := first_cells_same
|}.

Lemma last_rows_nodup (df : DataFrame) :
  NoDup (map core_fields (rev (first_rows df))).
Proof.
  rewrite map_rev. apply NoDup_rev. apply keep_first_nodup.
Qed.

Lemma last_rows_sound (df : DataFrame) (r : Row) :
  In r (rev (first_rows df)) -> In r df.
Proof. intros H. apply in_rev in H. eapply keep_first_sound, H. Qed.

Lemma last_rows_complete (df : DataFrame) (r : Row) :
  In r df -> In (core_fields r) (map core_fields (rev (first_rows df))).
Proof.
  intros H. rewrite map_rev. apply -> in_rev. now apply first_rows_complete.
Qed.

(** First representative kept, rows handed back in reverse. *)
Definition reversing (null_matches : bool) : Polars := {|
  unique_rows := fun df => rev (first_rows df);
  unique_cells := first_cells;
  nulls_equal := null_matches;
  unique_rows_nodup := last_rows_nodup;
  unique_rows_sound := last_rows_sound;
  unique_rows_complete := last_rows_complete;
  unique_cells_nodup := first_cells_nodup;
  unique_cells_same := first_cells_same
|}.

(** ** The fast path *)

Module FastPath.
Import Regex RegexFacts SearchFacts.

Lemma span_length (p : ascii -> bool) (s : string) :
  String.length (fst (Str.span p s)) <= String.length s.
Proof.
  induction s as [|c t IH]; simpl; [lia|].
  destruct (p c); simpl; [|lia].
  destruct (Str.span p t); simpl in *. lia.
Qed.

Lemma upper_length (s : string) : String.length (Str.upper s) = String.length s.
Proof.
  unfold Str.upper. induction s as [|c t IH]; simpl; [reflexivity|]. now rewrite IH.
Qed.

Lemma cid_pattern_length s d n g :
  cid_pattern s = Some (d, n, g) -> 2 <= String.length s.
Proof.
  unfold cid_pattern. pose proof (span_length Char.is_upper s) as L.
  destruct (Str.span Char.is_upper s) as [letters s1]. simpl in L.
  destruct (2 <=? String.length letters) eqn:E; simpl; [|discriminate].
  apply Nat.leb_le in E. intros _. lia.
Qed.

Lemma cid_pattern_plain s d n g :
  cid_pattern s = Some (d, n, g) ->
  Str.forallb is_plain (d ++ " " ++ n)%string = true.
Proof.
  unfold cid_pattern.
  pose proof (span_all Char.is_upper s) as Hl.
  destruct (Str.span Char.is_upper s) as [letters s1]. simpl in Hl.
  destruct ((2 <=? String.length letters) && (String.length letters <=? 5));
    [|discriminate].
  destruct (Str.span is_separator s1) as [seps s2].
  destruct (Str.is_empty seps); [discriminate|].
  pose proof (span_all Char.is_digit s2) as Hd.
  destruct (Str.span Char.is_digit s2) as [digits s3]. simpl in Hd.
  destruct (Str.is_empty digits); [discriminate|].
  assert (Ho : Str.forallb is_plain (fst (optional_upper s3)) = true).
  { destruct s3 as [|c t]; simpl; [reflexivity|].
    destruct (Char.is_upper c) eqn:E; simpl; [|reflexivity].
    now rewrite (upper_is_plain _ E). }
  destruct (optional_upper s3) as [letter s4]. simpl in Ho.
  destruct (Str.span Char.is_py_space s4) as [blanks s5].
  destruct (Str.span (fun c => negb (Char.is_newline c)) s5) as [trailing s6].
  destruct (at_line_end s6); [|discriminate].
  intros H. inversion H; subst.
  rewrite !forallb_append. simpl.
  rewrite (forallb_weaken _ _ _ upper_is_plain Hl).
  rewrite (forallb_weaken _ _ _ digit_is_plain Hd).
  now rewrite Ho.
Qed.

Lemma cid_match_eq df s d n g :
  cid_pattern s = Some (d, n, g) ->
  cid_match df d n = Ok (direct_match df d n).
Proof.
  intros H. unfold cid_match, direct_match.
  apply filter_contains_plain. eapply cid_pattern_plain, H.
Qed.

Lemma fast_path_eq df q d n g :
  cid_pattern (Str.upper q) = Some (d, n, g) ->
  fast_path df q =
  if is_empty_frame (direct_match df d n) then Ok None
  else
    kept <- for_each filter_extra
              (Str.split Char.is_py_space (Str.strip Char.is_py_space g))
              (direct_match df d n) ;;
    Ok (Some (filter is_home kept ++ filter (fun r => negb (is_home r)) kept)).
Proof.
  intros H. unfold fast_path. rewrite H.
  rewrite (cid_match_eq df _ H). cbn [bind].
  destruct (is_empty_frame (direct_match df d n)); cbn [negb]; [reflexivity|].
  set (extra := Str.strip Char.is_py_space g).
  assert (E : (if negb (Str.is_empty extra)
               then for_each filter_extra (Str.split Char.is_py_space extra)
                      (direct_match df d n)
               else Ok (direct_match df d n)) =
              for_each filter_extra (Str.split Char.is_py_space extra)
                (direct_match df d n)).
  { destruct extra; reflexivity. }
  rewrite E.
  destruct (for_each filter_extra _ _); cbn [bind]; [|reflexivity].
  rewrite de_anza_first_eq. reflexivity.
Qed.

Lemma fast_path_no_pattern df q :
  cid_pattern (Str.upper q) = None -> fast_path df q = Ok None.
Proof. intros H. unfold fast_path. now rewrite H. Qed.

Lemma for_each_subsequence {A : Type} (body : DataFrame -> A -> outcome DataFrame) :
  (forall res x res', body res x = Ok res' -> subsequence res' res) ->
  forall xs res out, for_each body xs res = Ok out -> subsequence out res.
Proof.
  intros Hb xs. induction xs as [|x xs IH]; intros res out H; simpl in H.
  - inversion H. apply subsequence_refl.
  - destruct (body res x) as [res'|e] eqn:E; simpl in H; [|discriminate].
    eapply subsequence_trans; [eapply IH, H|eapply Hb, E].
Qed.

Lemma filter_extra_subsequence res kw res' :
  filter_extra res kw = Ok res' -> subsequence res' res.
Proof.
  unfold filter_extra. destruct (compile kw); simpl; [|discriminate].
  intros H. inversion H. apply filter_subsequence.
Qed.

(** The shape of a partitioned frame. *)
Lemma partitioned_properties (src kept : DataFrame) :
  subsequence kept src ->
  let rows := filter is_home kept ++ filter (fun r => negb (is_home r)) kept in
  home_rows_first rows /\
  subsequence (filter is_home rows) src /\
  subsequence (filter (fun r => negb (is_home r)) rows) src.
Proof.
  intros Hs rows. split; [apply partition_home_first|]. subst rows.
  rewrite !filter_app.
  rewrite (filter_app_same is_home is_home) by auto.
  rewrite (filter_none is_home (fun r => negb (is_home r)))
    by (intros x Hx; now apply negb_true_iff in Hx).
  rewrite (filter_none (fun r => negb (is_home r)) is_home)
    by (intros x Hx; now rewrite Hx).
  rewrite (filter_app_same (fun r => negb (is_home r)) (fun r => negb (is_home r)))
    by auto.
  rewrite app_nil_r. simpl.
  split; (eapply subsequence_trans; [apply filter_subsequence|exact Hs]).
Qed.

Lemma fast_path_result df q rows :
  fast_path df q = Ok (Some rows) ->
  exists d n g kept,
    cid_pattern (Str.upper q) = Some (d, n, g) /\
    direct_match df d n <> [] /\
    for_each filter_extra
      (Str.split Char.is_py_space (Str.strip Char.is_py_space g))
      (direct_match df d n) = Ok kept /\
    rows = filter is_home kept ++ filter (fun r => negb (is_home r)) kept.
Proof.
  intros H. destruct (cid_pattern (Str.upper q)) as [[[d n] g]|] eqn:E.
  - rewrite (fast_path_eq df q E) in H.
    destruct (direct_match df d n) as [|r0 rest] eqn:Ed; simpl in H; [discriminate|].
    destruct (for_each filter_extra _ _) as [kept|] eqn:Ek; simpl in H; [|discriminate].
    inversion H. exists d, n, g, kept.
    split; [reflexivity|]. rewrite Ed.
    split; [discriminate|]. split; [exact Ek|reflexivity].
  - rewrite fast_path_no_pattern in H by exact E. discriminate.
Qed.

Lemma smart_search_unfold `{Polars} df query :
  2 <= String.length (Str.strip Char.is_py_space query) ->
  smart_search df query =
  (fast <- fast_path df (Str.strip Char.is_py_space query) ;;
   match fast with
   | Some rows => Ok rows
   | None => keyword_path df (Str.strip Char.is_py_space query)
   end).
Proof.
  intros L. unfold smart_search.
  destruct (Str.strip Char.is_py_space query) as [|c s] eqn:E; simpl in *; [lia|].
  destruct s; simpl in *; [lia|reflexivity].
Qed.

Lemma smart_search_fast `{Polars} df query rows :
  fast_path df (Str.strip Char.is_py_space query) = Ok (Some rows) ->
  smart_search df query = Ok rows.
Proof.
  intros H0. destruct (fast_path_result _ _ H0) as (d & n & g & kept & Hp & _).
  apply cid_pattern_length in Hp. rewrite upper_length in Hp.
  rewrite smart_search_unfold by exact Hp. now rewrite H0.
Qed.

End FastPath.

(** ** Separators of the fast path *)

Module Separators.
Import FastPath.










End Separators.

(** ** The end of the keyword path *)

Module KeywordPath.
Import FastPath SearchFacts.

Lemma finish_search_expand `{Polars} (df results : DataFrame) :
  results <> [] ->
  finish_search df [] results =
  Ok (unique_rows (filter is_home (expansion df results)
                   ++ filter (fun r => negb (is_home r)) (expansion df results))).
Proof.
  intros Hne. unfold finish_search, expansion.
  destruct results as [|r rest]; [congruence|]. cbn [is_empty_frame].
  destruct (unique_cells (map cid (r :: rest))) as [|c cs] eqn:E.
  - exfalso. assert (Hin : In (cid r) (unique_cells (map cid (r :: rest)))).
    { apply unique_cells_same. now left. }
    rewrite E in Hin. contradiction.
  - rewrite de_anza_first_eq. reflexivity.
Qed.

Lemma finish_search_nodup `{Polars} (df : DataFrame) (iks : list string)
  (results rows : DataFrame) :
  finish_search df iks results = Ok rows -> no_duplicate_rows rows.
Proof.
  unfold finish_search, no_duplicate_rows. intros Hf.
  destruct (is_empty_frame results).
  { inversion Hf. constructor. }
  destruct iks as [|k ks].
  - destruct (unique_cells (map cid results)).
    + inversion Hf. constructor.
    + rewrite de_anza_first_eq in Hf. simpl in Hf. inversion Hf.
      apply unique_rows_nodup.
  - inversion Hf. apply unique_rows_nodup.
Qed.

Lemma is_in_member `{Polars} (cids : list (option string)) (r : Row) (s : string) :
  cid r = Some s -> In (Some s) cids -> is_in cids r = true.
Proof.
  intros Hc Hin. unfold is_in. rewrite Hc.
  apply existsb_exists. exists (Some s). split; [exact Hin|].
  simpl. apply String.eqb_refl.
Qed.

End KeywordPath.


(** ** The classifier *)

Module Classifier.
Import Regex RegexFacts SearchFacts.

Lemma span_whole (p : ascii -> bool) (s : string) :
  Str.forallb p s = true -> Str.span p s = (s, EmptyString).
Proof.
  induction s as [|c t IH]; simpl; [reflexivity|].
  intros H. apply andb_true_iff in H as [Hc Ht]. now rewrite Hc, (IH Ht).
Qed.

Lemma dept_pattern_capitals (kw : string) :
  Str.forallb Char.is_upper kw = true ->
  2 <= String.length kw <= 5 ->
  dept_pattern kw = true.
Proof.
  intros H [L1 L2]. unfold dept_pattern. rewrite (span_whole _ _ H).
  apply Nat.leb_le in L1. apply Nat.leb_le in L2. now rewrite L1, L2.
Qed.

Lemma categorize_eq (results : DataFrame) (acc : list string * list string)
  (kw : string) :
  Str.forallb Char.is_upper kw = true ->
  2 <= String.length kw <= 5 ->
  in_words kw common_words = false ->
  categorize results acc kw =
  Ok (if (0 <? dept_count results kw)
         && (title_count results kw <? dept_count results kw * 10)
      then (fst acc ++ [kw], snd acc)
      else if 0 <? title_count results kw then (fst acc, snd acc ++ [kw])
      else acc).
Proof.
  intros Hu L Hw. unfold categorize.
  rewrite (dept_pattern_capitals _ Hu L), Hw. cbn [negb andb].
  assert (Hne : kw <> EmptyString).
  { destruct kw; [simpl in L; lia|discriminate]. }
  rewrite (filter_dept_regex results Hu Hne). cbn [bind].
  rewrite filter_contains_plain
    by (eapply forallb_weaken; [apply upper_is_plain|exact Hu]).
  cbn [bind]. unfold dept_count, title_count.
  destruct ((0 <? _) && _); [reflexivity|].
  destruct (0 <? _); reflexivity.
Qed.



Lemma categorize_other (results : DataFrame) (acc : list string * list string)
  (kw : string) :
  dept_pattern kw && negb (in_words kw common_words) = false ->
  categorize results acc kw = Ok (fst acc, snd acc ++ [kw]).
Proof. intros H. unfold categorize. now rewrite H. Qed.

End Classifier.


(** ** The course selection *)

Module Selection.
Import Regex RegexFacts SearchFacts.

Lemma filter_de_anza_eq (df : DataFrame) :
  filter_de_anza df = Ok (filter is_de_anza_listed df).
Proof.
  unfold filter_de_anza. rewrite compile_plain by reflexivity. cbn [bind].
  f_equal. apply filter_ext_eq. intros r. unfold is_de_anza_listed.
  destruct (institution r); [apply is_match_literal|reflexivity].
Qed.

Lemma load_de_anza_courses_eq (app : App) (df : DataFrame) :
  app_df app = Some df ->
  load_de_anza_courses app =
  Ok (MkApp (Some df)
        (Some (filter listed (map to_course (filter has_cid (filter is_de_anza_listed df)))))
        (current_results app) (results_count app) (results_table app)).
Proof.
  intros H. unfold load_de_anza_courses. rewrite H, filter_de_anza_eq. reflexivity.
Qed.

Lemma loaded_course (df : DataFrame) (c : Course) :
  In c (filter listed (map to_course (filter has_cid (filter is_de_anza_listed df)))) <->
  exists r, c = to_course r /\ In r df /\ is_de_anza_listed r = true /\
            has_cid r = true /\ listed c = true.
Proof.
  rewrite filter_In, in_map_iff. split.
  - intros [[r [E Hr]] Hl]. exists r.
    apply filter_In in Hr as [Hr Hc]. apply filter_In in Hr as [Hr Hd]. auto.
  - intros (r & E & Hr & Hd & Hc & Hl). split; [|exact Hl].
    exists r. split; [now symmetry|]. apply filter_In. split; [|exact Hc].
    apply filter_In. now split.
Qed.

Lemma select_course_spec (courses : list Course) (department course_number : string)
  (c : Course) :
  In c (select_course courses department course_number) <->
  In c courses /\ Dept c = department /\
  (Number c = course_number \/
   (exists rest, Number c = (course_number ++ " " ++ rest)%string) \/
   (exists rest, Number c = (course_number ++ "+" ++ rest)%string)).
Proof.
  unfold select_course, number_match. rewrite filter_In.
  rewrite andb_true_iff, !orb_true_iff, !String.eqb_eq.
  split.
  - intros (Hin & Hd & [[Hn|Hn]|Hn]).
    + auto.
    + split; [exact Hin|]. split; [exact Hd|]. right. left.
      destruct (starts_with_split _ _ Hn) as [rest E]. exists rest.
      rewrite E. apply append_assoc.
    + split; [exact Hin|]. split; [exact Hd|]. right. right.
      destruct (starts_with_split _ _ Hn) as [rest E]. exists rest.
      rewrite E. apply append_assoc.
  - intros (Hin & Hd & [Hn|[[rest Hn]|[rest Hn]]]).
    + auto.
    + split; [exact Hin|]. split; [exact Hd|]. left. right.
      rewrite Hn, <- append_assoc. apply starts_with_append.
    + split; [exact Hin|]. split; [exact Hd|]. right.
      rewrite Hn, <- append_assoc. apply starts_with_append.
Qed.

Lemma is_in_cid `{Polars} (cids : list (option string)) (r : Row) :
  has_cid r = true -> In (cid r) cids -> is_in cids r = true.
Proof.
  unfold has_cid, is_in. destruct (cid r) as [s|]; [|discriminate].
  intros _ Hin. apply existsb_exists. exists (Some s).
  split; [exact Hin|]. simpl. apply String.eqb_refl.
Qed.

(** What [show_equivalencies] stores when a selected course has a C-ID: the
    rows of the frame whose C-ID is one of the selected courses', in frame
    order. *)
Lemma show_equivalencies_result `{Polars} (app : App) (df : DataFrame)
  (courses : list Course) (department course_number : string) (c : Course) :
  app_df app = Some df ->
  de_anza_courses app = Some courses ->
  (forall c', In c' courses ->
     In (course_row c') df /\ has_cid (course_row c') = true) ->
  In c (select_course courses department course_number) ->
  let cids :=
    unique_cells (map (fun c => cid (course_row c))
                    (select_course courses department course_number)) in
  current_results (show_equivalencies app department course_number)
    = Some (filter (is_in cids) df) /\
  In (course_row c) (filter (is_in cids) df).
Proof.
  intros Hdf Hcs Hall Hc cids.
  assert (Hsel : forall c', In c' (select_course courses department course_number) ->
                            In c' courses).
  { intros c' H'. apply select_course_spec in H'. tauto. }
  assert (Hin : In (course_row c) (filter (is_in cids) df)).
  { apply filter_In. destruct (Hall c (Hsel c Hc)) as [Hr Hh].
    split; [exact Hr|]. apply is_in_cid; [exact Hh|].
    apply unique_cells_same. apply in_map_iff. now exists c. }
  split; [|exact Hin].
  unfold show_equivalencies. rewrite Hdf, Hcs.
  destruct (select_course courses department course_number) as [|c0 sel] eqn:Es;
    [contradiction|].
  fold cids.
  destruct cids as [|first more] eqn:Ec.
  - exfalso. assert (Hx : In (cid (course_row c)) cids).
    { apply unique_cells_same. apply in_map_iff. now exists c. }
    rewrite Ec in Hx. contradiction.
  - assert (Hf : cell_eqb first (Some "") = false).
    { assert (Hx : In first cids) by (rewrite Ec; now left).
      apply unique_cells_same, in_map_iff in Hx as [c' [E Hc']].
      destruct (Hall c' (Hsel c' Hc')) as [_ Hh].
      unfold has_cid in Hh. rewrite E in Hh.
      destruct first as [s|]; [|reflexivity]. simpl.
      apply negb_true_iff in Hh. exact Hh. }
    rewrite Hf.
    destruct (filter (is_in (first :: more)) df) as [|r0 rows] eqn:Er; [contradiction|].
    unfold display_results. cbn [app_df de_anza_courses current_results].
    destruct (MAX_DISPLAY_RESULTS <? length (r0 :: rows)); reflexivity.
Qed.

End Selection.

(** ** The loader *)

Module Loader.

Lemma has_column_in (cols : list string) (c : string) :
  has_column cols c = true <-> In c cols.
Proof.
  unfold has_column. induction cols as [|x cols IH]; simpl.
  - split; [discriminate|contradiction].
  - destruct (String.eqb_spec x c) as [->|N].
    + split; auto.
    + destruct (index_of c cols); split; intros H.
      * right. now apply IH.
      * reflexivity.
      * discriminate.
      * destruct H as [E|H]; [contradiction|]. now apply IH.
Qed.

Lemma contains_join (sep c : string) (xs : list string) (x : string) :
  In x xs -> Str.contains c x = true -> Str.contains c (Str.join sep xs) = true.
Proof.
  intros Hin Hc. induction xs as [|y ys IH]; [contradiction|].
  destruct ys as [|z zs].
  - destruct Hin as [->|[]]. exact Hc.
  - change (Str.join sep (y :: z :: zs))
      with (y ++ sep ++ Str.join sep (z :: zs))%string.
    destruct Hin as [->|Hin].
    + now apply contains_append_l.
    + apply contains_append_r, contains_append_r. now apply IH.
Qed.

Lemma missing_columns_spec (table : CsvTable) (c : string) :
  In c (missing_columns table) <-> In c REQUIRED_COLS /\ ~ In c (columns table).
Proof.
  unfold missing_columns. rewrite filter_In, negb_true_iff. split.
  - intros [H1 H2]. split; [exact H1|].
    intros Hin. apply has_column_in in Hin. congruence.
  - intros [H1 H2]. split; [exact H1|].
    destruct (has_column (columns table) c) eqn:E; [|reflexivity].
    exfalso. apply H2. now apply has_column_in.
Qed.

End Loader.

(** * The claims *)

Import FastPath KeywordPath.

(** C10.  When the query has the C-ID shape, the keyword path is reached only
    if the direct match on the C-ID column is empty.  If the direct match is
    not empty and the trailing keywords leave no row, the search returns the
    empty result. *)
Theorem C10_fast_path_never_retries `{Polars} (df : DataFrame) (query : string)
  (dept_code cid_number group3 : string) (direct : DataFrame) :
  cid_pattern (Str.upper (Str.strip Char.is_py_space query))
    = Some (dept_code, cid_number, group3) ->
  cid_match df dept_code cid_number = Ok direct ->
  (fast_path df (Str.strip Char.is_py_space query) = Ok None <-> direct = []) /\
  (direct <> [] ->
   for_each filter_extra
     (Str.split Char.is_py_space (Str.strip Char.is_py_space group3)) direct = Ok [] ->
   smart_search df query = Ok []).
Proof.
  intros Hp Hm.
  rewrite (cid_match_eq df _ Hp) in Hm. inversion Hm as [Hd]. clear Hm.
  pose proof (fast_path_eq df _ Hp) as Hf.
  split.
  - rewrite Hf. destruct (direct_match df dept_code cid_number) as [|r rest]; simpl.
    + split; reflexivity.
    + split; [|discriminate].
      destruct (for_each filter_extra _ _); simpl; discriminate.
  - intros Hne Hx. apply smart_search_fast.
    rewrite Hf. destruct (direct_match df dept_code cid_number) as [|r rest];
      [congruence|].
    cbn [is_empty_frame]. rewrite Hx. reflexivity.
Qed.

Lemma C10_witness :
  @smart_search (first_seen false) Sample.catalog "ACCT 110 hartnell" = Ok [].
Proof.
  refine (proj2 (@C10_fast_path_never_retries (first_seen false) Sample.catalog
                   "ACCT 110 hartnell" "ACCT" "110" "HARTNELL"
                   [Sample.foothill_acct; Sample.de_anza_acct] _ _) _ _).
  - vm_compute. reflexivity.
  - vm_compute. reflexivity.
  - discriminate.
  - vm_compute. reflexivity.
Defined.



(** C1 as stated fails: the course selection returns the matching records in
    frame order.  Selecting ACCT 1A in the sample catalogue shows the
    Foothill row before the De Anza row. *)
Lemma C1_counterexample :
  exists app rows,
    load_de_anza_courses (Sample.started Sample.catalog) = Ok app /\
    current_results (@show_equivalencies (first_seen false) app "ACCT" "1A")
      = Some rows /\
    ~ home_rows_first rows.
Proof.
  eexists. eexists. split; [vm_compute; reflexivity|].
  split; [vm_compute; reflexivity|].
  intros Hf.
  specialize (Hf 1 0 Sample.de_anza_acct Sample.foothill_acct
                eq_refl eq_refl eq_refl eq_refl).
  lia.
Qed.

(** C1, amended.  When the fast path returns, its rows are the home rows
    followed by the other rows, each group in frame order.  When the query
    names no institution and the keyword filters leave some row, the rows
    given to the final [unique] are ordered in the same way. *)
Theorem C1_home_rows_first_where_sorted `{Polars} (df : DataFrame) (query : string) :
  (forall rows,
     fast_path df (Str.strip Char.is_py_space query) = Ok (Some rows) ->
     smart_search df query = Ok rows /\
     home_rows_first rows /\
     subsequence (filter is_home rows) df /\
     subsequence (filter (fun r => negb (is_home r)) rows) df) /\
  (forall results,
     2 <= String.length (Str.strip Char.is_py_space query) ->
     fast_path df (Str.strip Char.is_py_space query) = Ok None ->
     keyword_filter df (Str.strip Char.is_py_space query) = Ok ([], results) ->
     results <> [] ->
     exists ordered,
       smart_search df query = Ok (unique_rows ordered) /\
       home_rows_first ordered /\
       subsequence (filter is_home ordered) df /\
       subsequence (filter (fun r => negb (is_home r)) ordered) df).
Proof.
  split.
  - intros rows Hf. split; [now apply smart_search_fast|].
    destruct (fast_path_result _ _ Hf) as (d & n & g & kept & _ & _ & Hk & ->).
    apply partitioned_properties.
    eapply subsequence_trans.
    + eapply for_each_subsequence; [|exact Hk]. apply filter_extra_subsequence.
    + apply filter_subsequence.
  - intros results L Hf Hk Hne.
    exists (filter is_home (expansion df results)
            ++ filter (fun r => negb (is_home r)) (expansion df results)).
    split.
    + rewrite smart_search_unfold by exact L. rewrite Hf. cbn [bind].
      unfold keyword_path. rewrite Hk. cbn [bind fst snd].
      now apply finish_search_expand.
    + apply partitioned_properties. apply filter_subsequence.
Qed.

Lemma C1_witness :
  (exists rows,
     @smart_search (first_seen false) Sample.catalog "ACCT 110" = Ok rows /\
     home_rows_first rows) /\
  (exists ordered,
     @smart_search (first_seen false) Sample.catalog "BIOL"
       = Ok (@unique_rows (first_seen false) ordered) /\
     home_rows_first ordered).
Proof.
  pose proof (@C1_home_rows_first_where_sorted (first_seen false) Sample.catalog
                "ACCT 110") as [Ha _].
  pose proof (@C1_home_rows_first_where_sorted (first_seen false) Sample.catalog
                "BIOL") as [_ Hb].
  split.
  - exists [Sample.de_anza_acct; Sample.foothill_acct].
    destruct (Ha [Sample.de_anza_acct; Sample.foothill_acct]) as (H1 & H2 & _).
    + vm_compute. reflexivity.
    + split; assumption.
  - destruct (Hb [Sample.de_anza_biol]) as (ordered & H1 & H2 & _).
    + vm_compute. lia.
    + vm_compute. reflexivity.
    + vm_compute. reflexivity.
    + discriminate.
    + exists ordered. split; assumption.
Defined.

(** Two of the cases the amended C1 leaves open.  A query that names an
    institution is answered in frame order: *)
Example named_institution_keeps_frame_order :
  @smart_search (first_seen false) Sample.catalog "college"
  = Ok [Sample.foothill_acct; Sample.de_anza_acct; Sample.de_anza_biol;
        Sample.hartnell_biol].
Proof. vm_compute. reflexivity. Qed.

(** and the order after the final [unique] is the library's: an instance that
    hands the rows back in reverse puts the home row last. *)
Example unique_decides_final_order :
  @smart_search (reversing false) Sample.catalog "BIOL"
  = Ok [Sample.hartnell_biol; Sample.de_anza_biol].
Proof. vm_compute. reflexivity. Qed.

(** With null C-IDs the expansion depends on how [is_in] treats null: the
    query "BIOL" on two courses without C-ID returns both or none, never the
    filtered row alone. *)
Example null_cid_expansion :
  let foothill := with_norm_columns REQUIRED_COLS
                    [None; None; Some "Foothill College"; Some "Marine Biology";
                     Some "BIOL 13"] in
  let de_anza := with_norm_columns REQUIRED_COLS
                   [None; None; Some "De Anza College"; Some "Bookkeeping";
                    Some "ACCT 58"] in
  @smart_search (first_seen true) [foothill; de_anza] "BIOL" = Ok [de_anza; foothill] /\
  @smart_search (first_seen false) [foothill; de_anza] "BIOL" = Ok [].
Proof. split; vm_compute; reflexivity. Qed.

Lemma smart_search_general `{Polars} (df : DataFrame) (query : string) (rows : DataFrame) :
  fast_path df (Str.strip Char.is_py_space query) = Ok None ->
  smart_search df query = Ok rows ->
  rows = [] \/ keyword_path df (Str.strip Char.is_py_space query) = Ok rows.
Proof.
  intros Hf Hs. unfold smart_search in Hs.
  destruct (Str.is_empty (Str.strip Char.is_py_space query)
            || (String.length (Str.strip Char.is_py_space query) <? MIN_SEARCH_CHARS)).
  - left. now inversion Hs.
  - right. rewrite Hf in Hs. exact Hs.
Qed.

(** C4 as stated fails: the course selection returns every matching line of
    the file.  With one line of the sample catalogue repeated, selecting
    ACCT 1A returns that line twice. *)
Lemma C4_counterexample :
  exists app rows,
    load_de_anza_courses (Sample.started Sample.catalog_twice) = Ok app /\
    current_results (@show_equivalencies (first_seen false) app "ACCT" "1A")
      = Some rows /\
    ~ no_duplicate_rows rows.
Proof.
  eexists. eexists. split; [vm_compute; reflexivity|].
  split; [vm_compute; reflexivity|].
  unfold no_duplicate_rows. intros Hn.
  inversion Hn as [|k ks Hnotin _]. apply Hnotin.
  right. left. reflexivity.
Qed.

(** The fast path has no [unique] either: the repeated line comes back twice
    for the query "ACCT 110". *)
Example fast_path_keeps_repeated_rows :
  @smart_search (first_seen false) Sample.catalog_twice "ACCT 110"
  = Ok [Sample.de_anza_acct; Sample.foothill_acct; Sample.foothill_acct].
Proof. vm_compute. reflexivity. Qed.

(** C4, amended.  A result of the keyword path has no two rows equal on the
    five core columns. *)
Theorem C4_keyword_results_have_no_duplicates `{Polars} (df : DataFrame) (query : string)
  (rows : DataFrame) :
  fast_path df (Str.strip Char.is_py_space query) = Ok None ->
  smart_search df query = Ok rows ->
  no_duplicate_rows rows.
Proof.
  intros Hf Hs. destruct (smart_search_general df query Hf Hs) as [->|Hk].
  - constructor.
  - unfold keyword_path in Hk.
    destruct (keyword_filter df (Str.strip Char.is_py_space query)) as [found|];
      simpl in Hk; [|discriminate].
    eapply finish_search_nodup, Hk.
Qed.

Lemma C4_witness :
  no_duplicate_rows [Sample.foothill_acct; Sample.de_anza_acct; Sample.de_anza_biol;
                     Sample.hartnell_biol].
Proof.
  refine (@C4_keyword_results_have_no_duplicates (first_seen false)
            Sample.catalog_twice "college" _ _ _).
  - vm_compute. reflexivity.
  - vm_compute. reflexivity.
Defined.

(** C3 as stated fails: the expansion is not skipped for an empty
    identifier.  In a catalogue of two courses without C-ID, the query "BIOL"
    leaves the Foothill course only, and the expansion on the empty identifier
    brings in the De Anza bookkeeping course. *)
Lemma C3_counterexample :
  keyword_filter Sample.catalog_no_cid "BIOL" = Ok ([], [Sample.foothill_no_cid]) /\
  cid Sample.foothill_no_cid = Some "" /\
  @smart_search (first_seen false) Sample.catalog_no_cid "BIOL"
    = Ok [Sample.de_anza_no_cid; Sample.foothill_no_cid] /\
  @smart_search (first_seen false) Sample.catalog_no_cid "BIOL"
    <> Ok [Sample.foothill_no_cid].
Proof.
  split; [vm_compute; reflexivity|].
  split; [reflexivity|].
  split; [vm_compute; reflexivity|].
  vm_compute. discriminate.
Qed.

(** C3, amended.  On the keyword path, if the query names no institution and
    the filters leave some row, the result holds, for every record of the
    frame whose C-ID is a string carried by a filtered row, a row equal to it
    on the five core columns; the empty string counts as any other C-ID. *)
Theorem C3_expansion_covers_shared_ids `{Polars} (df : DataFrame) (query : string)
  (results : DataFrame) :
  keyword_filter df query = Ok ([], results) ->
  results <> [] ->
  exists rows,
    keyword_path df query = Ok rows /\
    forall r s,
      In r df -> cid r = Some s -> In (Some s) (map cid results) ->
      In (core_fields r) (map core_fields rows).
Proof.
  intros Hk Hne. eexists. split.
  - unfold keyword_path. rewrite Hk. cbn [bind fst snd].
    now apply finish_search_expand.
  - intros r s Hin Hc Hs. apply unique_rows_complete.
    assert (He : In r (expansion df results)).
    { apply filter_In. split; [exact Hin|].
      eapply is_in_member; [exact Hc|]. now apply unique_cells_same. }
    apply in_or_app. destruct (is_home r) eqn:E.
    + left. apply filter_In. now split.
    + right. apply filter_In. split; [exact He|]. now rewrite E.
Qed.

Lemma C3_witness :
  exists rows,
    @keyword_path (first_seen false) Sample.catalog "BIOL" = Ok rows /\
    In (core_fields Sample.hartnell_biol) (map core_fields rows).
Proof.
  destruct (@C3_expansion_covers_shared_ids (first_seen false) Sample.catalog "BIOL"
              [Sample.de_anza_biol]) as (rows & Hr & Hall).
  - vm_compute. reflexivity.
  - discriminate.
  - exists rows. split; [exact Hr|].
    apply (Hall Sample.hartnell_biol "BIOL 190").
    + right. right. right. left. reflexivity.
    + reflexivity.
    + left. reflexivity.
Defined.

Import Classifier.



(** C2 as stated fails: a token of department shape that matches no
    department and no title is dropped.  "QQQ" matches nothing in the sample
    catalogue, yet "BIOL QQQ" returns the rows that "BIOL" returns. *)
Lemma C2_counterexample :
  dept_count Sample.catalog "QQQ" = 0 /\
  title_count Sample.catalog "QQQ" = 0 /\
  categorize Sample.catalog ([], []) "QQQ" = Ok ([], []) /\
  categorize Sample.catalog ([], []) "QQQ" <> Ok ([], ["QQQ"]) /\
  @smart_search (first_seen false) Sample.catalog "BIOL QQQ"
    = Ok [Sample.de_anza_biol; Sample.hartnell_biol].
Proof.
  split; [vm_compute; reflexivity|].
  split; [vm_compute; reflexivity|].
  split; [vm_compute; reflexivity|].
  split; [vm_compute; discriminate|].
  vm_compute. reflexivity.
Qed.

(** C2, amended.  A token of two to five capitals that is not a common word
    and has both counts zero is added to neither keyword list, so the loop
    goes on as if the token were absent.  A token that is not of that shape,
    or is a common word, is always a title keyword. *)
Theorem C2_undecided_token_is_dropped (results : DataFrame)
  (acc : list string * list string) (kw : string) :
  (Str.forallb Char.is_upper kw = true ->
   2 <= String.length kw <= 5 ->
   in_words kw common_words = false ->
   dept_count results kw = 0 ->
   title_count results kw = 0 ->
   categorize results acc kw = Ok acc /\
   forall rest,
     for_each (categorize results) (kw :: rest) acc
     = for_each (categorize results) rest acc) /\
  (dept_pattern kw && negb (in_words kw common_words) = false ->
   categorize results acc kw = Ok (fst acc, snd acc ++ [kw])).
Proof.
  split.
  - intros Hu L Hw Hd Ht.
    assert (E : categorize results acc kw = Ok acc).
    { rewrite (@categorize_eq results acc kw Hu L Hw), Hd, Ht. reflexivity. }
    split; [exact E|]. intros rest. simpl. now rewrite E.
  - apply categorize_other.
Qed.

Lemma C2_witness :
  categorize Sample.catalog (["BIOL"], []) "QQQ" = Ok (["BIOL"], []) /\
  categorize Sample.catalog ([], []) "1A" = Ok ([], ["1A"]).
Proof.
  pose proof (@C2_undecided_token_is_dropped Sample.catalog (["BIOL"], []) "QQQ")
    as [Hdrop _].
  pose proof (@C2_undecided_token_is_dropped Sample.catalog ([], []) "1A")
    as [_ Htitle].
  split.
  - apply Hdrop.
    + reflexivity.
    + simpl. lia.
    + reflexivity.
    + vm_compute. reflexivity.
    + vm_compute. reflexivity.
  - apply Htitle. reflexivity.
Defined.

Import Selection Loader.

(** C7.  [show_equivalencies] selects exactly the listed De Anza courses whose
    department is the given one and whose number is the given number, or
    starts with it followed by a space, or starts with it followed by "+".
    A De Anza record with a C-ID and the local code "BIOL 6A + BIOL 6C" has the
    number "6A + BIOL 6C" and is among the rows shown for BIOL 6A. *)
Theorem C7_selection_by_first_number `{Polars} :
  (forall courses department course_number c,
     In c (select_course courses department course_number) <->
     In c courses /\ Dept c = department /\
     (Number c = course_number \/
      (exists rest, Number c = (course_number ++ " " ++ rest)%string) \/
      (exists rest, Number c = (course_number ++ "+" ++ rest)%string))) /\
  (forall app df app' r,
     app_df app = Some df ->
     In r df ->
     (exists s, institution r = Some s /\ Str.contains "DE ANZA" (Str.upper s) = true) ->
     (exists s, cid r = Some s /\ s <> EmptyString) ->
     local_dept_number r = Some "BIOL 6A + BIOL 6C" ->
     load_de_anza_courses app = Ok app' ->
     Number (to_course r) = "6A + BIOL 6C" /\
     exists rows,
       current_results (show_equivalencies app' "BIOL" "6A") = Some rows /\
       In r rows).
Proof.
  split; [apply select_course_spec|].
  intros app df app' r Hdf Hr (i & Hi & Hd) (s & Hs & Hne) Hl Hload.
  rewrite (load_de_anza_courses_eq app Hdf) in Hload. inversion Hload as [Happ].
  clear Hload.
  assert (Hnum : Number (to_course r) = "6A + BIOL 6C").
  { unfold to_course. cbn [Number]. rewrite Hl. reflexivity. }
  assert (Hdept : Dept (to_course r) = "BIOL").
  { unfold to_course. cbn [Dept]. rewrite Hl. reflexivity. }
  split; [exact Hnum|].
  set (courses := filter listed
                    (map to_course (filter has_cid (filter is_de_anza_listed df)))).
  assert (Hcid : has_cid r = true).
  { unfold has_cid. rewrite Hs. apply negb_true_iff.
    destruct (String.eqb_spec s ""); congruence. }
  assert (Hin : In (to_course r) courses).
  { apply loaded_course. exists r. split; [reflexivity|]. split; [exact Hr|].
    split; [unfold is_de_anza_listed; now rewrite Hi|]. split; [exact Hcid|].
    unfold listed. now rewrite Hnum, Hdept. }
  assert (Hsel : In (to_course r) (select_course courses "BIOL" "6A")).
  { apply select_course_spec. split; [exact Hin|]. split; [exact Hdept|].
    right. left. exists "+ BIOL 6C". exact Hnum. }
  assert (Hall : forall c', In c' courses ->
                 In (course_row c') df /\ has_cid (course_row c') = true).
  { intros c' Hc'. apply loaded_course in Hc' as (r' & -> & Hr' & _ & Hc' & _).
    split; assumption. }
  subst app'.
  pose proof (@show_equivalencies_result _
                (MkApp (Some df) (Some courses) (current_results app)
                   (results_count app) (results_table app))
                df courses "BIOL" "6A" (to_course r) eq_refl eq_refl Hall Hsel)
    as Hres.
  cbv zeta in Hres. destruct Hres as [H1 H2].
  eexists. split; [exact H1|exact H2].
Qed.

Lemma C7_witness :
  exists rows,
    current_results
      (@show_equivalencies (first_seen false)
         (MkApp (Some Sample.catalog)
            (Some (filter listed
                     (map to_course
                        (filter has_cid (filter is_de_anza_listed Sample.catalog)))))
            None "" [])
         "BIOL" "6A") = Some rows /\
    In Sample.de_anza_biol rows.
Proof.
  destruct (proj2 (@C7_selection_by_first_number (first_seen false))
              (Sample.started Sample.catalog) Sample.catalog
              (MkApp (Some Sample.catalog)
                 (Some (filter listed
                          (map to_course
                             (filter has_cid
                                (filter is_de_anza_listed Sample.catalog)))))
                 None "" [])
              Sample.de_anza_biol) as [_ Hrows].
  - reflexivity.
  - right. right. left. reflexivity.
  - exists "De Anza College". split; reflexivity.
  - exists "BIOL 190". split; [reflexivity|discriminate].
  - reflexivity.
  - vm_compute. reflexivity.
  - exact Hrows.
Defined.

(** C8.  [load_data] raises [CidCsvError] exactly when the path is not a file,
    the file cannot be read as CSV, the frame has no data row, or a required
    column is absent.  The message for a missing file names cid.csv and the
    directory; the message for an empty frame says so; the message for absent
    columns lists exactly the absent required columns after "Missing: " and
    names every required column. *)
Theorem C8_load_data_errors (fs : FileSystem) (path : string) :
  let p := abspath fs path in
  ((exists message, load_data fs path = CidCsvError message) <->
   isfile fs p = false \/
   (exists detail, read_csv fs p = inr detail) \/
   (exists table, read_csv fs p = inl table /\
      (data_rows table = [] \/
       exists c, In c REQUIRED_COLS /\ ~ In c (columns table)))) /\
  (isfile fs p = false ->
   load_data fs path = CidCsvError (missing_file_message p) /\
   Str.contains "cid.csv" (missing_file_message p) = true /\
   Str.contains (dirname p) (missing_file_message p) = true) /\
  (forall table,
     isfile fs p = true -> read_csv fs p = inl table -> data_rows table = [] ->
     load_data fs path = CidCsvError empty_message /\
     Str.contains "empty" empty_message = true) /\
  (forall table,
     isfile fs p = true -> read_csv fs p = inl table -> data_rows table <> [] ->
     (exists c, In c REQUIRED_COLS /\ ~ In c (columns table)) ->
     exists missing,
       load_data fs path = CidCsvError (missing_columns_message missing) /\
       (forall c, In c missing <-> In c REQUIRED_COLS /\ ~ In c (columns table)) /\
       Str.contains ("Missing: " ++ Str.join ", " missing)
         (missing_columns_message missing) = true /\
       (forall c, In c missing -> Str.contains c (Str.join ", " missing) = true) /\
       (forall c, In c REQUIRED_COLS ->
          Str.contains c (missing_columns_message missing) = true)).
Proof.
  intros p.
  assert (Hrows : forall table,
            (length (data_rows table) =? 0) = true <-> data_rows table = []).
  { intros table. destruct (data_rows table); simpl; split; congruence. }
  assert (Hload : forall table,
            isfile fs p = true -> read_csv fs p = inl table ->
            data_rows table <> [] ->
            load_data fs path =
            match missing_columns table with
            | _ :: _ => CidCsvError (missing_columns_message (missing_columns table))
            | [] => Loaded (map (with_norm_columns (columns table)) (data_rows table))
            end).
  { intros table Hf Hr Hd. unfold load_data. fold p. rewrite Hf, Hr. cbn [negb].
    destruct (length (data_rows table) =? 0) eqn:E.
    - apply Hrows in E. contradiction.
    - fold (missing_columns table). destruct (missing_columns table); reflexivity. }
  split; [|split; [|split]].
  - split.
    + intros [message Hm].
      destruct (isfile fs p) eqn:Hf; [|now left]. right.
      destruct (read_csv fs p) as [table|detail] eqn:Hr; [|left; now exists detail].
      right. exists table. split; [reflexivity|].
      destruct (data_rows table) as [|row rows] eqn:Hd; [now left|]. right.
      rewrite (Hload table eq_refl eq_refl) in Hm by (rewrite Hd; discriminate).
      destruct (missing_columns table) as [|c cs] eqn:Hmiss; [discriminate|].
      exists c. apply missing_columns_spec. rewrite Hmiss. now left.
    + intros [Hf|[[detail Hr]|(table & Hr & [Hd|(c & Hc & Hn)])]];
        unfold load_data; fold p.
      * rewrite Hf. eexists. reflexivity.
      * destruct (isfile fs p); cbn [negb]; [|eexists; reflexivity].
        rewrite Hr. eexists. reflexivity.
      * destruct (isfile fs p); cbn [negb]; [|eexists; reflexivity].
        rewrite Hr, Hd. eexists. reflexivity.
      * destruct (isfile fs p); cbn [negb]; [|eexists; reflexivity].
        rewrite Hr. destruct (length (data_rows table) =? 0); [eexists; reflexivity|].
        fold (missing_columns table).
        destruct (missing_columns table) as [|c' cs] eqn:Hmiss;
          [|eexists; reflexivity].
        exfalso. assert (Hin : In c (missing_columns table)).
        { now apply missing_columns_spec. }
        rewrite Hmiss in Hin. contradiction.
  - intros Hf. split; [unfold load_data; fold p; now rewrite Hf|].
    unfold missing_file_message. split.
    + apply contains_append_l. reflexivity.
    + do 5 apply contains_append_r. apply contains_self.
  - intros table Hf Hr Hd. split; [|reflexivity].
    unfold load_data. fold p. now rewrite Hf, Hr, Hd.
  - intros table Hf Hr Hd (c & Hc & Hn).
    exists (missing_columns table).
    assert (Hin : In c (missing_columns table)) by now apply missing_columns_spec.
    split; [|split; [|split; [|split]]].
    + rewrite (Hload table Hf Hr Hd).
      destruct (missing_columns table); [contradiction|reflexivity].
    + intros c'. apply missing_columns_spec.
    + unfold missing_columns_message. do 3 apply contains_append_r.
      rewrite <- append_assoc. apply contains_here, starts_with_append.
    + intros c' Hc'. eapply contains_join; [exact Hc'|apply contains_self].
    + intros c' Hc'. unfold missing_columns_message.
      do 9 apply contains_append_r.
      apply (contains_join nl c' (map bullet REQUIRED_COLS) (bullet c')).
      * now apply in_map.
      * unfold bullet. apply contains_append_r, contains_self.
Qed.

Lemma C8_witness :
  (exists missing,
     load_data
       (Sample.file_system
          (inl (MkCsv ["C-ID #"; "C-ID Descriptor"; "Local Course Title(s)";
                       "Local Dept. Name & Number"]
                  [[Some "ACCT 110"; Some "Financial Accounting";
                    Some "Financial Accounting"; Some "ACTG 1A"]]))
          true)
       "cid.csv"
     = CidCsvError (missing_columns_message missing) /\
     In "Institution" missing /\ ~ In "C-ID #" missing) /\
  load_data (Sample.file_system (inr "no such file") false) "cid.csv"
  = CidCsvError (missing_file_message "/srv/app/cid.csv") /\
  load_data (Sample.file_system (inl (MkCsv REQUIRED_COLS [])) true) "cid.csv"
  = CidCsvError empty_message.
Proof.
  split; [|split].
  - destruct (proj2 (proj2 (proj2
               (C8_load_data_errors
                  (Sample.file_system
                     (inl (MkCsv ["C-ID #"; "C-ID Descriptor"; "Local Course Title(s)";
                                  "Local Dept. Name & Number"]
                             [[Some "ACCT 110"; Some "Financial Accounting";
                               Some "Financial Accounting"; Some "ACTG 1A"]]))
                     true)
                  "cid.csv")))
               _ eq_refl eq_refl) as (missing & Hm & Hspec & _).
    + discriminate.
    + exists "Institution". split; [right; right; left; reflexivity|].
      simpl. intros [E|[E|[E|[E|[]]]]]; discriminate.
    + exists missing. split; [exact Hm|]. split.
      * apply Hspec. split; [right; right; left; reflexivity|].
        simpl. intros [E|[E|[E|[E|[]]]]]; discriminate.
      * intros Hin. apply Hspec in Hin as [_ Hn]. apply Hn. left. reflexivity.
  - apply (proj1 (proj2 (C8_load_data_errors
                           (Sample.file_system (inr "no such file") false) "cid.csv"))).
    reflexivity.
  - refine (proj1 (proj1 (proj2 (proj2 (C8_load_data_errors
                           (Sample.file_system (inl (MkCsv REQUIRED_COLS [])) true)
                           "cid.csv"))) _ eq_refl eq_refl eq_refl)).
Defined.

(** C9 does not hold of the program: a token reaches [str.contains] as a
    regular expression.  "C.S" is not a substring of the title
    "ACCESS CONTROL", yet the title filter keeps the row and the search returns
    it; "DE.ANZA" occurs in no institution, yet it is taken for an institution
    keyword; and a token with an unclosed parenthesis makes the search
    raise.  (The department filter escapes its token with [re.escape]; the
    institution and title filters do not.) *)
Theorem C9_tokens_are_patterns :
  Str.contains "C.S" (Title_norm Sample.foothill_access) = false /\
  filter_contains Title_norm "C.S" [Sample.foothill_access]
    = Ok [Sample.foothill_access] /\
  @smart_search (first_seen false) [Sample.foothill_access] "c.s"
    = Ok [Sample.foothill_access] /\
  (forall r, In r Sample.catalog -> Str.contains "DE.ANZA" (Institution_norm r) = false) /\
  filter_contains Institution_norm "DE.ANZA" Sample.catalog
    = Ok [Sample.de_anza_acct; Sample.de_anza_biol] /\
  @smart_search (first_seen false) Sample.catalog "biology (honors"
    = Raised ComputeError.
Proof.
  split; [vm_compute; reflexivity|].
  split; [vm_compute; reflexivity|].
  split; [vm_compute; reflexivity|].
  split.
  { intros r [<-|[<-|[<-|[<-|[]]]]]; vm_compute; reflexivity. }
  split; vm_compute; reflexivity.
Qed.

(** * Further properties of the search *)

Module SearchMore.
Import Regex RegexFacts SearchFacts FastPath KeywordPath Classifier.

Lemma subsequence_member {A : Type} (a b : list A) (x : A) :
  subsequence a b -> In x a -> In x b.
Proof.
  induction 1 as [|y l src Hs IH|y l src Hs IH]; simpl; intros Hin; auto.
  destruct Hin; auto.
Qed.

Lemma filter_contains_keeps_order col kw res res' :
  filter_contains col kw res = Ok res' -> subsequence res' res.
Proof.
  unfold filter_contains. destruct (compile kw); simpl; [|discriminate].
  intros H. inversion H. apply filter_subsequence.
Qed.

Lemma keyword_filter_keeps_order (df : DataFrame) (query : string)
  (iks : list string) (out : DataFrame) :
  keyword_filter df query = Ok (iks, out) -> subsequence out df.
Proof.
  unfold keyword_filter. intros Hk.
  destruct (for_each (split_institution df) _ _) as [[iks' niks]|];
    cbn [bind fst snd] in Hk; [|discriminate].
  destruct (for_each (fun res k => filter_contains Institution_norm k res) iks' df)
    as [working|] eqn:E2; cbn [bind] in Hk; [|discriminate].
  destruct (for_each (categorize working) niks ([], [])) as [cats|];
    cbn [bind] in Hk; [|discriminate].
  destruct (for_each _ (fst cats) working) as [w2|] eqn:E4;
    cbn [bind] in Hk; [|discriminate].
  destruct (for_each _ (snd cats) w2) as [w3|] eqn:E5;
    cbn [bind] in Hk; [|discriminate].
  inversion Hk; subst.
  eapply subsequence_trans.
  { eapply for_each_subsequence; [|exact E5].
    intros res x res'. apply filter_contains_keeps_order. }
  eapply subsequence_trans.
  { eapply for_each_subsequence; [|exact E4].
    intros res x res'. apply filter_contains_keeps_order. }
  eapply for_each_subsequence; [|exact E2].
  intros res x res'. apply filter_contains_keeps_order.
Qed.

Lemma finish_search_members `{Polars} (df : DataFrame) (iks : list string)
  (results rows : DataFrame) :
  subsequence results df ->
  finish_search df iks results = Ok rows ->
  forall r, In r rows -> In r df.
Proof.
  intros Hs Hf r Hr. unfold finish_search in Hf.
  destruct (is_empty_frame results).
  { inversion Hf; subst. contradiction. }
  destruct iks as [|k ks].
  - destruct (unique_cells (map cid results)).
    + inversion Hf; subst. contradiction.
    + rewrite de_anza_first_eq in Hf. cbn [bind] in Hf. inversion Hf; subst.
      apply unique_rows_sound in Hr.
      apply in_app_or in Hr as [Hr|Hr]; apply filter_In in Hr as [Hr _];
        apply filter_In in Hr as [Hr _]; exact Hr.
  - inversion Hf; subst. apply unique_rows_sound in Hr.
    eapply subsequence_member; eassumption.
Qed.

End SearchMore.

Import SearchMore.

(** X1.  Whatever the query, every row [smart_search] returns is a row of the
    frame it was given. *)
Theorem search_returns_rows_of_the_frame `{Polars} (df : DataFrame) (query : string)
  (rows : DataFrame) :
  smart_search df query = Ok rows ->
  forall r, In r rows -> In r df.
Proof.
  intros Hs r Hr. unfold smart_search in Hs.
  destruct (Str.is_empty (Str.strip Char.is_py_space query)
            || (String.length (Str.strip Char.is_py_space query) <? MIN_SEARCH_CHARS)).
  { inversion Hs; subst. contradiction. }
  destruct (fast_path df (Str.strip Char.is_py_space query)) as [[fast|]|] eqn:Ef;
    cbn [bind] in Hs; [| |discriminate].
  - inversion Hs; subst.
    destruct (fast_path_result _ _ Ef) as (d & n & g & kept & _ & _ & Hk & ->).
    assert (Hin : In r kept).
    { apply in_app_or in Hr as [Hr|Hr]; apply filter_In in Hr as [Hr _]; exact Hr. }
    assert (Hd : In r (direct_match df d n)).
    { eapply subsequence_member; [|exact Hin].
      eapply for_each_subsequence; [|exact Hk]. apply filter_extra_subsequence. }
    apply filter_In in Hd as [Hd _]. exact Hd.
  - unfold keyword_path in Hs.
    destruct (keyword_filter df (Str.strip Char.is_py_space query)) as [[iks out]|]
      eqn:Ek; cbn [bind fst snd] in Hs; [|discriminate].
    eapply finish_search_members; [|exact Hs|exact Hr].
    eapply keyword_filter_keeps_order, Ek.
Qed.

Lemma search_returns_rows_of_the_frame_witness :
  @smart_search (first_seen false) Sample.catalog "cell biology"
  = Ok [Sample.de_anza_biol; Sample.hartnell_biol] /\
  In Sample.hartnell_biol Sample.catalog.
Proof.
  split; [vm_compute; reflexivity|].
  apply (@search_returns_rows_of_the_frame (first_seen false) Sample.catalog
           "cell biology" [Sample.de_anza_biol; Sample.hartnell_biol]).
  - vm_compute. reflexivity.
  - right. left. reflexivity.
Defined.

Module QueryText.








Lemma rstrip_blanks (ws : ascii -> bool) (b : string) :
  Str.forallb ws b = true -> Str.rstrip ws b = EmptyString.
Proof.
  induction b as [|c b IH]; simpl; [reflexivity|].
  intros H. apply andb_true_iff in H as [Hc Hb]. now rewrite (IH Hb), Hc.
Qed.

Lemma rstrip_append_blanks (ws : ascii -> bool) (s b : string) :
  Str.forallb ws b = true -> Str.rstrip ws (s ++ b) = Str.rstrip ws s.
Proof.
  intros Hb. induction s as [|c s IH]; simpl.
  - now apply rstrip_blanks.
  - now rewrite IH.
Qed.

Lemma lstrip_blanks_append (ws : ascii -> bool) (a s : string) :
  Str.forallb ws a = true -> Str.lstrip ws (a ++ s) = Str.lstrip ws s.
Proof.
  induction a as [|c a IH]; simpl; [reflexivity|].
  intros H. apply andb_true_iff in H as [Hc Ha]. now rewrite Hc, IH.
Qed.

Lemma lstrip_blanks (ws : ascii -> bool) (b : string) :
  Str.forallb ws b = true -> Str.lstrip ws b = EmptyString.
Proof.
  induction b as [|c b IH]; simpl; [reflexivity|].
  intros H. apply andb_true_iff in H as [Hc Hb]. now rewrite Hc, IH.
Qed.

Lemma lstrip_append_blanks (ws : ascii -> bool) (s b : string) :
  Str.forallb ws b = true ->
  Str.rstrip ws (Str.lstrip ws (s ++ b)) = Str.rstrip ws (Str.lstrip ws s).
Proof.
  intros Hb. induction s as [|c s IH]; simpl.
  - now rewrite (lstrip_blanks ws b Hb).
  - destruct (ws c); [exact IH|].
    change (String c (s ++ b)%string) with (String c s ++ b)%string.
    now apply rstrip_append_blanks.
Qed.

Lemma strip_padding (ws : ascii -> bool) (a s b : string) :
  Str.forallb ws a = true -> Str.forallb ws b = true ->
  Str.strip ws (a ++ s ++ b) = Str.strip ws s.
Proof.
  intros Ha Hb. unfold Str.strip.
  rewrite (lstrip_blanks_append ws a (s ++ b) Ha).
  now apply lstrip_append_blanks.
Qed.

End QueryText.


(** X3.  Blanks before and after the query are ignored. *)
Theorem search_ignores_surrounding_blanks `{Polars} (df : DataFrame)
  (before query after : string) :
  Str.forallb Char.is_py_space before = true ->
  Str.forallb Char.is_py_space after = true ->
  smart_search df (before ++ query ++ after) = smart_search df query.
Proof.
  intros Hb Ha. unfold smart_search.
  now rewrite (QueryText.strip_padding Char.is_py_space before query after Hb Ha).
Qed.

Lemma search_ignores_surrounding_blanks_witness :
  @smart_search (first_seen false) Sample.catalog ("  " ++ "acct 110" ++ " ")
  = @smart_search (first_seen false) Sample.catalog "acct 110".
Proof.
  apply (@search_ignores_surrounding_blanks (first_seen false) Sample.catalog
           "  " "acct 110" " "); reflexivity.
Defined.

(** ** The keyword path as one filter *)

Module Tokens.
Import Regex RegexFacts SearchFacts FastPath KeywordPath Classifier.

Definition no_blank (kw : string) : bool :=
  Str.forallb (fun c => negb (Char.is_py_space c)) kw.

Lemma string_app_nil (s : string) : (s ++ EmptyString)%string = s.
Proof. induction s as [|c s IH]; simpl; [reflexivity|]. now rewrite IH. Qed.

Lemma split_from_all (P : ascii -> bool) (ws : ascii -> bool) (s : string) :
  forall cur, Str.forallb P cur = true -> Str.forallb P s = true ->
  forall kw, In kw (Str.split_from ws cur s) -> Str.forallb P kw = true.
Proof.
  induction s as [|c t IH]; intros cur Hc Hs kw Hin; simpl in *.
  - destruct (Str.is_empty cur); [contradiction|].
    destruct Hin as [<-|[]]. exact Hc.
  - apply andb_true_iff in Hs as [Hpc Ht].
    destruct (ws c).
    + destruct (Str.is_empty cur).
      * eapply (IH EmptyString); eauto.
      * destruct Hin as [<-|Hin]; [exact Hc|].
        eapply (IH EmptyString); eauto.
    + eapply (IH (cur ++ String c EmptyString)%string); eauto.
      rewrite forallb_append. simpl. now rewrite Hc, Hpc.
Qed.

Lemma split_from_no_blank (ws : ascii -> bool) (s : string) :
  forall cur, Str.forallb (fun c => negb (ws c)) cur = true ->
  forall kw, In kw (Str.split_from ws cur s) ->
    Str.forallb (fun c => negb (ws c)) kw = true.
Proof.
  induction s as [|c t IH]; intros cur Hc kw Hin; simpl in *.
  - destruct (Str.is_empty cur); [contradiction|].
    destruct Hin as [<-|[]]. exact Hc.
  - destruct (ws c) eqn:E.
    + destruct (Str.is_empty cur).
      * eapply (IH EmptyString); eauto.
      * destruct Hin as [<-|Hin]; [exact Hc|].
        eapply (IH EmptyString); eauto.
    + eapply (IH (cur ++ String c EmptyString)%string); eauto.
      rewrite forallb_append. simpl. now rewrite Hc, E.
Qed.

Lemma tokens_no_blank (query kw : string) :
  In kw (tokens query) -> no_blank kw = true.
Proof. apply (split_from_no_blank Char.is_py_space _ EmptyString eq_refl). Qed.

Lemma span_append (p : ascii -> bool) (s : string) :
  (fst (Str.span p s) ++ snd (Str.span p s))%string = s.
Proof.
  induction s as [|c t IH]; simpl; [reflexivity|].
  destruct (p c); [|reflexivity].
  destruct (Str.span p t); simpl in *. now rewrite IH.
Qed.

Lemma newline_is_blank c : Char.is_newline c = true -> Char.is_py_space c = true.
Proof. by_cases_on_char c. Qed.

Lemma dept_pattern_token (kw : string) :
  dept_pattern kw = true -> no_blank kw = true ->
  Str.forallb Char.is_upper kw = true /\ kw <> EmptyString.
Proof.
  unfold dept_pattern, no_blank.
  pose proof (span_append Char.is_upper kw) as Ha.
  pose proof (span_all Char.is_upper kw) as Hu.
  destruct (Str.span Char.is_upper kw) as [letters s1]. simpl in Ha, Hu.
  intros Hp Hb. apply andb_true_iff in Hp as [Hp He].
  apply andb_true_iff in Hp as [L1 _]. apply Nat.leb_le in L1.
  assert (E : s1 = EmptyString).
  { destruct s1 as [|c [|c' s']]; [reflexivity| |discriminate].
    simpl in He. apply newline_is_blank in He.
    rewrite <- Ha, forallb_append in Hb. apply andb_true_iff in Hb as [_ Hb].
    simpl in Hb. rewrite He in Hb. discriminate. }
  subst s1. rewrite string_app_nil in Ha. subst letters.
  split; [exact Hu|]. destruct kw; [simpl in L1; lia|discriminate].
Qed.

Lemma compiles_dept_regex (kw : string) :
  dept_shaped kw = true -> no_blank kw = true -> compiles (dept_regex kw) = true.
Proof.
  unfold dept_shaped. intros Hd Hb. apply andb_true_iff in Hd as [Hd _].
  destruct (dept_pattern_token kw Hd Hb) as [Hu _].
  unfold compiles. now rewrite compile_dept_regex.
Qed.

Lemma filter_contains_re (col : Row -> string) (pattern : string) (res : DataFrame) :
  compiles pattern = true ->
  filter_contains col pattern res
  = Ok (filter (fun r => contains_re pattern (col r)) res).
Proof.
  unfold compiles, filter_contains, contains_re.
  destruct (compile pattern); [reflexivity|discriminate].
Qed.

Lemma filter_contains_compiles (col : Row -> string) (pattern : string)
  (res out : DataFrame) :
  filter_contains col pattern res = Ok out -> compiles pattern = true.
Proof.
  unfold compiles, filter_contains. destruct (compile pattern); [reflexivity|discriminate].
Qed.

Lemma filter_twice {A : Type} (f g : A -> bool) (l : list A) :
  filter f (filter g l) = filter (fun x => g x && f x) l.
Proof.
  induction l as [|x l IH]; simpl; [reflexivity|].
  destruct (g x); simpl; [|exact IH]. destruct (f x); now rewrite IH.
Qed.

Lemma nonempty_filter {A : Type} (f : A -> bool) (l : list A) :
  negb (match filter f l with [] => true | _ :: _ => false end) = existsb f l.
Proof.
  induction l as [|x l IH]; simpl; [reflexivity|].
  destruct (f x); simpl; [reflexivity|exact IH].
Qed.

(** A loop of [str.contains] filters is one filter by the conjunction. *)
Lemma filter_loop (col : Row -> string) (pat : string -> string) (kws : list string) :
  forall res,
    (forall kw, In kw kws -> compiles (pat kw) = true) ->
    for_each (fun res kw => filter_contains col (pat kw) res) kws res
    = Ok (filter (fun r => forallb (fun kw => contains_re (pat kw) (col r)) kws) res).
Proof.
  induction kws as [|kw kws IH]; intros res Hc; simpl.
  - f_equal. induction res as [|r res IHr]; simpl; [reflexivity|]. now rewrite <- IHr.
  - rewrite filter_contains_re by (apply Hc; now left). cbn [bind].
    rewrite IH by (intros k Hk; apply Hc; now right).
    now rewrite filter_twice.
Qed.

Lemma split_step (df : DataFrame) (acc : list string * list string) (kw : string) :
  compiles kw = true ->
  split_institution df acc kw =
  Ok (if names_institution df kw then (fst acc ++ [kw], snd acc)
      else (fst acc, snd acc ++ [kw])).
Proof.
  intros Hc. unfold split_institution. rewrite filter_contains_re by exact Hc.
  cbn [bind]. unfold is_empty_frame. rewrite nonempty_filter.
  fold (names_institution df kw). destruct (names_institution df kw); reflexivity.
Qed.

Lemma split_loop (df : DataFrame) (kws : list string) :
  forall a b,
    forallb compiles kws = true ->
    for_each (split_institution df) kws (a, b)
    = Ok (a ++ institution_tokens df kws, b ++ other_tokens df kws).
Proof.
  unfold institution_tokens, other_tokens.
  induction kws as [|kw kws IH]; intros a b Hc; simpl in *.
  - now rewrite !app_nil_r.
  - apply andb_true_iff in Hc as [Hk Hc].
    rewrite split_step by exact Hk. cbn [bind fst snd].
    destruct (names_institution df kw); cbn [negb]; rewrite IH by exact Hc;
      now rewrite <- ?app_assoc.
Qed.

Lemma split_loop_compiles (df : DataFrame) (kws : list string) :
  forall acc out,
    for_each (split_institution df) kws acc = Ok out -> forallb compiles kws = true.
Proof.
  induction kws as [|kw kws IH]; intros acc out H; simpl in *; [reflexivity|].
  destruct (split_institution df acc kw) as [acc'|] eqn:E; cbn [bind] in H;
    [|discriminate].
  rewrite (IH _ _ H), andb_true_r.
  unfold split_institution in E.
  destruct (filter_contains Institution_norm kw df) eqn:F; [|discriminate].
  eapply filter_contains_compiles, F.
Qed.

Lemma department_not_title (working : DataFrame) (kw : string) :
  is_department working kw = true -> is_title working kw = false.
Proof.
  intros H. unfold is_title. rewrite H.
  unfold is_department in H. apply andb_true_iff in H as [H _].
  apply andb_true_iff in H as [H _]. now rewrite H.
Qed.

Lemma categorize_step (working : DataFrame) (acc : list string * list string)
  (kw : string) :
  compiles kw = true ->
  (dept_shaped kw = true -> compiles (dept_regex kw) = true) ->
  categorize working acc kw =
  Ok (if is_department working kw then (fst acc ++ [kw], snd acc)
      else if is_title working kw then (fst acc, snd acc ++ [kw])
      else acc).
Proof.
  intros Hc Hd. unfold categorize, is_title, is_department.
  fold (dept_shaped kw). destruct (dept_shaped kw) eqn:E; [|reflexivity].
  rewrite filter_contains_re by now apply Hd. cbn [bind].
  rewrite filter_contains_re by exact Hc. cbn [bind andb].
  fold (dept_hits working kw). fold (title_hits working kw).
  destruct ((0 <? dept_hits working kw)
            && (title_hits working kw <? dept_hits working kw * 10));
    [reflexivity|].
  cbn [negb andb]. destruct (0 <? title_hits working kw); reflexivity.
Qed.

Lemma categorize_loop (working : DataFrame) (kws : list string) :
  forall a b,
    (forall kw, In kw kws -> compiles kw = true) ->
    (forall kw, In kw kws -> dept_shaped kw = true -> compiles (dept_regex kw) = true) ->
    for_each (categorize working) kws (a, b)
    = Ok (a ++ filter (is_department working) kws,
          b ++ filter (is_title working) kws).
Proof.
  induction kws as [|kw kws IH]; intros a b Hc Hd; simpl.
  - now rewrite !app_nil_r.
  - rewrite categorize_step; [|apply Hc; now left|apply Hd; now left].
    cbn [bind fst snd].
    assert (Hc' : forall k, In k kws -> compiles k = true)
      by (intros k Hk; apply Hc; now right).
    assert (Hd' : forall k, In k kws -> dept_shaped k = true ->
                            compiles (dept_regex k) = true)
      by (intros k Hk; apply Hd; now right).
    destruct (is_department working kw) eqn:D.
    + rewrite (department_not_title _ _ D), IH by assumption.
      now rewrite <- app_assoc.
    + destruct (is_title working kw); rewrite IH by assumption;
        now rewrite <- ?app_assoc.
Qed.

End Tokens.

Module Closed.
Import Regex RegexFacts SearchFacts FastPath KeywordPath Classifier Tokens.

Lemma tokens_compile_each (kws : list string) (kw : string) :
  forallb compiles kws = true -> In kw kws -> compiles kw = true.
Proof. intros H Hin. eapply forallb_forall in H; eassumption. Qed.

Lemma keyword_filter_closed (df : DataFrame) (query : string) :
  forallb compiles (tokens query) = true ->
  keyword_filter df query
  = Ok (institution_tokens df (tokens query),
        filter (row_passes df (tokens query)) df).
Proof.
  intros Hc. unfold keyword_filter. fold (tokens query).
  set (kws := tokens query) in *.
  rewrite split_loop by exact Hc. cbn [bind fst snd app].
  pose proof (filter_loop Institution_norm (fun kw => kw)
                (institution_tokens df kws) df) as E1.
  cbv beta in E1. rewrite E1; clear E1.
  2:{ intros kw Hk. apply filter_In in Hk as [Hk _].
      eapply tokens_compile_each; eassumption. }
  cbn [bind]. fold (working_set df kws).
  rewrite categorize_loop.
  2:{ intros kw Hk. apply filter_In in Hk as [Hk _].
      eapply tokens_compile_each; eassumption. }
  2:{ intros kw Hk Hd. apply filter_In in Hk as [Hk _].
      apply compiles_dept_regex; [exact Hd|]. eapply tokens_no_blank, Hk. }
  cbn [bind fst snd app].
  fold (department_tokens df kws). fold (title_tokens df kws).
  rewrite (filter_loop Dept_norm dept_regex).
  2:{ intros kw Hk. apply filter_In in Hk as [Hk Hd].
      apply filter_In in Hk as [Hk _].
      apply compiles_dept_regex; [|eapply tokens_no_blank, Hk].
      unfold is_department in Hd. apply andb_true_iff in Hd as [Hd _].
      now apply andb_true_iff in Hd as [Hd _]. }
  cbn [bind].
  pose proof (filter_loop Title_norm (fun kw => kw) (title_tokens df kws)) as E2.
  cbv beta in E2. rewrite E2; clear E2.
  2:{ intros kw Hk. apply filter_In in Hk as [Hk _].
      apply filter_In in Hk as [Hk _].
      eapply tokens_compile_each; eassumption. }
  cbn [bind]. unfold working_set. rewrite !filter_twice.
  f_equal. f_equal. apply filter_ext_eq. intros r. unfold row_passes.
  now rewrite andb_assoc.
Qed.

Lemma keyword_filter_compiles (df : DataFrame) (query : string)
  (found : list string * DataFrame) :
  keyword_filter df query = Ok found -> forallb compiles (tokens query) = true.
Proof.
  unfold keyword_filter. fold (tokens query). intros H.
  destruct (for_each (split_institution df) (tokens query) ([], [])) as [kinds|] eqn:E;
    [|discriminate].
  eapply split_loop_compiles, E.
Qed.

Lemma finish_search_total `{Polars} (df : DataFrame) (iks : list string)
  (results : DataFrame) :
  exists rows, finish_search df iks results = Ok rows.
Proof.
  unfold finish_search. destruct (is_empty_frame results); [now eexists|].
  destruct iks; [|now eexists].
  destruct (unique_cells (map cid results)); [now eexists|].
  rewrite de_anza_first_eq. now eexists.
Qed.

Lemma keyword_path_ok `{Polars} (df : DataFrame) (query : string) :
  forallb compiles (tokens query) = true ->
  exists rows, keyword_path df query = Ok rows.
Proof.
  intros Hc. unfold keyword_path.
  rewrite (keyword_filter_closed df query Hc). cbn [bind fst snd].
  apply finish_search_total.
Qed.

End Closed.

Import Tokens Closed.

(** X4.  The keyword filters amount to one filter of the frame: the rows left
    are the rows of the frame, in frame order, that match every institution
    keyword in the institution, every department keyword at a word start of
    the department and every title keyword in the title; the institution
    keywords reported are the tokens that match some institution. *)
Theorem keyword_filter_is_one_filter (df : DataFrame) (query : string)
  (iks : list string) (out : DataFrame) :
  keyword_filter df query = Ok (iks, out) ->
  iks = institution_tokens df (tokens query) /\
  out = filter (row_passes df (tokens query)) df.
Proof.
  intros H. pose proof (keyword_filter_compiles _ _ H) as Hc.
  rewrite (keyword_filter_closed df query Hc) in H. inversion H. now split.
Qed.

Lemma keyword_filter_is_one_filter_witness :
  [] = institution_tokens Sample.catalog (tokens "cell biology") /\
  [Sample.de_anza_biol; Sample.hartnell_biol]
  = filter (row_passes Sample.catalog (tokens "cell biology")) Sample.catalog.
Proof.
  apply (@keyword_filter_is_one_filter Sample.catalog "cell biology").
  vm_compute. reflexivity.
Defined.


Module WordOrder.
Import Closed.

Lemma forallb_permuted {A : Type} (f : A -> bool) (l l' : list A) :
  Permutation l l' -> forallb f l = forallb f l'.
Proof.
  induction 1 as [|x l l' Hp IH|x y l|l l' l'' H1 IH1 H2 IH2]; simpl.
  - reflexivity.
  - now rewrite IH.
  - destruct (f x), (f y); reflexivity.
  - now rewrite IH1.
Qed.

Lemma filter_permuted {A : Type} (f : A -> bool) (l l' : list A) :
  Permutation l l' -> Permutation (filter f l) (filter f l').
Proof.
  induction 1 as [|x l l' Hp IH|x y l|l l' l'' H1 IH1 H2 IH2]; simpl.
  - constructor.
  - destruct (f x); [now constructor|exact IH].
  - destruct (f x), (f y); try apply Permutation_refl. apply perm_swap.
  - eapply Permutation_trans; eassumption.
Qed.

Lemma working_set_permuted (df : DataFrame) (kws kws' : list string) :
  Permutation kws kws' -> working_set df kws = working_set df kws'.
Proof.
  intros Hp. unfold working_set. apply filter_ext_eq. intros r.
  apply forallb_permuted. unfold institution_tokens. now apply filter_permuted.
Qed.

Lemma row_passes_permuted (df : DataFrame) (kws kws' : list string) (r : Row) :
  Permutation kws kws' -> row_passes df kws r = row_passes df kws' r.
Proof.
  intros Hp. unfold row_passes, department_tokens, title_tokens.
  rewrite (working_set_permuted df Hp).
  f_equal; [f_equal|]; apply forallb_permuted; unfold institution_tokens, other_tokens;
    repeat apply filter_permuted; exact Hp.
Qed.

Lemma finish_search_permuted `{Polars} (df : DataFrame) (iks iks' : list string)
  (out : DataFrame) :
  Permutation iks iks' -> finish_search df iks out = finish_search df iks' out.
Proof.
  intros Hp. unfold finish_search.
  destruct iks as [|k ks], iks' as [|k' ks']; try reflexivity.
  - apply Permutation_nil in Hp. discriminate.
  - apply Permutation_sym, Permutation_nil in Hp. discriminate.
Qed.

End WordOrder.

(** X6.  On the keyword path the order of the words does not matter: two
    queries with the same words, in any order, return the same result. *)
Theorem keyword_path_ignores_word_order `{Polars} (df : DataFrame) (q1 q2 : string)
  (rows : DataFrame) :
  Permutation (tokens q1) (tokens q2) ->
  keyword_path df q1 = Ok rows ->
  keyword_path df q2 = Ok rows.
Proof.
  intros Hp H1. unfold keyword_path in *.
  destruct (keyword_filter df q1) as [found|] eqn:E1; [|discriminate].
  pose proof (keyword_filter_compiles _ _ E1) as Hc1.
  rewrite (keyword_filter_closed df q1 Hc1) in E1. inversion E1; subst found.
  cbn [bind fst snd] in H1.
  assert (Hc2 : forallb compiles (tokens q2) = true).
  { now rewrite <- (WordOrder.forallb_permuted compiles Hp). }
  rewrite (keyword_filter_closed df q2 Hc2). cbn [bind fst snd].
  rewrite <- H1.
  rewrite (filter_ext_eq (row_passes df (tokens q2)) (row_passes df (tokens q1)))
    by (intros r; symmetry; now apply WordOrder.row_passes_permuted).
  apply WordOrder.finish_search_permuted.
  unfold institution_tokens. apply WordOrder.filter_permuted. now apply Permutation_sym.
Qed.

Lemma keyword_path_ignores_word_order_witness :
  @keyword_path (first_seen false) Sample.catalog "cell biology"
  = Ok [Sample.de_anza_biol; Sample.hartnell_biol].
Proof.
  apply (@keyword_path_ignores_word_order (first_seen false) Sample.catalog
           "biology cell" "cell biology").
  - vm_compute. apply perm_swap.
  - vm_compute. reflexivity.
Defined.

Module PlainText.
Import Regex RegexFacts SearchFacts FastPath Tokens Closed.

Lemma upper_keeps_plain c : is_plain c = true -> is_plain (Char.upper c) = true.
Proof. by_cases_on_char c. Qed.

Lemma upper_plain (s : string) :
  plain_text s = true -> plain_text (Str.upper s) = true.
Proof.
  unfold plain_text, Str.upper. induction s as [|c t IH]; simpl; [reflexivity|].
  intros H. apply andb_true_iff in H as [Hc Ht].
  now rewrite (upper_keeps_plain _ Hc), (IH Ht).
Qed.

Lemma lstrip_all (P ws : ascii -> bool) (s : string) :
  Str.forallb P s = true -> Str.forallb P (Str.lstrip ws s) = true.
Proof.
  induction s as [|c t IH]; simpl; [reflexivity|].
  intros H. destruct (ws c); [|exact H].
  apply andb_true_iff in H as [_ Ht]. now apply IH.
Qed.

Lemma rstrip_all (P ws : ascii -> bool) (s : string) :
  Str.forallb P s = true -> Str.forallb P (Str.rstrip ws s) = true.
Proof.
  induction s as [|c t IH]; simpl; [reflexivity|].
  intros H. apply andb_true_iff in H as [Hc Ht]. specialize (IH Ht).
  destruct (Str.rstrip ws t); simpl in *.
  - destruct (ws c); simpl; [reflexivity|now rewrite Hc].
  - now rewrite Hc, IH.
Qed.

Lemma strip_all (P ws : ascii -> bool) (s : string) :
  Str.forallb P s = true -> Str.forallb P (Str.strip ws s) = true.
Proof. intros H. unfold Str.strip. now apply rstrip_all, lstrip_all. Qed.

Lemma span_rest_all (P p : ascii -> bool) (s : string) :
  Str.forallb P s = true -> Str.forallb P (snd (Str.span p s)) = true.
Proof.
  induction s as [|c t IH]; simpl; [reflexivity|].
  intros H. destruct (p c); [|exact H].
  apply andb_true_iff in H as [_ Ht]. specialize (IH Ht).
  destruct (Str.span p t); exact IH.
Qed.

Lemma span_run_all (P p : ascii -> bool) (s : string) :
  Str.forallb P s = true -> Str.forallb P (fst (Str.span p s)) = true.
Proof.
  induction s as [|c t IH]; simpl; [reflexivity|].
  intros H. destruct (p c); [|reflexivity].
  apply andb_true_iff in H as [Hc Ht]. specialize (IH Ht).
  destruct (Str.span p t); simpl in *. now rewrite Hc, IH.
Qed.

(** The third group of the C-ID pattern is made of characters of the text. *)
Lemma cid_pattern_remainder (P : ascii -> bool) (s d n g : string) :
  Str.forallb P s = true -> cid_pattern s = Some (d, n, g) -> Str.forallb P g = true.
Proof.
  intros Hs. unfold cid_pattern.
  pose proof (span_rest_all P Char.is_upper s Hs) as H1.
  destruct (Str.span Char.is_upper s) as [letters s1]. simpl in H1.
  destruct ((2 <=? String.length letters) && (String.length letters <=? 5));
    [|discriminate].
  pose proof (span_rest_all P is_separator s1 H1) as H2.
  destruct (Str.span is_separator s1) as [seps s2]. simpl in H2.
  destruct (Str.is_empty seps); [discriminate|].
  pose proof (span_rest_all P Char.is_digit s2 H2) as H3.
  destruct (Str.span Char.is_digit s2) as [digits s3]. simpl in H3.
  destruct (Str.is_empty digits); [discriminate|].
  assert (H4 : Str.forallb P (snd (optional_upper s3)) = true).
  { destruct s3 as [|c t]; simpl; [reflexivity|].
    destruct (Char.is_upper c); simpl; [|exact H3].
    simpl in H3. now apply andb_true_iff in H3 as [_ H3]. }
  destruct (optional_upper s3) as [letter s4]. simpl in H4.
  pose proof (span_rest_all P Char.is_py_space s4 H4) as H5.
  destruct (Str.span Char.is_py_space s4) as [blanks s5]. simpl in H5.
  pose proof (span_run_all P (fun c => negb (Char.is_newline c)) s5 H5) as H6.
  destruct (Str.span (fun c => negb (Char.is_newline c)) s5) as [trailing s6].
  simpl in H6. destruct (at_line_end s6); [|discriminate].
  intros H. now inversion H; subst.
Qed.

Lemma plain_compiles (kw : string) : plain_text kw = true -> compiles kw = true.
Proof. intros H. unfold compiles. now rewrite compile_plain. Qed.

Lemma plain_tokens (ws : ascii -> bool) (s : string) :
  plain_text s = true -> forallb compiles (Str.split ws s) = true.
Proof.
  intros H. apply forallb_forall. intros kw Hk. apply plain_compiles.
  eapply (split_from_all is_plain ws s EmptyString eq_refl H), Hk.
Qed.

Lemma extra_loop (kws : list string) :
  forall res, forallb compiles kws = true ->
  exists kept, for_each filter_extra kws res = Ok kept.
Proof.
  induction kws as [|kw kws IH]; intros res Hc; simpl in *; [now eexists|].
  apply andb_true_iff in Hc as [Hk Hc].
  unfold filter_extra at 1. unfold compiles in Hk.
  destruct (compile kw); [|discriminate]. cbn [bind]. now apply IH.
Qed.

End PlainText.

(** X7.  A query without regex meta-characters never makes the search raise:
    [smart_search] returns a result for it, on every frame. *)
Theorem plain_query_never_raises `{Polars} (df : DataFrame) (query : string) :
  plain_text query = true ->
  exists rows, smart_search df query = Ok rows.
Proof.
  intros Hq. unfold smart_search.
  pose proof (PlainText.strip_all Regex.is_plain Char.is_py_space query Hq) as Hs.
  set (s := Str.strip Char.is_py_space query) in *.
  destruct (Str.is_empty s || (String.length s <? MIN_SEARCH_CHARS)); [now eexists|].
  pose proof (PlainText.upper_plain s Hs) as Hu.
  assert (Hk : exists rows, keyword_path df s = Ok rows).
  { apply keyword_path_ok. unfold tokens. now apply PlainText.plain_tokens. }
  destruct (cid_pattern (Str.upper s)) as [[[d n] g]|] eqn:Ep.
  - rewrite (fast_path_eq df s Ep).
    destruct (is_empty_frame (direct_match df d n)); [exact Hk|].
    destruct (PlainText.extra_loop
                (Str.split Char.is_py_space (Str.strip Char.is_py_space g))
                (direct_match df d n)) as [kept Hkept].
    { apply PlainText.plain_tokens, PlainText.strip_all.
      eapply PlainText.cid_pattern_remainder; [exact Hu|exact Ep]. }
    rewrite Hkept. cbn [bind]. now eexists.
  - rewrite (fast_path_no_pattern df s Ep). exact Hk.
Qed.

Lemma plain_query_never_raises_witness :
  exists rows,
    @smart_search (first_seen false) Sample.catalog "financial accounting" = Ok rows.
Proof.
  apply (@plain_query_never_raises (first_seen false) Sample.catalog
           "financial accounting").
  reflexivity.
Defined.

Module FastExact.
Import Regex FastPath Tokens.

Lemma extra_loop_filter (kws : list string) :
  forall res, forallb compiles kws = true ->
  for_each filter_extra kws res
  = Ok (filter (fun r => forallb (fun kw => extra_test kw r) kws) res).
Proof.
  induction kws as [|kw kws IH]; intros res Hc; simpl in *.
  - f_equal. induction res as [|r res IHr]; simpl; [reflexivity|]. now rewrite <- IHr.
  - apply andb_true_iff in Hc as [Hk Hc].
    unfold filter_extra at 1. unfold compiles in Hk.
    destruct (compile kw) as [re|] eqn:E; [|discriminate]. cbn [bind].
    rewrite IH by exact Hc. rewrite filter_twice. f_equal.
    apply filter_ext_eq. intros r. unfold extra_test at 2, contains_re.
    now rewrite E.
Qed.

Lemma partition_permutation {A : Type} (f : A -> bool) (l : list A) :
  Permutation (filter f l ++ filter (fun x => negb (f x)) l) l.
Proof.
  induction l as [|x l IH]; simpl; [constructor|].
  destruct (f x); simpl.
  - now constructor.
  - apply Permutation_sym, Permutation_cons_app, Permutation_sym, IH.
Qed.

End FastExact.

(** X8.  A query of the C-ID shape whose direct match is not empty returns,
    up to the home-first order, exactly the records whose upper-cased C-ID
    contains "DEPT NUMBER" and whose institution or title matches every
    further word of the query (as many times as the frame holds them). *)
Theorem cid_query_returns_the_matching_records `{Polars} (df : DataFrame)
  (query dept_code cid_number group3 : string) :
  cid_pattern (Str.upper (Str.strip Char.is_py_space query))
    = Some (dept_code, cid_number, group3) ->
  direct_match df dept_code cid_number <> [] ->
  forallb compiles (Str.split Char.is_py_space (Str.strip Char.is_py_space group3))
    = true ->
  exists rows,
    smart_search df query = Ok rows /\
    Permutation rows
      (filter (fun r =>
                 Str.contains (dept_code ++ " " ++ cid_number)
                   (Str.upper (fill_null "" (cid r)))
                 && forallb (fun kw => extra_test kw r)
                      (Str.split Char.is_py_space (Str.strip Char.is_py_space group3)))
         df).
Proof.
  intros Hp Hd Hc.
  set (extras := Str.split Char.is_py_space (Str.strip Char.is_py_space group3)) in *.
  set (kept := filter (fun r => forallb (fun kw => extra_test kw r) extras)
                 (direct_match df dept_code cid_number)).
  exists (filter is_home kept ++ filter (fun r => negb (is_home r)) kept). split.
  - apply smart_search_fast. rewrite (fast_path_eq df _ Hp).
    destruct (direct_match df dept_code cid_number) eqn:E; [congruence|].
    cbn [is_empty_frame]. fold extras.
    rewrite FastExact.extra_loop_filter by exact Hc. reflexivity.
  - eapply Permutation_trans; [apply FastExact.partition_permutation|].
    subst kept. unfold direct_match. rewrite Tokens.filter_twice.
    apply Permutation_refl.
Qed.

Lemma cid_query_returns_the_matching_records_witness :
  exists rows,
    @smart_search (first_seen false) Sample.catalog "acct-110 foothill" = Ok rows /\
    Permutation rows
      (filter (fun r =>
                 Str.contains "ACCT 110" (Str.upper (fill_null "" (cid r)))
                 && forallb (fun kw => extra_test kw r) ["FOOTHILL"])
         Sample.catalog).
Proof.
  apply (@cid_query_returns_the_matching_records (first_seen false) Sample.catalog
           "acct-110 foothill" "ACCT" "110" "FOOTHILL").
  - vm_compute. reflexivity.
  - vm_compute. discriminate.
  - vm_compute. reflexivity.
Defined.

(** * Further properties of the loader and of the course index *)

Module Normal.

Lemma upper_char_not_lower c : Char.is_lower (Char.upper c) = false.
Proof. by_cases_on_char c. Qed.

Lemma upper_no_lower (s : string) : no_lower (Str.upper s) = true.
Proof.
  unfold no_lower, Str.upper. induction s as [|c t IH]; simpl; [reflexivity|].
  now rewrite upper_char_not_lower, IH.
Qed.

Lemma collapse_no_lower (s : string) : forall b,
  no_lower s = true -> no_lower (Str.collapse Char.is_rust_space b s) = true.
Proof.
  unfold no_lower. induction s as [|c t IH]; intros b H; simpl in *; [reflexivity|].
  apply andb_true_iff in H as [Hc Ht].
  destruct (Char.is_rust_space c).
  - destruct b; simpl; now apply IH.
  - simpl. now rewrite Hc, IH.
Qed.

Lemma collapse_only_spaces (s : string) : forall b,
  Str.forallb (fun c => negb (Char.is_rust_space c) || Ascii.eqb c " ")
    (Str.collapse Char.is_rust_space b s) = true.
Proof.
  induction s as [|c t IH]; intros b; simpl; [reflexivity|].
  destruct (Char.is_rust_space c) eqn:E.
  - destruct b; simpl; now rewrite ?IH.
  - simpl. now rewrite E, IH.
Qed.

Lemma space_is_blank c : Ascii.eqb " " c = true -> Char.is_rust_space c = true.
Proof. by_cases_on_char c. Qed.

Lemma starts_with_space (c : ascii) (s : string) :
  Str.starts_with " " (String c s) = Ascii.eqb " " c.
Proof. cbn [Str.starts_with]. apply andb_true_r. Qed.

Lemma contains_two_spaces (c : ascii) (s : string) :
  Str.contains "  " (String c s)
  = (Ascii.eqb " " c && Str.starts_with " " s) || Str.contains "  " s.
Proof. reflexivity. Qed.

(** Inside a run the output does not start with a space, and it never holds
    two spaces in a row. *)
Lemma collapse_no_double (s : string) : forall b,
  (b = true -> Str.starts_with " " (Str.collapse Char.is_rust_space b s) = false) /\
  Str.contains "  " (Str.collapse Char.is_rust_space b s) = false.
Proof.
  induction s as [|c t IH]; intros b; cbn [Str.collapse].
  - split; reflexivity.
  - destruct (Char.is_rust_space c) eqn:E.
    + destruct b.
      * apply IH.
      * split; [discriminate|].
        destruct (IH true) as [Hs Hc]. specialize (Hs eq_refl).
        rewrite contains_two_spaces, Hs, Hc. now rewrite andb_false_r.
    + assert (Hn : Ascii.eqb " " c = false).
      { destruct (Ascii.eqb " " c) eqn:F; [|reflexivity].
        apply space_is_blank in F. congruence. }
      split.
      * intros _. now rewrite starts_with_space.
      * destruct (IH false) as [_ Hc].
        now rewrite contains_two_spaces, Hn, Hc.
Qed.

Lemma collapse_single_spaced (s : string) :
  single_spaced (Str.collapse Char.is_rust_space false s) = true.
Proof.
  unfold single_spaced. rewrite collapse_only_spaces.
  now rewrite (proj2 (collapse_no_double s false)).
Qed.

End Normal.

(** X9.  When [load_data] succeeds the frame has one row per data row of the
    file, and in every row the normalised institution, department and title
    hold no lower-case letter, and the normalised department holds no
    whitespace but single spaces. *)
Theorem load_data_normalises_every_row (fs : FileSystem) (path : string)
  (df : DataFrame) :
  load_data fs path = Loaded df ->
  exists table,
    read_csv fs (abspath fs path) = inl table /\
    length df = length (data_rows table) /\
    (forall r, In r df ->
       no_lower (Institution_norm r) = true /\
       no_lower (Title_norm r) = true /\
       no_lower (Dept_norm r) = true /\
       single_spaced (Dept_norm r) = true).
Proof.
  unfold load_data. destruct (isfile fs (abspath fs path)); [|discriminate].
  cbn [negb]. destruct (read_csv fs (abspath fs path)) as [table|detail];
    [|discriminate].
  destruct (length (data_rows table) =? 0); [discriminate|].
  destruct (filter _ REQUIRED_COLS); [|discriminate].
  intros H. inversion H; subst. exists table. split; [reflexivity|].
  split; [apply length_map|].
  intros r Hr. apply in_map_iff in Hr as [row [<- _]].
  unfold with_norm_columns. cbn [Institution_norm Title_norm Dept_norm].
  repeat split.
  - apply Normal.upper_no_lower.
  - apply Normal.upper_no_lower.
  - apply Normal.collapse_no_lower, Normal.upper_no_lower.
  - apply Normal.collapse_single_spaced.
Qed.

Lemma load_data_normalises_every_row_witness :
  exists table,
    read_csv
      (Sample.file_system
         (inl (MkCsv REQUIRED_COLS
                 [[Some "ACCT 110"; Some "Financial Accounting"; Some "De Anza College";
                   Some "Financial  Accounting I"; Some "acct   1a"]]))
         true)
      "/srv/app/cid.csv" = inl table /\
    1 = length (data_rows table).
Proof.
  destruct (@load_data_normalises_every_row
              (Sample.file_system
                 (inl (MkCsv REQUIRED_COLS
                         [[Some "ACCT 110"; Some "Financial Accounting";
                           Some "De Anza College"; Some "Financial  Accounting I";
                           Some "acct   1a"]]))
                 true)
              "cid.csv"
              [with_norm_columns REQUIRED_COLS
                 [Some "ACCT 110"; Some "Financial Accounting"; Some "De Anza College";
                  Some "Financial  Accounting I"; Some "acct   1a"]]
              eq_refl) as (table & Hr & Hl & _).
  exists table. split; assumption.
Defined.

Module Index.
Import Selection PlainText.

Lemma digit_not_blank d : Char.is_digit d = true -> Char.is_rust_space d = false.
Proof. by_cases_on_char d. Qed.

Lemma extract_groups_shape (s g1 g2 : string) :
  extract_groups s = Some (g1, g2) ->
  Str.forallb is_dept_char g1 = true /\
  exists d t, g2 = String d t /\ Char.is_digit d = true.
Proof.
  unfold extract_groups.
  pose proof (span_all is_dept_char s) as Hh.
  destruct (Str.span is_dept_char s) as [head tail]. simpl in Hh.
  destruct tail as [|d t]; [discriminate|].
  destruct (Char.is_digit d) eqn:Ed; [|discriminate]. cbn [andb].
  destruct (Str.forallb _ (String d t)); [|discriminate].
  destruct (_ && _); [|discriminate].
  intros H. inversion H; subst. split; [|now exists d, t].
  pose proof (rstrip_all is_dept_char Char.is_rust_space head Hh) as Hr.
  destruct (Str.rstrip Char.is_rust_space head); [|exact Hr].
  simpl. destruct head as [|c h]; [reflexivity|].
  simpl in *. apply andb_true_iff in Hh as [Hc _]. now rewrite Hc.
Qed.

Lemma strip_keeps_leading_digit (d : ascii) (t : string) :
  Char.is_digit d = true ->
  exists t', Str.strip Char.is_rust_space (String d t) = String d t'.
Proof.
  intros Hd. unfold Str.strip. cbn [Str.lstrip].
  rewrite (digit_not_blank _ Hd). cbn [Str.rstrip].
  destruct (Str.rstrip Char.is_rust_space t).
  - rewrite (digit_not_blank _ Hd). now eexists.
  - now eexists.
Qed.

(** What the two extracted columns of a listed course look like. *)
Lemma listed_course_shape (r : Row) :
  listed (to_course r) = true ->
  Str.forallb is_dept_char (Dept (to_course r)) = true /\
  Dept (to_course r) <> EmptyString /\
  exists d t, Number (to_course r) = String d t /\ Char.is_digit d = true.
Proof.
  unfold listed, to_course. cbn [Dept Number]. unfold extract_column.
  destruct (local_dept_number r) as [s|]; [|discriminate].
  destruct (extract_groups s) as [[g1 g2]|] eqn:E; [|discriminate].
  cbn [Nat.eqb]. intros H. apply andb_true_iff in H as [H1 _].
  destruct (extract_groups_shape _ E) as (Hg1 & d & t & -> & Hd).
  split; [now apply strip_all|]. split.
  - intros E0. rewrite E0 in H1. discriminate.
  - destruct (@strip_keeps_leading_digit d t Hd) as [t' ->]. now exists d, t'.
Qed.

End Index.

(** X10.  Every course [load_de_anza_courses] lists comes from a row of the
    frame whose institution contains "DE ANZA" (in any case) and whose C-ID is
    a non-empty string; its department is not empty and made of capitals and
    blanks only, and its number starts with a digit. *)
Theorem listed_courses_are_well_formed (app app' : App) (df : DataFrame)
  (courses : list Course) (c : Course) :
  app_df app = Some df ->
  load_de_anza_courses app = Ok app' ->
  de_anza_courses app' = Some courses ->
  In c courses ->
  In (course_row c) df /\
  (exists i, institution (course_row c) = Some i /\
             Str.contains "DE ANZA" (Str.upper i) = true) /\
  (exists s, cid (course_row c) = Some s /\ s <> EmptyString) /\
  Str.forallb is_dept_char (Dept c) = true /\
  Dept c <> EmptyString /\
  exists d t, Number c = String d t /\ Char.is_digit d = true.
Proof.
  intros Hdf Hload Hcs Hc.
  rewrite (Selection.load_de_anza_courses_eq app Hdf) in Hload.
  inversion Hload; subst app'. cbn [de_anza_courses] in Hcs.
  inversion Hcs; subst courses.
  apply Selection.loaded_course in Hc as (r & -> & Hr & Hd & Hcid & Hl).
  cbn [to_course course_row].
  split; [exact Hr|]. split.
  { unfold is_de_anza_listed in Hd. destruct (institution r) as [i|]; [|discriminate].
    now exists i. }
  split.
  { unfold has_cid in Hcid. destruct (cid r) as [s|]; [|discriminate].
    exists s. split; [reflexivity|]. intros ->. discriminate. }
  apply (Index.listed_course_shape r Hl).
Qed.

Lemma listed_courses_are_well_formed_witness :
  exists d t, Number (to_course Sample.de_anza_biol) = String d t /\
              Char.is_digit d = true.
Proof.
  refine (proj2 (proj2 (proj2 (proj2 (proj2
            (@listed_courses_are_well_formed
               (Sample.started Sample.catalog)
               (MkApp (Some Sample.catalog)
                  (Some (filter listed
                           (map to_course
                              (filter has_cid
                                 (filter is_de_anza_listed Sample.catalog)))))
                  None "" [])
               Sample.catalog _ (to_course Sample.de_anza_biol)
               eq_refl _ eq_refl _)))))).
  - vm_compute. reflexivity.
  - vm_compute. right. left. reflexivity.
Defined.

Module SelectionMore.
Import Selection.

Lemma cell_eqb_eq (a b : option string) : cell_eqb a b = true <-> a = b.
Proof.
  destruct a as [x|], b as [y|]; simpl; try (split; congruence).
  rewrite String.eqb_eq. split; congruence.
Qed.

Lemma existsb_cell (c : option string) (cids : list (option string)) :
  existsb (cell_eqb c) cids = true <-> In c cids.
Proof.
  rewrite existsb_exists. split.
  - intros (x & Hx & E). apply cell_eqb_eq in E. now subst.
  - intros Hin. exists c. split; [exact Hin|]. now apply cell_eqb_eq.
Qed.

(** With no null in the list, [is_in] is membership of the cell. *)
Lemma is_in_member_iff `{Polars} (cids : list (option string)) (r : Row) :
  ~ In None cids -> (is_in cids r = true <-> In (cid r) cids).
Proof.
  intros Hn. unfold is_in. destruct (cid r) as [s|].
  - apply existsb_cell.
  - split.
    + intros H0. apply andb_true_iff in H0 as [_ H0].
      apply existsb_cell in H0. contradiction.
    + intros H0. contradiction.
Qed.

Lemma display_results_fields `{Polars} (app : App) (rows : DataFrame) :
  app_df (display_results app rows) = app_df app /\
  de_anza_courses (display_results app rows) = de_anza_courses app /\
  current_results (display_results app rows) = current_results app /\
  results_table (display_results app rows) = firstn MAX_DISPLAY_RESULTS rows /\
  Str.starts_with "Found " (results_count (display_results app rows)) = true.
Proof.
  unfold display_results.
  destruct (MAX_DISPLAY_RESULTS <? length rows) eqn:E;
    cbn [app_df de_anza_courses current_results results_table results_count].
  - repeat split.
  - repeat split. apply Nat.ltb_ge in E. symmetry. now apply firstn_all2.
Qed.

(** The rows [show_equivalencies] and [show_department_courses] look up for a
    non-empty selection of listed courses. *)
Lemma selected_cids `{Polars} (selected : list Course) (df : DataFrame) :
  (forall c, In c selected ->
     In (course_row c) df /\ has_cid (course_row c) = true) ->
  selected <> [] ->
  let cids := unique_cells (map (fun c => cid (course_row c)) selected) in
  (exists first more, cids = first :: more /\ cell_eqb first (Some "") = false) /\
  filter (is_in cids) df <> [] /\
  (forall r, In r (filter (is_in cids) df) <->
             In r df /\ exists c, In c selected /\ cid r = cid (course_row c)).
Proof.
  intros Hall Hne cids.
  assert (Hmem : forall x, In x cids <->
                           exists c, In c selected /\ x = cid (course_row c)).
  { intros x. unfold cids. rewrite unique_cells_same, in_map_iff.
    split; intros (c & A & B); exists c; auto. }
  assert (Hnn : forall x, In x cids -> exists s, x = Some s /\ s <> EmptyString).
  { intros x Hx. apply Hmem in Hx as (c & Hc & ->).
    destruct (Hall c Hc) as [_ Hh]. unfold has_cid in Hh.
    destruct (cid (course_row c)) as [s|]; [|discriminate].
    exists s. split; [reflexivity|]. intros ->. discriminate. }
  assert (Hnone : ~ In None cids).
  { intros Hx. apply Hnn in Hx as (s & Hs & _). discriminate. }
  assert (Hrows : forall r, In r (filter (is_in cids) df) <->
                   In r df /\ exists c, In c selected /\ cid r = cid (course_row c)).
  { intros r. rewrite filter_In, (is_in_member_iff cids r Hnone), Hmem. tauto. }
  destruct selected as [|c0 sel]; [congruence|].
  assert (H0 : In (course_row c0) (filter (is_in cids) df)).
  { apply Hrows. split; [apply Hall; now left|]. exists c0. split; [now left|reflexivity]. }
  split; [|split; [|exact Hrows]].
  - destruct cids as [|first more] eqn:Ec.
    + exfalso. assert (Hx : In (cid (course_row c0)) []).
      { apply Hmem. exists c0. split; [now left|reflexivity]. }
      contradiction.
    + exists first, more. split; [reflexivity|].
      destruct (Hnn first (or_introl eq_refl)) as (s & -> & Hs).
      simpl. now apply String.eqb_neq.
  - intros E. rewrite E in H0. contradiction.
Qed.

Lemma loaded_courses_in_frame (df : DataFrame) (c : Course) :
  In c (filter listed (map to_course (filter has_cid (filter is_de_anza_listed df)))) ->
  In (course_row c) df /\ has_cid (course_row c) = true.
Proof.
  intros Hc. apply loaded_course in Hc as (r & -> & Hr & _ & Hh & _). now split.
Qed.

End SelectionMore.

(** X11.  After [load_de_anza_courses], [show_equivalencies] has two outcomes
    only.  Either no listed course matches: the message is "Course not found",
    the table is emptied and the stored results are left as they were.  Or
    some course matches: the stored results are the rows of the frame, in
    frame order, whose C-ID is the C-ID of a matching course; they are not
    empty, the table shows the first 2000 of them and the message starts with
    "Found".  The messages "No CID found for this course" and "No equivalent
    courses found" never appear. *)
Theorem show_equivalencies_outcomes `{Polars} (app app' : App) (df : DataFrame)
  (courses : list Course) (department course_number : string) :
  app_df app = Some df ->
  load_de_anza_courses app = Ok app' ->
  de_anza_courses app' = Some courses ->
  let after := show_equivalencies app' department course_number in
  (select_course courses department course_number = [] /\
   results_count after = "Course not found" /\
   results_table after = [] /\
   current_results after = current_results app')
  \/
  (select_course courses department course_number <> [] /\
   exists rows,
     current_results after = Some rows /\
     rows <> [] /\
     subsequence rows df /\
     (forall r, In r rows <->
        In r df /\
        exists c, In c (select_course courses department course_number) /\
                  cid r = cid (course_row c)) /\
     results_table after = firstn MAX_DISPLAY_RESULTS rows /\
     Str.starts_with "Found " (results_count after) = true).
Proof.
  intros Hdf Hload Hcs after.
  rewrite (Selection.load_de_anza_courses_eq app Hdf) in Hload.
  inversion Hload; subst app'. cbn [de_anza_courses] in Hcs.
  inversion Hcs as [Hc]. clear Hcs Hload.
  subst after. unfold show_equivalencies. cbn [app_df de_anza_courses].
  rewrite Hc.
  destruct (select_course courses department course_number) as [|c0 sel] eqn:Es.
  { left. repeat split. }
  right. split; [discriminate|].
  destruct (@SelectionMore.selected_cids _ (c0 :: sel) df) as (Hfirst & Hne & Hrows).
  { intros c Hin. apply SelectionMore.loaded_courses_in_frame. rewrite Hc.
    assert (Hs : In c (select_course courses department course_number))
      by now rewrite Es.
    apply Selection.select_course_spec in Hs. tauto. }
  { discriminate. }
  destruct Hfirst as (first & more & Ec & Hf).
  rewrite Ec, Hf. rewrite <- Ec.
  set (cids := unique_cells (map (fun c => cid (course_row c)) (c0 :: sel))) in *.
  destruct (filter (is_in cids) df) as [|r0 rows] eqn:Er; [congruence|].
  exists (r0 :: rows).
  match goal with
  | |- context [display_results ?a ?l] =>
      destruct (SelectionMore.display_results_fields a l) as (_ & _ & H3 & H4 & H5)
  end.
  split; [exact H3|]. split; [discriminate|].
  split; [rewrite <- Er; apply filter_subsequence|].
  split; [exact Hrows|]. split; [exact H4|exact H5].
Qed.

Lemma show_equivalencies_outcomes_witness :
  exists rows,
    current_results
      (@show_equivalencies (first_seen false)
         (MkApp (Some Sample.catalog)
            (Some (filter listed
                     (map to_course
                        (filter has_cid (filter is_de_anza_listed Sample.catalog)))))
            None "" [])
         "ACCT" "1A") = Some rows /\
    rows <> [].
Proof.
  destruct (@show_equivalencies_outcomes (first_seen false)
              (Sample.started Sample.catalog)
              (MkApp (Some Sample.catalog)
                 (Some (filter listed
                          (map to_course
                             (filter has_cid
                                (filter is_de_anza_listed Sample.catalog)))))
                 None "" [])
              Sample.catalog _ "ACCT" "1A" eq_refl eq_refl eq_refl)
    as [(Hnone & _)|(_ & rows & Hr & Hne & _)].
  - vm_compute in Hnone. discriminate.
  - exists rows. split; assumption.
Defined.

(** * Further properties of the list boxes *)

(** ** Sorting *)

Section StableSort.
Context {A K : Type}.
Variable lt : K -> K -> bool.
Variable key : A -> K.
Hypothesis lt_asym : forall a b, lt a b = true -> lt b a = false.
Hypothesis lt_trans : forall a b c, lt a b = true -> lt b c = true -> lt a c = true.

(** [y] is not to be placed before [x]. *)
Definition not_after (x y : A) : Prop := lt (key y) (key x) = false.

Lemma insert_by_permutation (x : A) (l : list A) :
  Permutation (insert_by lt key x l) (x :: l).
Proof.
  induction l as [|y l IH]; simpl; [apply Permutation_refl|].
  destruct (lt (key x) (key y)); [apply Permutation_refl|].
  eapply Permutation_trans; [apply perm_skip, IH|apply perm_swap].
Qed.

Lemma fold_insert_permutation (l : list A) : forall acc,
  Permutation (fold_left (fun acc x => insert_by lt key x acc) l acc) (l ++ acc).
Proof.
  induction l as [|x l IH]; intros acc; simpl; [apply Permutation_refl|].
  eapply Permutation_trans; [apply IH|].
  eapply Permutation_trans;
    [apply Permutation_app_head, insert_by_permutation|].
  apply Permutation_sym, Permutation_middle.
Qed.

Lemma sorted_by_permutation (l : list A) : Permutation (sorted_by lt key l) l.
Proof.
  unfold sorted_by. eapply Permutation_trans; [apply fold_insert_permutation|].
  now rewrite app_nil_r.
Qed.

Lemma insert_by_sorted (x : A) (l : list A) :
  StronglySorted not_after l -> StronglySorted not_after (insert_by lt key x l).
Proof.
  induction 1 as [|y l Hs IH Hy]; simpl.
  - constructor; constructor.
  - destruct (lt (key x) (key y)) eqn:E.
    + constructor; [constructor; assumption|].
      constructor; [now apply lt_asym|].
      rewrite Forall_forall in Hy |- *. intros z Hz. specialize (Hy z Hz).
      unfold not_after in *.
      destruct (lt (key z) (key x)) eqn:F; [|reflexivity].
      rewrite (lt_trans F E) in Hy. discriminate.
    + constructor; [exact IH|].
      rewrite Forall_forall in Hy |- *. intros z Hz.
      apply (Permutation_in _ (insert_by_permutation x l)) in Hz.
      destruct Hz as [<-|Hz]; [exact E|now apply Hy].
Qed.

Lemma fold_insert_sorted (l : list A) : forall acc,
  StronglySorted not_after acc ->
  StronglySorted not_after (fold_left (fun acc x => insert_by lt key x acc) l acc).
Proof.
  induction l as [|x l IH]; intros acc Hs; simpl; [exact Hs|].
  apply IH. now apply insert_by_sorted.
Qed.

Lemma sorted_by_sorted (l : list A) : StronglySorted not_after (sorted_by lt key l).
Proof. apply fold_insert_sorted. constructor. Qed.


End StableSort.

Module KeyOrder.

Lemma ltb_lt (a b : string) : String.ltb a b = true <-> String_as_OT.lt a b.
Proof.
  unfold String.ltb. rewrite <- String_as_OT.cmp_lt. unfold String_as_OT.cmp.
  destruct (String.compare a b); split; congruence.
Qed.

Lemma ltb_asym (a b : string) : String.ltb a b = true -> String.ltb b a = false.
Proof.
  unfold String.ltb. rewrite (String.compare_antisym b a).
  destruct (String.compare a b); simpl; congruence.
Qed.

Lemma ltb_trans (a b c : string) :
  String.ltb a b = true -> String.ltb b c = true -> String.ltb a c = true.
Proof.
  rewrite !ltb_lt. apply String_as_OT.lt_trans.
Qed.

Lemma ltb_trichotomy (a b : string) :
  String.ltb a b = true \/ a = b \/ String.ltb b a = true.
Proof.
  unfold String.ltb. rewrite (String.compare_antisym b a).
  destruct (String.compare a b) eqn:E; simpl; auto.
  right. left. now apply String.compare_eq_iff.
Qed.



End KeyOrder.

Module NaturalKey.

Lemma digit_not_py_space c : Char.is_digit c = true -> Char.is_py_space c = false.
Proof. by_cases_on_char c. Qed.


Lemma rstrip_head (ws : ascii -> bool) (s : string) :
  match Str.rstrip ws s with
  | String c _ => exists t, s = String c t
  | EmptyString => True
  end.
Proof.
  destruct s as [|c t]; simpl; [exact I|].
  destruct (Str.rstrip ws t).
  - destruct (ws c); [exact I|now exists t].
  - now exists t.
Qed.



End NaturalKey.



Module Departments.

Lemma nodup_map_on {A B : Type} (f : A -> B) (l : list A) :
  (forall x y, In x l -> In y l -> f x = f y -> x = y) ->
  NoDup l -> NoDup (map f l).
Proof.
  intros Hf Hn. induction Hn as [|x l Hx Hn IH]; simpl; constructor.
  - intros Hin. apply in_map_iff in Hin as (y & E & Hy).
    assert (y = x) by (apply Hf; simpl; auto). now subst.
  - apply IH. intros a b Ha Hb. apply Hf; simpl; auto.
Qed.

Lemma strictly_sorted (l : list string) :
  StronglySorted (not_after String.ltb (fun s => s)) l -> NoDup l ->
  StronglySorted (fun a b => String.ltb a b = true) l.
Proof.
  induction 1 as [|x l Hs IH Hx]; intros Hn; constructor.
  - apply IH. now inversion Hn.
  - inversion Hn as [|? ? Hnotin _]; subst.
    rewrite Forall_forall in Hx |- *. intros y Hy. specialize (Hx y Hy).
    unfold not_after in Hx.
    destruct (KeyOrder.ltb_trichotomy x y) as [L|[E|L]]; [exact L| |congruence].
    subst. contradiction.
Qed.

Lemma department_cells `{Polars} (courses : list Course) (cell : option string) :
  In cell (unique_cells (map (fun c => Some (Dept c)) courses)) <->
  exists c, In c courses /\ cell = Some (Dept c).
Proof.
  rewrite unique_cells_same, in_map_iff.
  split; intros (c & A & B); exists c; auto.
Qed.

End Departments.

(** X13.  [populate_departments] fills the department list with exactly the
    departments of the listed courses, each once, in strictly ascending
    order. *)
Theorem departments_are_sorted_and_distinct `{Polars} (w : Window)
  (courses : list Course) :
  de_anza_courses (win_app w) = Some courses ->
  let deps := dept_items (populate_departments w) in
  (forall d, In d deps <-> exists c, In c courses /\ Dept c = d) /\
  NoDup deps /\
  StronglySorted (fun a b => String.ltb a b = true) deps.
Proof.
  intros Hc deps. subst deps. unfold populate_departments. rewrite Hc.
  cbn [dept_items]. unfold sort_strings.
  set (cells := unique_cells (map (fun c => Some (Dept c)) courses)).
  set (names := map (fill_null "") cells).
  pose proof (sorted_by_permutation String.ltb (fun s : string => s) names) as Hp.
  assert (Hnames : forall d, In d names <-> exists c, In c courses /\ Dept c = d).
  { intros d. unfold names. rewrite in_map_iff. split.
    - intros (cell & E & Hin). apply Departments.department_cells in Hin as (c & Hin & ->).
      exists c. split; [exact Hin|exact E].
    - intros (c & Hin & E). exists (Some (Dept c)). split; [exact E|].
      apply Departments.department_cells. now exists c. }
  assert (Hnd : NoDup names).
  { apply Departments.nodup_map_on; [|apply unique_cells_nodup].
    intros x y Hx Hy E.
    apply Departments.department_cells in Hx as (cx & _ & ->).
    apply Departments.department_cells in Hy as (cy & _ & ->).
    simpl in E. now rewrite E. }
  split; [|split].
  - intros d. rewrite <- Hnames. split; intros Hin.
    + eapply Permutation_in; eassumption.
    + eapply Permutation_in; [apply Permutation_sym|]; eassumption.
  - eapply Permutation_NoDup; [apply Permutation_sym, Hp|exact Hnd].
  - apply Departments.strictly_sorted.
    + apply sorted_by_sorted; [apply KeyOrder.ltb_asym|apply KeyOrder.ltb_trans].
    + eapply Permutation_NoDup; [apply Permutation_sym, Hp|exact Hnd].
Qed.

Lemma departments_are_sorted_and_distinct_witness :
  StronglySorted (fun a b => String.ltb a b = true) ["ACCT"; "BIOL"].
Proof.
  refine (proj2 (proj2
            (@departments_are_sorted_and_distinct (first_seen false)
               (MkWindow
                  (MkApp (Some Sample.catalog)
                     (Some (filter listed
                              (map to_course
                                 (filter has_cid
                                    (filter is_de_anza_listed
                                       Sample.catalog)))))
                     None "" [])
                  None None [] [] [] "" "")
               _ eq_refl))).
Defined.

Module DepartmentRows.
Import Selection SelectionMore.

Lemma department_course (courses : list Course) (department : string) (c : Course) :
  In c (department_courses courses department) <->
  In c courses /\ Dept c = department.
Proof.
  unfold department_courses. rewrite filter_In, String.eqb_eq. tauto.
Qed.

Lemma filter_within_filter {A : Type} (f g : A -> bool) (l : list A) :
  (forall x, In x l -> f x = true -> g x = true) ->
  subsequence (filter f l) (filter g l).
Proof.
  induction l as [|x l IH]; intros H; simpl; [constructor|].
  assert (IH' : subsequence (filter f l) (filter g l)).
  { apply IH. intros y Hy. apply H. now right. }
  destruct (f x) eqn:F.
  - rewrite (H x (or_introl eq_refl) F). now apply sub_keep.
  - destruct (g x); [now apply sub_skip|exact IH'].
Qed.

Lemma show_department_courses_rows `{Polars} (app : App) (df : DataFrame)
  (courses : list Course) (department : string) :
  app_df app = Some df ->
  de_anza_courses app = Some courses ->
  (forall c, In c courses ->
     In (course_row c) df /\ has_cid (course_row c) = true) ->
  department_courses courses department <> [] ->
  exists after,
    show_department_courses app department = Returned after /\
    current_results after
    = Some (filter (is_in (unique_cells
                             (map (fun c => cid (course_row c))
                                (department_courses courses department)))) df).
Proof.
  intros Hdf Hcs Hall Hne.
  destruct (@selected_cids _ (department_courses courses department) df)
    as (_ & Hrows & _);
    [intros c Hin; apply Hall; apply department_course in Hin; tauto|exact Hne|].
  unfold show_department_courses. rewrite Hcs, Hdf.
  fold (department_courses courses department).
  destruct (department_courses courses department) as [|c0 sel]; [congruence|].
  set (cids := unique_cells (map (fun c => cid (course_row c)) (c0 :: sel))) in *.
  destruct (filter (is_in cids) df) as [|r0 rows]; [congruence|].
  eexists. split; [reflexivity|].
  match goal with
  | |- context [display_results ?a ?l] =>
      destruct (display_results_fields a l) as (_ & _ & H3 & _)
  end.
  exact H3.
Qed.

End DepartmentRows.

(** X14.  After [load_de_anza_courses], [show_department_courses] never
    raises and has two outcomes only.  Either no listed course is of the
    department: the message is "No courses found for this department", the
    table is emptied and the stored results are kept.  Or the stored results
    become the rows of the frame, in frame order, whose C-ID is the C-ID of a
    listed course of the department; they are not empty, the table shows the
    first 2000 of them and the message starts with "Found".  The message
    "No courses found" never appears. *)
Theorem show_department_courses_outcomes `{Polars} (app app' : App) (df : DataFrame)
  (courses : list Course) (department : string) :
  app_df app = Some df ->
  load_de_anza_courses app = Ok app' ->
  de_anza_courses app' = Some courses ->
  exists after,
    show_department_courses app' department = Returned after /\
    ((~ (exists c, In c courses /\ Dept c = department) /\
      results_count after = "No courses found for this department" /\
      results_table after = [] /\
      current_results after = current_results app')
     \/
     ((exists c, In c courses /\ Dept c = department) /\
      exists rows,
        current_results after = Some rows /\
        rows <> [] /\
        subsequence rows df /\
        (forall r, In r rows <->
           In r df /\
           exists c, In c courses /\ Dept c = department /\
                     cid r = cid (course_row c)) /\
        results_table after = firstn MAX_DISPLAY_RESULTS rows /\
        Str.starts_with "Found " (results_count after) = true)).
Proof.
  intros Hdf Hload Hcs.
  rewrite (Selection.load_de_anza_courses_eq app Hdf) in Hload.
  inversion Hload; subst app'. cbn [de_anza_courses] in Hcs.
  inversion Hcs as [Hc]. clear Hcs Hload.
  unfold show_department_courses. cbn [app_df de_anza_courses]. rewrite Hc.
  fold (department_courses courses department).
  destruct (department_courses courses department) as [|c0 sel] eqn:Es.
  { eexists. split; [reflexivity|]. left. split; [|repeat split].
    intros (c & Hin & Hd).
    assert (Hx : In c (department_courses courses department))
      by now apply DepartmentRows.department_course.
    rewrite Es in Hx. contradiction. }
  assert (Hmem : forall c, In c (c0 :: sel) <-> In c courses /\ Dept c = department).
  { intros c. rewrite <- Es. apply DepartmentRows.department_course. }
  destruct (@SelectionMore.selected_cids _ (c0 :: sel) df) as (_ & Hne & Hrows).
  { intros c Hin. apply SelectionMore.loaded_courses_in_frame. rewrite Hc.
    now apply Hmem. }
  { discriminate. }
  set (cids := unique_cells (map (fun c => cid (course_row c)) (c0 :: sel))) in *.
  destruct (filter (is_in cids) df) as [|r0 rows] eqn:Er; [congruence|].
  eexists. split; [reflexivity|]. right. split.
  { exists c0. apply Hmem. now left. }
  exists (r0 :: rows).
  match goal with
  | |- context [display_results ?a ?l] =>
      destruct (SelectionMore.display_results_fields a l) as (_ & _ & H3 & H4 & H5)
  end.
  split; [exact H3|]. split; [discriminate|].
  split; [rewrite <- Er; apply filter_subsequence|].
  split; [|split; [exact H4|exact H5]].
  intros r. rewrite (Hrows r). split.
  - intros (Hr & c & Hin & E). split; [exact Hr|]. exists c.
    apply Hmem in Hin as [A B]. auto.
  - intros (Hr & c & A & B & E). split; [exact Hr|]. exists c.
    split; [apply Hmem; auto|exact E].
Qed.

Lemma show_department_courses_outcomes_witness :
  exists after,
    @show_department_courses (first_seen false)
      (MkApp (Some Sample.catalog)
         (Some (filter listed
                  (map to_course
                     (filter has_cid (filter is_de_anza_listed Sample.catalog)))))
         None "" [])
      "BIOL" = Returned after.
Proof.
  destruct (@show_department_courses_outcomes (first_seen false)
              (Sample.started Sample.catalog)
              (MkApp (Some Sample.catalog)
                 (Some (filter listed
                          (map to_course
                             (filter has_cid
                                (filter is_de_anza_listed Sample.catalog)))))
                 None "" [])
              Sample.catalog _ "BIOL" eq_refl eq_refl eq_refl)
    as (after & Hr & _).
  exists after. exact Hr.
Defined.

(** X15.  The rows shown for one course of a department are among the rows
    shown for the whole department, in the same order: after
    [load_de_anza_courses], when [show_equivalencies] finds a course, its
    stored results are a subsequence of the results [show_department_courses]
    stores for that department. *)
Theorem course_rows_are_among_department_rows `{Polars} (app app' : App)
  (df : DataFrame) (courses : list Course) (department course_number : string) :
  app_df app = Some df ->
  load_de_anza_courses app = Ok app' ->
  de_anza_courses app' = Some courses ->
  select_course courses department course_number <> [] ->
  exists after rows dept_rows,
    show_department_courses app' department = Returned after /\
    current_results after = Some dept_rows /\
    current_results (show_equivalencies app' department course_number) = Some rows /\
    subsequence rows dept_rows.
Proof.
  intros Hdf Hload Hcs Hsel.
  rewrite (Selection.load_de_anza_courses_eq app Hdf) in Hload.
  inversion Hload; subst app'. cbn [de_anza_courses] in Hcs.
  inversion Hcs as [Hc]. clear Hcs Hload.
  assert (Hall : forall c, In c courses ->
                   In (course_row c) df /\ has_cid (course_row c) = true).
  { intros c Hin. apply SelectionMore.loaded_courses_in_frame. now rewrite Hc. }
  set (dep := department_courses courses department).
  assert (Hsub : forall c, In c (select_course courses department course_number) ->
                           In c dep).
  { intros c Hin. apply Selection.select_course_spec in Hin as (A & B & _).
    now apply DepartmentRows.department_course. }
  assert (Hc0 : exists c0, In c0 (select_course courses department course_number)).
  { destruct (select_course courses department course_number) as [|c0 s0];
      [congruence|]. exists c0. now left. }
  destruct Hc0 as [c0 Hc0].
  assert (Hdep : dep <> []).
  { intros E0. specialize (Hsub c0 Hc0). rewrite E0 in Hsub. contradiction. }
  destruct (@SelectionMore.selected_cids _
              (select_course courses department course_number) df)
    as (_ & _ & Hrows1);
    [intros c Hin; apply Hall; apply Selection.select_course_spec in Hin; tauto
    |exact Hsel|].
  destruct (@SelectionMore.selected_cids _ dep df) as (_ & _ & Hrows2);
    [intros c Hin; apply Hall; apply DepartmentRows.department_course in Hin; tauto
    |exact Hdep|].
  destruct (@DepartmentRows.show_department_courses_rows _
              (MkApp (Some df) (Some courses) (current_results app)
                 (results_count app) (results_table app))
              df courses department eq_refl eq_refl Hall Hdep) as (after & Hr & Hd).
  pose proof (@Selection.show_equivalencies_result _
                (MkApp (Some df) (Some courses) (current_results app)
                   (results_count app) (results_table app))
                df courses department course_number c0 eq_refl eq_refl Hall Hc0) as He.
  cbv zeta in He. destruct He as [He1 _].
  rewrite Hc.
  eexists. eexists. eexists.
  split; [exact Hr|]. split; [exact Hd|]. split; [exact He1|].
  apply DepartmentRows.filter_within_filter.
  intros r Hr0 Hin.
  assert (H1 : In r (filter (is_in (unique_cells
                      (map (fun c => cid (course_row c))
                         (select_course courses department course_number)))) df))
    by (apply filter_In; now split).
  apply Hrows1 in H1 as (_ & c & Hc1 & E).
  assert (H2 : In r (filter (is_in (unique_cells
                      (map (fun c => cid (course_row c)) dep))) df)).
  { apply Hrows2. split; [exact Hr0|]. exists c. split; [now apply Hsub|exact E]. }
  apply filter_In in H2 as [_ H2]. exact H2.
Qed.

Lemma course_rows_are_among_department_rows_witness :
  exists after rows dept_rows,
    @show_department_courses (first_seen false)
      (MkApp (Some Sample.catalog)
         (Some (filter listed
                  (map to_course
                     (filter has_cid (filter is_de_anza_listed Sample.catalog)))))
         None "" [])
      "BIOL" = Returned after /\
    current_results after = Some dept_rows /\
    current_results
      (@show_equivalencies (first_seen false)
         (MkApp (Some Sample.catalog)
            (Some (filter listed
                     (map to_course
                        (filter has_cid (filter is_de_anza_listed Sample.catalog)))))
            None "" [])
         "BIOL" "6A") = Some rows /\
    subsequence rows dept_rows.
Proof.
  apply (@course_rows_are_among_department_rows (first_seen false)
           (Sample.started Sample.catalog)
           (MkApp (Some Sample.catalog)
              (Some (filter listed
                       (map to_course
                          (filter has_cid (filter is_de_anza_listed Sample.catalog)))))
              None "" [])
           Sample.catalog _ "BIOL" "6A" eq_refl eq_refl eq_refl).
  vm_compute. discriminate.
Defined.

Module FirstNumber.

Lemma rstrip_split (ws : ascii -> bool) (s : string) :
  exists w, s = (Str.rstrip ws s ++ w)%string /\ Str.forallb ws w = true.
Proof.
  induction s as [|c t IH]; simpl; [now exists EmptyString|].
  destruct IH as (w & E & Hw).
  destruct (Str.rstrip ws t) eqn:R.
  - simpl in E. destruct (ws c) eqn:C.
    + exists (String c t). split; [reflexivity|]. simpl. rewrite C.
      simpl. congruence.
    + exists w. split; [simpl; congruence | exact Hw].
  - exists w. split; [|exact Hw]. simpl. simpl in E. congruence.
Qed.

Lemma span_until_plus (s : string) :
  exists tail,
    s = (fst (Str.span (fun c => negb (Ascii.eqb c "+")) s) ++ tail)%string /\
    (tail = EmptyString \/ exists t, tail = String "+" t).
Proof.
  induction s as [|c t IH]; simpl; [exists EmptyString; auto|].
  destruct (Ascii.eqb c "+") eqn:E; simpl.
  - apply Ascii.eqb_eq in E. subst. exists (String "+" t). split; [reflexivity|].
    right. now exists t.
  - destruct IH as (tail & Ht & Hc).
    destruct (Str.span (fun c => negb (Ascii.eqb c "+")) t) as [a b]. simpl in *.
    exists tail. split; [now rewrite <- Ht|exact Hc].
Qed.

Lemma digit_start_lstrip (d : ascii) (t : string) :
  Char.is_digit d = true ->
  Str.lstrip Char.is_py_space (String d t) = String d t.
Proof. intros H. simpl. now rewrite (NaturalKey.digit_not_py_space _ H). Qed.

Lemma digit_not_plus d : Char.is_digit d = true -> Ascii.eqb d "+" = false.
Proof. by_cases_on_char d. Qed.

(** A number that starts with a digit is its first course number, then blanks,
    then nothing or a "+" and more. *)
Lemma number_parts (number : string) (d : ascii) (t : string) :
  number = String d t -> Char.is_digit d = true ->
  exists w tail,
    number = (first_course_number number ++ w ++ tail)%string /\
    Str.forallb Char.is_py_space w = true /\
    (tail = EmptyString \/ exists t', tail = String "+" t').
Proof.
  intros E Hd. unfold first_course_number.
  destruct (span_until_plus number) as (tail & Hs & Ht).
  set (p := fst (Str.span (fun c => negb (Ascii.eqb c "+")) number)) in *.
  assert (Hp : exists t', p = String d t').
  { subst number p. simpl. rewrite (digit_not_plus _ Hd). simpl.
    destruct (Str.span _ t). now eexists. }
  destruct Hp as [t' Hp].
  assert (Hne : Str.is_empty number = false) by now rewrite E.
  rewrite Hne. unfold Str.strip. rewrite Hp, (@digit_start_lstrip d t' Hd), <- Hp.
  destruct (rstrip_split Char.is_py_space p) as (w & Hw & Hb).
  exists w, tail. split; [|split; assumption].
  rewrite <- append_assoc, <- Hw. exact Hs.
Qed.

Lemma number_match_first (c : Course) (d : ascii) (t : string) :
  Number c = String d t ->
  Char.is_digit d = true ->
  only_space_blanks (Number c) = true ->
  number_match (first_course_number (Number c)) c = true.
Proof.
  intros E Hd Hb.
  destruct (number_parts E Hd) as (w & tail & Hn & Hw & Ht).
  unfold number_match.
  set (f := first_course_number (Number c)) in *. clearbody f.
  rewrite Hn in Hb. rewrite Hn. clear Hn E.
  destruct w as [|x w'].
  - simpl. destruct Ht as [->|[t' ->]].
    + rewrite Tokens.string_app_nil. now rewrite String.eqb_refl.
    + apply orb_true_iff. right.
      change (f ++ String "+" t')%string with (f ++ ("+" ++ t'))%string.
      rewrite <- append_assoc. apply starts_with_append.
  - simpl in Hw. apply andb_true_iff in Hw as [Hx _].
    assert (Ex : x = " "%char).
    { unfold only_space_blanks in Hb.
      rewrite forallb_append in Hb. apply andb_true_iff in Hb as [_ Hb].
      simpl in Hb. apply andb_true_iff in Hb as [Hb _].
      rewrite Hx in Hb. simpl in Hb. now apply Ascii.eqb_eq in Hb. }
    subst x. apply orb_true_iff. left. apply orb_true_iff. right.
    change (f ++ String " " w' ++ tail)%string
      with (f ++ (" " ++ (w' ++ tail)))%string.
    rewrite <- append_assoc. apply starts_with_append.
Qed.

End FirstNumber.

(** X16.  The course list names a course by its first number, and
    [show_equivalencies] finds the course again from that name: for a course
    whose number starts with a digit and holds no whitespace but spaces, the
    filter of lines 542-546 accepts the course when given
    [_first_course_number] of its number. *)
Theorem first_course_number_selects_the_course (c : Course) (d : ascii) (t : string) :
  Number c = String d t ->
  Char.is_digit d = true ->
  only_space_blanks (Number c) = true ->
  number_match (first_course_number (Number c)) c = true.
Proof. exact (@FirstNumber.number_match_first c d t). Qed.

Lemma first_course_number_selects_the_course_witness :
  number_match (first_course_number (Number (to_course Sample.de_anza_biol)))
    (to_course Sample.de_anza_biol) = true.
Proof.
  apply (@first_course_number_selects_the_course (to_course Sample.de_anza_biol)
           "6" "A + BIOL 6C"); reflexivity.
Defined.

(** ** The course list *)

Module CourseList.

Lemma dict_get_set {V : Type} (k k' : string) (v : V) (d : dict V) :
  dict_get k (dict_set k' v d) = if String.eqb k' k then Some v else dict_get k d.
Proof.
  induction d as [|[a b] d IH]; simpl.
  - destruct (String.eqb k' k); reflexivity.
  - destruct (String.eqb a k') eqn:E1.
    + apply String.eqb_eq in E1. subst a. simpl.
      destruct (String.eqb k' k); reflexivity.
    + simpl. destruct (String.eqb a k) eqn:E2.
      * apply String.eqb_eq in E2. subst a.
        rewrite String.eqb_sym, E1. reflexivity.
      * exact IH.
Qed.

Lemma dict_set_nonempty {V : Type} (k : string) (v : V) (d : dict V) :
  dict_set k v d <> [].
Proof.
  destruct d as [|[a b] d]; simpl; [discriminate|].
  destruct (String.eqb a k); discriminate.
Qed.

Lemma dict_keys {V : Type} (k : string) (d : dict V) :
  In k (map fst d) <-> exists v, dict_get k d = Some v.
Proof.
  induction d as [|[a b] d IH]; simpl.
  - split; [contradiction|intros [v Hv]; discriminate].
  - destruct (String.eqb a k) eqn:E.
    + apply String.eqb_eq in E. split; [intros _; now exists b|intros _; now left].
    + apply String.eqb_neq in E. rewrite IH.
      split; [intros [H|H]; [contradiction|exact H]|intros H; now right].
Qed.

Lemma dict_set_keys_new {V : Type} (k : string) (v : V) (d : dict V) :
  dict_get k d = None -> map fst (dict_set k v d) = map fst d ++ [k].
Proof.
  induction d as [|[a b] d IH]; simpl; [reflexivity|].
  destruct (String.eqb a k) eqn:E; [discriminate|].
  intros H. simpl. now rewrite (IH H).
Qed.

Lemma find_snoc {A : Type} (p : A -> bool) (l : list A) (x : A) :
  find p (l ++ [x]) =
  match find p l with
  | Some y => Some y
  | None => if p x then Some x else None
  end.
Proof.
  induction l as [|a l IH]; simpl; [reflexivity|].
  destruct (p a); [reflexivity|exact IH].
Qed.

Lemma find_first {A : Type} (p : A -> bool) (l : list A) (c : A) :
  find p l = Some c ->
  exists before after,
    l = before ++ c :: after /\ p c = true /\ forall x, In x before -> p x = false.
Proof.
  induction l as [|a l IH]; simpl; [discriminate|].
  destruct (p a) eqn:E.
  - intros H. inversion H; subst. exists [], l. repeat split; [exact E|].
    intros x [].
  - intros H. destruct (IH H) as (before & after & -> & Hc & Hb).
    exists (a :: before), after. repeat split; [exact Hc|].
    intros x [<-|Hx]; [exact E|now apply Hb].
Qed.

Lemma see_course_eq (seen : dict (string * string)) (c : Course) :
  see_course seen c =
  if Str.is_empty (first_number_of c) then seen
  else match dict_get (first_number_of c) seen with
       | Some _ => seen
       | None => dict_set (first_number_of c) (label_of c, Number c) seen
       end.
Proof. reflexivity. Qed.

(** [seen] after the loop of lines 449-462: under each non-empty first number,
    the label and the number of the first course that has it. *)
Lemma seen_lookup (l : list Course) :
  forall n,
    dict_get n (seen_courses l) =
    if Str.is_empty n then None
    else option_map (fun c => (label_of c, Number c))
           (find (fun c => String.eqb (first_number_of c) n) l).
Proof.
  unfold seen_courses. induction l as [|x l IH] using rev_ind; intros n.
  - simpl. now destruct (Str.is_empty n).
  - rewrite fold_left_app. cbn [fold_left]. rewrite see_course_eq, find_snoc.
    set (seen := fold_left see_course l []) in *.
    destruct (Str.is_empty (first_number_of x)) eqn:Ex.
    + rewrite IH. destruct (Str.is_empty n) eqn:En; [reflexivity|].
      destruct (find _ l); [reflexivity|].
      destruct (String.eqb (first_number_of x) n) eqn:E; [|reflexivity].
      apply String.eqb_eq in E. congruence.
    + pose proof (IH (first_number_of x)) as Hx. rewrite Ex in Hx.
      destruct (dict_get (first_number_of x) seen) eqn:Eg.
      * rewrite IH. destruct (Str.is_empty n) eqn:En; [reflexivity|].
        destruct (find (fun c => String.eqb (first_number_of c) n) l) eqn:Ef;
          [reflexivity|].
        destruct (String.eqb (first_number_of x) n) eqn:E; [|reflexivity].
        apply String.eqb_eq in E. subst n. rewrite Ef in Hx. discriminate.
      * rewrite dict_get_set.
        destruct (String.eqb (first_number_of x) n) eqn:E.
        -- apply String.eqb_eq in E. subst n. rewrite Ex.
           destruct (find (fun c => String.eqb (first_number_of c) (first_number_of x)) l);
             [discriminate|reflexivity].
        -- rewrite IH. destruct (Str.is_empty n); [reflexivity|].
           destruct (find (fun c => String.eqb (first_number_of c) n) l); reflexivity.
Qed.

Lemma seen_keys (l : list Course) (n : string) :
  In n (map fst (seen_courses l)) <->
  n <> EmptyString /\
  exists c, find (fun c => String.eqb (first_number_of c) n) l = Some c.
Proof.
  rewrite dict_keys, seen_lookup. destruct n as [|a n]; simpl.
  - split; [intros [v Hv]; discriminate|intros [H0 _]; congruence].
  - split.
    + intros [v Hv]. split; [discriminate|].
      destruct (find _ l) as [c|]; [now exists c|discriminate].
    + intros [_ [c ->]]. now eexists.
Qed.

Lemma seen_nodup (l : list Course) : NoDup (map fst (seen_courses l)).
Proof.
  unfold seen_courses. induction l as [|x l IH] using rev_ind; [constructor|].
  rewrite fold_left_app. cbn [fold_left]. rewrite see_course_eq.
  destruct (Str.is_empty (first_number_of x)); [exact IH|].
  destruct (dict_get (first_number_of x) (fold_left see_course l [])) eqn:Eg;
    [exact IH|].
  rewrite (dict_set_keys_new _ _ _ Eg).
  apply (Permutation_NoDup (Permutation_cons_append _ _)).
  constructor; [|exact IH].
  intros Hin. apply dict_keys in Hin as [v Hv]. congruence.
Qed.

Lemma sorted_numbers_permutation (seen : dict (string * string)) :
  Permutation (sorted_numbers seen) (map fst seen).
Proof. apply sorted_by_permutation. Qed.

(** The courses the labels of the list are made from. *)
Lemma pick (l : list Course) (nums : list string) :
  (forall n, In n nums -> In n (map fst (seen_courses l))) ->
  exists picked,
    map (fun n => fst (seen_entry (seen_courses l) n)) nums = map label_of picked /\
    map first_number_of picked = nums /\
    forall c, In c picked ->
      first_number_of c <> EmptyString /\
      find (fun c' => String.eqb (first_number_of c') (first_number_of c)) l = Some c.
Proof.
  induction nums as [|n nums IH]; intros Hin.
  - exists []. split; [reflexivity|]. split; [reflexivity|]. intros c [].
  - destruct IH as (picked & Hl & Hn & Hp); [intros m Hm; apply Hin; now right|].
    destruct (proj1 (seen_keys l n) (Hin n (or_introl eq_refl))) as (Hne & c & Hc).
    assert (En : first_number_of c = n).
    { apply find_some in Hc as [_ Hc]. now apply String.eqb_eq in Hc. }
    exists (c :: picked). cbn [map]. split; [|split].
    + f_equal; [|exact Hl]. unfold seen_entry. rewrite seen_lookup, Hc.
      destruct n; [congruence|reflexivity].
    + now rewrite En, Hn.
    + intros c' [E'|Hc']; [|now apply Hp]. subst c'. rewrite En. now split.
Qed.

Lemma populate_courses_items (w : Window) (courses : list Course)
  (department : string) :
  de_anza_courses (win_app w) = Some courses ->
  course_items (populate_courses w department) =
  EmptyString ::
    map (fun n => fst (seen_entry (seen_courses (department_courses courses department)) n))
      (sorted_numbers (seen_courses (department_courses courses department))).
Proof. intros H. unfold populate_courses. rewrite H. reflexivity. Qed.

Lemma populate_courses_keeps (w : Window) (department : string) :
  win_app (populate_courses w department) = win_app w /\
  selected_dept (populate_courses w department) = selected_dept w /\
  selected_course (populate_courses w department) = selected_course w /\
  selected_dept_info (populate_courses w department) = selected_dept_info w /\
  selected_course_info (populate_courses w department) = selected_course_info w.
Proof.
  unfold populate_courses. destruct (de_anza_courses (win_app w)); repeat split.
Qed.

(** The table of lines 474-475, read at a key. *)
Lemma table_lookup (label full : string -> string) (nums : list string) :
  forall (d : dict (string * string)) (k : string),
    match dict_get k (fold_left (fun d n => dict_set (label n) (n, full n) d) nums d) with
    | Some e => (exists n, In n nums /\ label n = k /\ e = (n, full n))
                \/ dict_get k d = Some e
    | None => (forall n, In n nums -> label n <> k) /\ dict_get k d = None
    end.
Proof.
  induction nums as [|n nums IH]; intros d k; cbn [fold_left].
  - destruct (dict_get k d); [now right|]. split; [intros n []|reflexivity].
  - specialize (IH (dict_set (label n) (n, full n) d) k).
    destruct (dict_get k (fold_left _ nums _)) as [e|].
    + destruct IH as [(m & Hm & Hl & He)|He].
      * left. exists m. split; [now right|now split].
      * rewrite dict_get_set in He.
        destruct (String.eqb (label n) k) eqn:E; [|now right].
        apply String.eqb_eq in E. inversion He; subst e.
        left. exists n. split; [now left|now split].
    + destruct IH as [Hall He]. rewrite dict_get_set in He.
      destruct (String.eqb (label n) k) eqn:E; [discriminate|].
      apply String.eqb_neq in E. split; [|exact He].
      intros m [<-|Hm]; [exact E|now apply Hall].
Qed.

Lemma resolve_found (table : dict (string * string)) (item : string)
  (e : string * string) :
  table <> [] -> dict_get item table = Some e ->
  resolve_course_number table item = fst e.
Proof.
  intros Hne Hg. unfold resolve_course_number.
  destruct table as [|p t]; [congruence|]. now rewrite Hg.
Qed.

(** A non-blank item of the course list is the label of a course of the
    department, and the table leads from it to the first number of that
    course. *)
Lemma item_resolves (w : Window) (courses : list Course) (department item : string) :
  de_anza_courses (win_app w) = Some courses ->
  In item (course_items (populate_courses w department)) ->
  item <> EmptyString ->
  exists c,
    In c courses /\ Dept c = department /\
    first_number_of c <> EmptyString /\
    item = label_of c /\
    resolve_course_number (course_display_to_number (populate_courses w department)) item
    = first_number_of c.
Proof.
  intros Hcs Hin Hne.
  assert (Hres : exists n,
             In n (sorted_numbers (seen_courses (department_courses courses department)))
             /\ fst (seen_entry (seen_courses (department_courses courses department)) n)
                = item
             /\ resolve_course_number
                  (course_display_to_number (populate_courses w department)) item = n).
  { rewrite (populate_courses_items w department Hcs) in Hin.
    destruct Hin as [E|Hin]; [congruence|].
    unfold populate_courses. rewrite Hcs. cbn [course_display_to_number].
    fold (department_courses courses department).
    set (seen := seen_courses (department_courses courses department)) in *.
    pose proof (table_lookup (fun n => fst (seen_entry seen n))
                  (fun n => snd (seen_entry seen n)) (sorted_numbers seen) [] item)
      as Ht.
    cbv beta in Ht.
    match type of Ht with
    | match ?x with _ => _ end => destruct x as [e|] eqn:Eg
    end.
    - destruct Ht as [(n & Hn & Hl & He)|Ht]; [|discriminate].
      exists n. split; [exact Hn|]. split; [exact Hl|].
      rewrite (@resolve_found _ item e).
      + now rewrite He.
      + apply dict_set_nonempty.
      + rewrite dict_get_set.
        destruct (String.eqb EmptyString item) eqn:E; [|exact Eg].
        apply String.eqb_eq in E. congruence.
    - exfalso. destruct Ht as [Hall _].
      apply in_map_iff in Hin as (n & Hl & Hn). exact (Hall n Hn Hl). }
  destruct Hres as (n & Hn & Hl & Hr).
  apply (Permutation_in _ (sorted_numbers_permutation _)) in Hn.
  apply seen_keys in Hn as (Hn0 & c & Hc).
  assert (Hl' : fst (seen_entry (seen_courses (department_courses courses department)) n)
                = label_of c).
  { unfold seen_entry. rewrite seen_lookup, Hc. destruct n; [congruence|reflexivity]. }
  apply find_some in Hc as [Hc En]. apply String.eqb_eq in En.
  unfold department_courses in Hc. apply filter_In in Hc as [Hc Hd].
  apply String.eqb_eq in Hd.
  exists c. split; [exact Hc|]. split; [exact Hd|]. split; [congruence|].
  split; congruence.
Qed.

End CourseList.

(** X17.  [populate_courses] gives the course list one entry per distinct
    non-empty first course number of the department, after the blank entry:
    the label of the first listed course of the department that has this
    first number.  No first number of the department is left out. *)
Theorem course_list_has_one_item_per_first_number (w : Window)
  (courses : list Course) (department : string) :
  de_anza_courses (win_app w) = Some courses ->
  exists picked : list Course,
    course_items (populate_courses w department) = EmptyString :: map label_of picked /\
    NoDup (map first_number_of picked) /\
    (forall c, In c picked ->
       first_number_of c <> EmptyString /\
       exists before after,
         department_courses courses department = before ++ c :: after /\
         forall c', In c' before -> first_number_of c' <> first_number_of c) /\
    (forall c, In c courses -> Dept c = department ->
       first_number_of c <> EmptyString ->
       In (first_number_of c) (map first_number_of picked)).
Proof.
  intros Hcs.
  set (l := department_courses courses department).
  destruct (@CourseList.pick l (sorted_numbers (seen_courses l)))
    as (picked & Hl & Hn & Hp).
  { intros n Hn.
    now apply (Permutation_in _ (CourseList.sorted_numbers_permutation _)). }
  exists picked. split; [|split; [|split]].
  - rewrite (CourseList.populate_courses_items w department Hcs). fold l.
    now rewrite Hl.
  - rewrite Hn.
    apply (Permutation_NoDup
             (Permutation_sym (CourseList.sorted_numbers_permutation _))).
    apply CourseList.seen_nodup.
  - intros c Hc. destruct (Hp c Hc) as [Hne Hf]. split; [exact Hne|].
    destruct (CourseList.find_first _ _ Hf) as (before & after & E & _ & Hb).
    exists before, after. split; [exact E|].
    intros c' Hc' Heq. specialize (Hb c' Hc'). apply String.eqb_neq in Hb.
    contradiction.
  - intros c Hc Hd Hne. rewrite Hn.
    apply (Permutation_in _
             (Permutation_sym (CourseList.sorted_numbers_permutation _))).
    apply CourseList.seen_keys. split; [exact Hne|].
    destruct (find (fun c' => String.eqb (first_number_of c') (first_number_of c)) l)
      as [c0|] eqn:Ef; [now exists c0|].
    exfalso.
    assert (Hin : In c l).
    { unfold l, department_courses. apply filter_In. split; [exact Hc|].
      now apply String.eqb_eq. }
    pose proof (find_none _ _ Ef c Hin) as Hx. cbn beta in Hx.
    rewrite String.eqb_refl in Hx. discriminate.
Qed.

Lemma course_list_has_one_item_per_first_number_witness :
  exists picked : list Course,
    course_items
      (populate_courses
         (MkWindow
            (MkApp (Some Sample.catalog)
               (Some (filter listed
                        (map to_course
                           (filter has_cid (filter is_de_anza_listed Sample.catalog)))))
               None "" [])
            None None [] [] [] "" "")
         "BIOL")
    = EmptyString :: map label_of picked /\
    NoDup (map first_number_of picked).
Proof.
  destruct (@course_list_has_one_item_per_first_number
              (MkWindow
                 (MkApp (Some Sample.catalog)
                    (Some (filter listed
                             (map to_course
                                (filter has_cid
                                   (filter is_de_anza_listed Sample.catalog)))))
                    None "" [])
                 None None [] [] [] "" "")
              _ "BIOL" eq_refl)
    as (picked & H1 & H2 & _).
  exists picked. split; assumption.
Defined.

(** X18.  Every entry of the course list but the blank one is the label of a
    listed course of the department, and the table line 474 builds leads
    [on_course_selected] from the entry to the first course number of such a
    course, also when the label holds " :: " or brackets of its own. *)
Theorem course_items_resolve_to_first_numbers (w : Window) (courses : list Course)
  (department item : string) :
  de_anza_courses (win_app w) = Some courses ->
  In item (course_items (populate_courses w department)) ->
  item <> EmptyString ->
  exists c,
    In c courses /\ Dept c = department /\
    first_number_of c <> EmptyString /\
    item = label_of c /\
    resolve_course_number (course_display_to_number (populate_courses w department)) item
    = first_number_of c.
Proof. exact (@CourseList.item_resolves w courses department item). Qed.

Lemma course_items_resolve_to_first_numbers_witness :
  exists c,
    In c (filter listed
            (map to_course (filter has_cid (filter is_de_anza_listed Sample.catalog)))) /\
    Dept c = "BIOL" /\
    first_number_of c <> EmptyString /\
    "6A (BIOL 190) :: Cell Biology" = label_of c /\
    resolve_course_number
      (course_display_to_number
         (populate_courses
            (MkWindow
               (MkApp (Some Sample.catalog)
                  (Some (filter listed
                           (map to_course
                              (filter has_cid
                                 (filter is_de_anza_listed Sample.catalog)))))
                  None "" [])
               None None [] [] [] "" "")
            "BIOL"))
      "6A (BIOL 190) :: Cell Biology"
    = first_number_of c.
Proof.
  apply (@course_items_resolve_to_first_numbers
           (MkWindow
              (MkApp (Some Sample.catalog)
                 (Some (filter listed
                          (map to_course
                             (filter has_cid
                                (filter is_de_anza_listed Sample.catalog)))))
                 None "" [])
              None None [] [] [] "" "")
           _ "BIOL" "6A (BIOL 190) :: Cell Biology" eq_refl).
  - vm_compute. right. left. reflexivity.
  - discriminate.
Defined.

(** ** The handlers of the two lists *)

Module Handlers.
Import Selection SelectionMore.

Lemma display_results_ext `{Polars} (a b : App) (rows : DataFrame) :
  app_df a = app_df b -> de_anza_courses a = de_anza_courses b ->
  current_results a = current_results b ->
  display_results a rows = display_results b rows.
Proof. unfold display_results. intros -> -> ->. reflexivity. Qed.

Lemma show_department_courses_returns `{Polars} (app : App) (df : DataFrame)
  (department : string) :
  app_df app = Some df ->
  exists after, show_department_courses app department = Returned after.
Proof.
  intros Hdf. unfold show_department_courses. rewrite Hdf.
  destruct (de_anza_courses app) as [courses|]; [|now eexists].
  destruct (filter _ courses); [now eexists|].
  destruct (filter _ df); now eexists.
Qed.

Lemma show_department_courses_keeps `{Polars} (app after : App) (department : string) :
  show_department_courses app department = Returned after ->
  app_df after = app_df app /\ de_anza_courses after = de_anza_courses app.
Proof.
  destruct app as [df dac cur rc rt]. unfold show_department_courses.
  cbn [app_df de_anza_courses].
  destruct dac as [courses|]; [|intros E; inversion E; now split].
  destruct (filter _ courses); [intros E; inversion E; now split|].
  destruct df as [df|]; [|discriminate].
  destruct (filter _ df); [intros E; inversion E; now split|].
  intros E. inversion E.
  match goal with
  | |- context [display_results ?a ?l] =>
      destruct (display_results_fields a l) as (K1 & K2 & _)
  end.
  now split.
Qed.

(** Showing the department a second time changes nothing. *)
Lemma show_department_courses_again `{Polars} (app after : App) (department : string) :
  show_department_courses app department = Returned after ->
  show_department_courses after department = Returned after.
Proof.
  destruct app as [df dac cur rc rt]. unfold show_department_courses at 1.
  cbn [app_df de_anza_courses].
  destruct dac as [courses|].
  2:{ intros E. inversion E. reflexivity. }
  destruct (filter (fun c => String.eqb (Dept c) department) courses)
    as [|c0 sel] eqn:Ed.
  { intros E. inversion E. unfold show_department_courses.
    cbn [report_nothing de_anza_courses]. rewrite Ed. reflexivity. }
  destruct df as [df|]; [|discriminate].
  destruct (filter _ df) as [|r0 rows] eqn:Er.
  { intros E. inversion E. unfold show_department_courses.
    cbn [report_nothing de_anza_courses app_df]. rewrite Ed, Er. reflexivity. }
  intros E. inversion E as [Ea].
  match goal with
  | |- context [display_results ?a ?l] =>
      destruct (display_results_fields a l) as (K1 & K2 & K3 & _)
  end.
  cbn [app_df de_anza_courses current_results] in K1, K2, K3.
  unfold show_department_courses. rewrite K1, K2, Ed, Er.
  f_equal;
    try (apply display_results_ext; cbn [app_df de_anza_courses current_results];
         congruence).
Qed.

Lemma on_dept_selected_eq `{Polars} (w : Window) (department : string) (after : App) :
  show_department_courses (win_app w) department = Returned after ->
  on_dept_selected w department =
  Returned
    (with_app
       (populate_courses
          (MkWindow (win_app w) (Some department) None (dept_items w) (course_items w)
             (course_display_to_number w) ("Department: " ++ department)%string
             "Course: None")
          department)
       after).
Proof.
  intros Hs. unfold on_dept_selected. cbv zeta.
  rewrite (proj1 (CourseList.populate_courses_keeps _ department)).
  cbn [win_app]. now rewrite Hs.
Qed.

Lemma on_course_selected_eq `{Polars} (w : Window) (department item : string) :
  selected_dept w = Some department ->
  Str.is_empty department = false ->
  Str.is_empty (Str.strip Char.is_py_space item) = false ->
  on_course_selected w item =
  Returned
    (with_app
       (MkWindow (win_app w) (selected_dept w) (Some item) (dept_items w)
          (course_items w) (course_display_to_number w) (selected_dept_info w)
          ("Course: " ++ item)%string)
       (show_equivalencies (win_app w) department
          (resolve_course_number (course_display_to_number w) item))).
Proof.
  intros Hd Hne Hb. unfold on_course_selected. rewrite Hd, Hne, Hb. reflexivity.
Qed.

Lemma on_course_selected_blank `{Polars} (w : Window) (department item : string)
  (after : App) :
  selected_dept w = Some department ->
  Str.is_empty department = false ->
  Str.is_empty (Str.strip Char.is_py_space item) = true ->
  show_department_courses (win_app w) department = Returned after ->
  on_course_selected w item =
  Returned
    (with_app
       (MkWindow (win_app w) (selected_dept w) (Some item) (dept_items w)
          (course_items w) (course_display_to_number w) (selected_dept_info w)
          "Course: (All courses)")
       after).
Proof.
  intros Hd Hne Hb Hs. unfold on_course_selected. rewrite Hd, Hne, Hb.
  cbn [win_app]. now rewrite Hs.
Qed.

Lemma lstrip_head (ws : ascii -> bool) (s : string) :
  match Str.lstrip ws s with
  | String a _ => ws a = false
  | EmptyString => True
  end.
Proof.
  induction s as [|c t IH]; simpl; [exact I|].
  destruct (ws c) eqn:E; [exact IH|exact E].
Qed.

Lemma strip_head (ws : ascii -> bool) (s : string) :
  match Str.strip ws s with
  | String a _ => ws a = false
  | EmptyString => True
  end.
Proof.
  unfold Str.strip. pose proof (lstrip_head ws s) as Hl.
  pose proof (NaturalKey.rstrip_head ws (Str.lstrip ws s)) as Hr.
  destruct (Str.rstrip ws (Str.lstrip ws s)) as [|a t]; [exact I|].
  destruct Hr as [t' Hr]. now rewrite Hr in Hl.
Qed.

Lemma strip_of_solid_head (ws : ascii -> bool) (a : ascii) (t : string) :
  ws a = false -> Str.is_empty (Str.strip ws (String a t)) = false.
Proof.
  intros Ha. unfold Str.strip. cbn [Str.lstrip]. rewrite Ha. cbn [Str.rstrip].
  destruct (Str.rstrip ws t); [now rewrite Ha|reflexivity].
Qed.

Lemma course_label_prefix (first_num cid_text short : string) :
  exists rest, course_label first_num cid_text short = (first_num ++ rest)%string.
Proof.
  unfold course_label.
  destruct (negb (Str.is_empty cid_text)), (negb (Str.is_empty short));
    try (now eexists).
  exists EmptyString. now rewrite Tokens.string_app_nil.
Qed.

(** A label is never blank. *)
Lemma label_not_blank (c : Course) :
  first_number_of c <> EmptyString ->
  Str.is_empty (Str.strip Char.is_py_space (label_of c)) = false.
Proof.
  intros Hne. unfold label_of.
  destruct (course_label_prefix (first_number_of c)
              (Str.strip Char.is_py_space (fill_null "" (cid (course_row c))))
              (short_title
                 (Str.strip Char.is_py_space
                    (fill_null "" (local_title (course_row c)))))) as [rest ->].
  assert (Hh : match first_number_of c with
               | String a _ => Char.is_py_space a = false
               | EmptyString => True
               end).
  { unfold first_number_of, first_course_number.
    destruct (Str.is_empty (Number c)); [exact I|apply strip_head]. }
  destruct (first_number_of c) as [|a t]; [congruence|].
  now apply strip_of_solid_head.
Qed.

(** Choosing an entry of the course list after choosing the department. *)
Lemma choose_item `{Polars} (w : Window) (df : DataFrame) (courses : list Course)
  (department : string) :
  app_df (win_app w) = Some df ->
  de_anza_courses (win_app w) = Some courses ->
  (forall c, In c courses ->
     In (course_row c) df /\ has_cid (course_row c) = true /\
     exists d t, Number c = String d t /\ Char.is_digit d = true) ->
  department <> EmptyString ->
  (forall c, In c courses -> Dept c = department ->
     only_space_blanks (Number c) = true) ->
  exists w1,
    on_dept_selected w department = Returned w1 /\
    forall item, In item (course_items w1) -> item <> EmptyString ->
      exists w2 c rows,
        on_course_selected w1 item = Returned w2 /\
        In c courses /\ Dept c = department /\ item = label_of c /\
        selected_course w2 = Some item /\
        current_results (win_app w2) = Some rows /\
        In (course_row c) rows /\
        forall r, In r rows -> In r df.
Proof.
  intros Hdf Hcs Hall Hdep Hblanks.
  destruct (show_department_courses_returns (win_app w) department Hdf)
    as [after Hafter].
  destruct (show_department_courses_keeps _ _ Hafter) as [Kdf Kcs].
  rewrite Hdf in Kdf. rewrite Hcs in Kcs.
  eexists. split; [apply (on_dept_selected_eq w department Hafter)|].
  set (wa := MkWindow (win_app w) (Some department) None (dept_items w)
               (course_items w) (course_display_to_number w)
               ("Department: " ++ department)%string "Course: None").
  intros item Hin Hne. cbn [with_app course_items] in Hin.
  destruct (@CourseList.item_resolves wa courses department item Hcs Hin Hne)
    as (c & Hc & Hd & Hfn & Hl & Hr).
  assert (Hsel : selected_dept (with_app (populate_courses wa department) after)
                 = Some department).
  { cbn [with_app selected_dept].
    now rewrite (proj1 (proj2 (CourseList.populate_courses_keeps wa department))). }
  assert (Hne' : Str.is_empty department = false)
    by (destruct department; [congruence|reflexivity]).
  assert (Hnb : Str.is_empty (Str.strip Char.is_py_space item) = false)
    by (rewrite Hl; now apply label_not_blank).
  rewrite (on_course_selected_eq _ item Hsel Hne' Hnb).
  cbn [with_app win_app course_display_to_number selected_course]. rewrite Hr.
  assert (Hm : In c (select_course courses department (first_number_of c))).
  { unfold select_course. apply filter_In. split; [exact Hc|].
    apply andb_true_iff. split; [now apply String.eqb_eq|].
    destruct (Hall c Hc) as (_ & _ & d & t & En & Hdg).
    apply (@FirstNumber.number_match_first c d t En Hdg). now apply Hblanks. }
  destruct (@show_equivalencies_result _ after df courses department
              (first_number_of c) c Kdf Kcs) as [Hres Hrow]; [|exact Hm|].
  { intros c' Hc'. destruct (Hall c' Hc') as (A & B & _). now split. }
  eexists. exists c. eexists.
  split; [reflexivity|]. split; [exact Hc|]. split; [exact Hd|].
  split; [exact Hl|]. split; [reflexivity|]. split; [exact Hres|].
  split; [exact Hrow|].
  intros r Hr'. apply filter_In in Hr'. tauto.
Qed.

End Handlers.

(** X19.  After [load_de_anza_courses], choosing a department fills the
    course list, and choosing any entry of that list but the blank one never
    ends in "Course not found": the entry is the label of a listed course of
    the department, and the stored results hold the row of that course, among
    rows of the frame.  The numbers of the department's courses are assumed
    to hold no whitespace but spaces, which the comparison of lines 542-546
    relies on. *)
Theorem choosing_a_listed_course_shows_it `{Polars} (app : App) (w : Window)
  (df : DataFrame) (courses : list Course) (department : string) :
  app_df app = Some df ->
  load_de_anza_courses app = Ok (win_app w) ->
  de_anza_courses (win_app w) = Some courses ->
  department <> EmptyString ->
  (forall c, In c courses -> Dept c = department ->
     only_space_blanks (Number c) = true) ->
  exists w1,
    on_dept_selected w department = Returned w1 /\
    forall item, In item (course_items w1) -> item <> EmptyString ->
      exists w2 c rows,
        on_course_selected w1 item = Returned w2 /\
        In c courses /\ Dept c = department /\ item = label_of c /\
        selected_course w2 = Some item /\
        current_results (win_app w2) = Some rows /\
        In (course_row c) rows /\
        forall r, In r rows -> In r df.
Proof.
  intros Hdf Hload Hcs Hdep Hblanks.
  rewrite (Selection.load_de_anza_courses_eq app Hdf) in Hload.
  injection Hload as Hw. rewrite <- Hw in Hcs. cbn [de_anza_courses] in Hcs.
  injection Hcs as Hc.
  apply Handlers.choose_item.
  - now rewrite <- Hw.
  - rewrite <- Hw. cbn [de_anza_courses]. now rewrite Hc.
  - intros c Hin. rewrite <- Hc in Hin.
    destruct (SelectionMore.loaded_courses_in_frame _ _ Hin) as [A B].
    split; [exact A|]. split; [exact B|].
    apply Selection.loaded_course in Hin as (r & -> & _ & _ & _ & Hl).
    apply (Index.listed_course_shape r Hl).
  - exact Hdep.
  - exact Hblanks.
Qed.

Lemma choosing_a_listed_course_shows_it_witness :
  exists w1,
    @on_dept_selected (first_seen false) Sample.window "BIOL" = Returned w1 /\
    forall item, In item (course_items w1) -> item <> EmptyString ->
      exists w2 c rows,
        @on_course_selected (first_seen false) w1 item = Returned w2 /\
        In c (filter listed
                (map to_course
                   (filter has_cid (filter is_de_anza_listed Sample.catalog)))) /\
        Dept c = "BIOL" /\ item = label_of c /\
        selected_course w2 = Some item /\
        current_results (win_app w2) = Some rows /\
        In (course_row c) rows /\
        forall r, In r rows -> In r Sample.catalog.
Proof.
  apply (@choosing_a_listed_course_shows_it (first_seen false)
           (Sample.started Sample.catalog) Sample.window Sample.catalog _ "BIOL"
           eq_refl eq_refl eq_refl).
  - discriminate.
  - intros c Hin _. vm_compute in Hin.
    destruct Hin as [<-|[<-|[]]]; reflexivity.
Defined.

(** X20.  The blank entry of the course list shows the department again:
    after a department is chosen, choosing the blank entry, or any entry made
    of whitespace only, leaves the stored results, the table, the message and
    the two lists as the choice of the department left them, and only writes
    "Course: (All courses)". *)
Theorem blank_entry_shows_the_department_again `{Polars} (w w1 : Window)
  (department item : string) :
  department <> EmptyString ->
  on_dept_selected w department = Returned w1 ->
  Str.is_empty (Str.strip Char.is_py_space item) = true ->
  on_course_selected w1 item =
  Returned
    (MkWindow (win_app w1) (Some department) (Some item) (dept_items w1)
       (course_items w1) (course_display_to_number w1) (selected_dept_info w1)
       "Course: (All courses)").
Proof.
  intros Hdep Hsel Hblank.
  destruct (show_department_courses (win_app w) department) as [after|] eqn:Es.
  - rewrite (Handlers.on_dept_selected_eq w department Es) in Hsel.
    injection Hsel as Hw. subst w1.
    set (wa := MkWindow (win_app w) (Some department) None (dept_items w)
                 (course_items w) (course_display_to_number w)
                 ("Department: " ++ department)%string "Course: None").
    assert (Hd : selected_dept (with_app (populate_courses wa department) after)
                 = Some department).
    { cbn [with_app selected_dept].
      now rewrite (proj1 (proj2 (CourseList.populate_courses_keeps wa department))). }
    assert (Hne : Str.is_empty department = false)
      by (destruct department; [congruence|reflexivity]).
    rewrite (@Handlers.on_course_selected_blank _ _ department item after Hd Hne Hblank).
    + cbn [with_app win_app selected_dept dept_items course_items
             course_display_to_number selected_dept_info].
      now rewrite (proj1 (proj2 (CourseList.populate_courses_keeps wa department))).
    + cbn [with_app win_app]. now apply Handlers.show_department_courses_again with (app := win_app w).
  - exfalso. unfold on_dept_selected in Hsel. cbv zeta in Hsel.
    rewrite (proj1 (CourseList.populate_courses_keeps _ department)) in Hsel.
    cbn [win_app] in Hsel. rewrite Es in Hsel. discriminate.
Qed.

Lemma blank_entry_shows_the_department_again_witness :
  exists w1,
    @on_dept_selected (first_seen false) Sample.window "BIOL" = Returned w1 /\
    @on_course_selected (first_seen false) w1 "" =
    Returned
      (MkWindow (win_app w1) (Some "BIOL") (Some "") (dept_items w1)
         (course_items w1) (course_display_to_number w1) (selected_dept_info w1)
         "Course: (All courses)").
Proof.
  eexists. split; [reflexivity|].
  apply (@blank_entry_shows_the_department_again (first_seen false) Sample.window _
           "BIOL" "").
  - discriminate.
  - reflexivity.
  - reflexivity.
Defined.

(** * Further properties of the results table *)

Module Rendering.
Import QueryText PlainText.

Lemma dept_char_blank c :
  is_dept_char c = true -> Char.is_py_space c = Char.is_rust_space c.
Proof. by_cases_on_char c. Qed.

Lemma dept_char_py c : is_dept_char c = true -> is_py_dept_char c = true.
Proof. by_cases_on_char c. Qed.

Lemma rust_blank_py c : Char.is_rust_space c = true -> Char.is_py_space c = true.
Proof. unfold Char.is_py_space. now intros ->. Qed.

Lemma digit_not_py_dept d : Char.is_digit d = true -> is_py_dept_char d = false.
Proof. by_cases_on_char d. Qed.

Lemma lstrip_ext (P ws1 ws2 : ascii -> bool) (s : string) :
  (forall c, P c = true -> ws1 c = ws2 c) ->
  Str.forallb P s = true -> Str.lstrip ws1 s = Str.lstrip ws2 s.
Proof.
  intros HP. induction s as [|c t IH]; simpl; [reflexivity|].
  intros H. apply andb_true_iff in H as [Hc Ht].
  rewrite (HP c Hc), (IH Ht). reflexivity.
Qed.

Lemma rstrip_ext (P ws1 ws2 : ascii -> bool) (s : string) :
  (forall c, P c = true -> ws1 c = ws2 c) ->
  Str.forallb P s = true -> Str.rstrip ws1 s = Str.rstrip ws2 s.
Proof.
  intros HP. induction s as [|c t IH]; simpl; [reflexivity|].
  intros H. apply andb_true_iff in H as [Hc Ht].
  rewrite (HP c Hc), (IH Ht). reflexivity.
Qed.

Lemma strip_ext (P ws1 ws2 : ascii -> bool) (s : string) :
  (forall c, P c = true -> ws1 c = ws2 c) ->
  Str.forallb P s = true -> Str.strip ws1 s = Str.strip ws2 s.
Proof.
  intros HP H. unfold Str.strip. rewrite (lstrip_ext P ws1 ws2 s HP H).
  apply (rstrip_ext P); [exact HP|]. now apply lstrip_all.
Qed.

Lemma lstrip_rstrip_comm (ws : ascii -> bool) (s : string) :
  Str.lstrip ws (Str.rstrip ws s) = Str.rstrip ws (Str.lstrip ws s).
Proof.
  induction s as [|c t IH]; [reflexivity|].
  cbn [Str.lstrip Str.rstrip]. destruct (ws c) eqn:E.
  - rewrite <- IH. destruct (Str.rstrip ws t) as [|a t'] eqn:R; [reflexivity|].
    cbn [Str.lstrip]. now rewrite E.
  - cbn [Str.rstrip]. destruct (Str.rstrip ws t); cbn [Str.lstrip]; now rewrite E.
Qed.

Lemma rstrip_idem (ws : ascii -> bool) (s : string) :
  Str.rstrip ws (Str.rstrip ws s) = Str.rstrip ws s.
Proof.
  induction s as [|c t IH]; [reflexivity|]. cbn [Str.rstrip].
  destruct (Str.rstrip ws t) as [|a t'] eqn:R.
  - destruct (ws c) eqn:E; [reflexivity|]. cbn [Str.rstrip]. now rewrite E.
  - cbn [Str.rstrip] in *. now rewrite IH.
Qed.

Lemma lstrip_idem (ws : ascii -> bool) (s : string) :
  Str.lstrip ws (Str.lstrip ws s) = Str.lstrip ws s.
Proof.
  induction s as [|c t IH]; [reflexivity|]. cbn [Str.lstrip].
  destruct (ws c) eqn:E; [exact IH|]. cbn [Str.lstrip]. now rewrite E.
Qed.

Lemma strip_idem (ws : ascii -> bool) (s : string) :
  Str.strip ws (Str.strip ws s) = Str.strip ws s.
Proof.
  unfold Str.strip. now rewrite lstrip_rstrip_comm, lstrip_idem, rstrip_idem.
Qed.

Lemma lstrip_append_nonempty (ws : ascii -> bool) (a b : string) :
  Str.lstrip ws a <> EmptyString ->
  Str.lstrip ws (a ++ b) = (Str.lstrip ws a ++ b)%string.
Proof.
  induction a as [|c a IH]; simpl; [congruence|].
  destruct (ws c); [exact IH|reflexivity].
Qed.

Lemma append_nonempty (a b : string) : b <> EmptyString -> (a ++ b)%string <> EmptyString.
Proof. destruct a; simpl; [auto|discriminate]. Qed.

Lemma rstrip_append_nonempty (ws : ascii -> bool) (a b : string) :
  Str.rstrip ws b <> EmptyString ->
  Str.rstrip ws (a ++ b) = (a ++ Str.rstrip ws b)%string.
Proof.
  intros Hb. induction a as [|c a IH]; simpl; [reflexivity|].
  rewrite IH. pose proof (append_nonempty a Hb) as Hn.
  destruct (a ++ Str.rstrip ws b)%string; [congruence|reflexivity].
Qed.

Lemma rstrip_within (ws1 ws2 : ascii -> bool) (s : string) :
  (forall c, ws1 c = true -> ws2 c = true) ->
  Str.rstrip ws2 (Str.rstrip ws1 s) = Str.rstrip ws2 s.
Proof.
  intros Hsub. induction s as [|c t IH]; [reflexivity|]. cbn [Str.rstrip].
  destruct (Str.rstrip ws1 t) as [|a t'] eqn:R.
  - cbn [Str.rstrip] in IH. rewrite <- IH.
    destruct (ws1 c) eqn:E.
    + now rewrite (Hsub c E).
    + reflexivity.
  - cbn [Str.rstrip] in *. now rewrite IH.
Qed.

Lemma rstrip_solid_head (ws : ascii -> bool) (d : ascii) (t : string) :
  ws d = false -> exists t', Str.rstrip ws (String d t) = String d t'.
Proof.
  intros Hd. cbn [Str.rstrip]. destruct (Str.rstrip ws t).
  - rewrite Hd. now eexists.
  - now eexists.
Qed.

Lemma chomp_no_newline (s : string) :
  Str.forallb (fun c => negb (Char.is_newline c)) s = true -> chomp s = s.
Proof.
  induction s as [|c t IH]; [reflexivity|]. cbn [Str.forallb chomp].
  intros H. apply andb_true_iff in H as [Hc Ht].
  destruct t as [|a t'].
  - apply negb_true_iff in Hc. now rewrite Hc.
  - now rewrite (IH Ht).
Qed.

Lemma forallb_prefix (p : ascii -> bool) (a b : string) :
  Str.forallb p (a ++ b) = true -> Str.forallb p a = true.
Proof. rewrite forallb_append. intros H. now apply andb_true_iff in H as [H _]. Qed.

Lemma length_append (a b : string) :
  String.length (a ++ b) = String.length a + String.length b.
Proof. induction a as [|c a IH]; simpl; [reflexivity|]. now rewrite IH. Qed.

Lemma rstrip_empty_blanks (ws : ascii -> bool) (s : string) :
  Str.rstrip ws s = EmptyString -> Str.forallb ws s = true.
Proof.
  induction s as [|c t IH]; [reflexivity|]. cbn [Str.rstrip Str.forallb].
  destruct (Str.rstrip ws t); [|discriminate].
  destruct (ws c); [|discriminate]. intros _. now apply IH.
Qed.

Lemma solid_head (s : string) :
  Str.strip Char.is_py_space s = s -> s <> EmptyString ->
  exists a t, s = String a t /\ Char.is_py_space a = false.
Proof.
  intros Hs Hne. pose proof (Handlers.strip_head Char.is_py_space s) as Hh.
  rewrite Hs in Hh. destruct s as [|a t]; [congruence|]. now exists a, t.
Qed.

(** The text of a department, blanks, and a number: what the function of
    lines 84-97 makes of it. *)
Lemma extract_well_formed (dept blanks number : string) :
  Str.forallb is_py_dept_char dept = true ->
  Str.strip Char.is_py_space dept = dept ->
  dept <> EmptyString ->
  Str.forallb Char.is_py_space blanks = true ->
  blanks <> EmptyString ->
  (exists d t, number = String d t /\ Char.is_digit d = true) ->
  Str.forallb (fun c => negb (Char.is_newline c)) number = true ->
  Str.rstrip Char.is_py_space number = number ->
  extract_dept_and_number (dept ++ blanks ++ number) = (dept, number).
Proof.
  intros Hchars Hstrip Hne Hblanks Hbne (d & t & En & Hd) Hnl Hrs.
  destruct (solid_head Hstrip Hne) as (a & rest & Ea & Ha).
  assert (Hl : Str.lstrip Char.is_py_space dept = dept).
  { rewrite Ea. cbn [Str.lstrip]. now rewrite Ha. }
  assert (Hr : Str.rstrip Char.is_py_space dept = dept).
  { unfold Str.strip in Hstrip. now rewrite Hl in Hstrip. }
  assert (Hnn : Str.rstrip Char.is_py_space number <> EmptyString).
  { rewrite Hrs, En. discriminate. }
  assert (Hwhole : Str.strip Char.is_py_space (dept ++ blanks ++ number)
                   = (dept ++ blanks ++ number)%string).
  { unfold Str.strip.
    assert (Hl' : Str.lstrip Char.is_py_space (dept ++ blanks ++ number)
                  = (dept ++ blanks ++ number)%string).
    { rewrite Ea. cbn [append Str.lstrip]. now rewrite Ha. }
    rewrite Hl', <- append_assoc, (@rstrip_append_nonempty _ (dept ++ blanks) _ Hnn).
    now rewrite Hrs. }
  assert (Hnd : Str.lstrip Char.is_py_space number = number).
  { rewrite En. cbn [Str.lstrip].
    now rewrite (NaturalKey.digit_not_py_space _ Hd). }
  unfold extract_dept_and_number.
  assert (He : Str.is_empty (dept ++ blanks ++ number) = false)
    by (rewrite Ea; reflexivity).
  rewrite He, Hwhole. unfold match_dept_and_number.
  rewrite <- append_assoc, (@span_of_run is_py_dept_char (dept ++ blanks) number).
  - rewrite (@chomp_no_newline _ Hnl), Hnl.
    rewrite (@rstrip_append_blanks Char.is_py_space dept blanks Hblanks), Hr.
    rewrite En at 1. rewrite Hd. cbn [andb].
    assert (Hde : Str.is_empty dept = false) by (rewrite Ea; reflexivity).
    rewrite Hde. cbn [negb andb].
    assert (Hlen : (String.length dept <? String.length (dept ++ blanks)) = true).
    { apply Nat.ltb_lt. rewrite length_append.
      destruct blanks; [congruence|]. simpl. lia. }
    rewrite Hlen, ?Hde. cbn [negb andb]. unfold Str.strip.
    rewrite Hl, Hr, Hnd, Hrs. reflexivity.
  - rewrite forallb_append, Hchars. cbn [andb].
    apply (@forallb_weaken Char.is_py_space _ _); [|exact Hblanks].
    intros c Hc. unfold is_py_dept_char. rewrite Hc. apply orb_true_r.
  - rewrite En. now apply digit_not_py_dept.
Qed.

(** The groups of the extraction of lines 378-379 when the department it
    gives is not empty. *)
Lemma rust_groups (s g1 g2 : string) :
  extract_groups s = Some (g1, g2) ->
  Str.strip Char.is_rust_space g1 <> EmptyString ->
  exists head w,
    s = (head ++ g2)%string /\ head = (g1 ++ w)%string /\
    g1 = Str.rstrip Char.is_rust_space head /\
    Str.forallb is_dept_char head = true /\
    Str.forallb Char.is_rust_space w = true /\ w <> EmptyString /\
    (exists d t, g2 = String d t /\ Char.is_digit d = true) /\
    Str.forallb (fun c => negb (Char.is_newline c)) g2 = true.
Proof.
  unfold extract_groups.
  pose proof (Tokens.span_append is_dept_char s) as Hs.
  pose proof (span_all is_dept_char s) as Hh.
  destruct (Str.span is_dept_char s) as [head tail]. cbn [fst snd] in Hs, Hh.
  destruct tail as [|d t]; [discriminate|].
  destruct (Char.is_digit d) eqn:Ed; [|discriminate]. cbn [andb].
  destruct (Str.forallb _ (String d t)) eqn:Enl; [|discriminate].
  destruct (FirstNumber.rstrip_split Char.is_rust_space head) as (w & Ew & Hw).
  destruct (Str.rstrip Char.is_rust_space head) as [|a r] eqn:R.
  - cbn [Str.is_empty]. destruct (_ && _); [|discriminate].
    intros E Hne. exfalso. injection E as E1 E2. subst g1. apply Hne.
    pose proof (@rstrip_empty_blanks _ _ R) as Hb.
    destruct head as [|c h]; [reflexivity|].
    cbn [Str.forallb] in Hb. apply andb_true_iff in Hb as [Hc _].
    unfold Str.strip. cbn [first_char Str.lstrip]. now rewrite Hc.
  - cbn [Str.is_empty negb andb].
    destruct (String.length (String a r) <? String.length head) eqn:El;
      [|discriminate].
    intros E _. injection E as E1 E2. subst g1 g2.
    exists head, w. split; [now symmetry|]. split; [exact Ew|].
    split; [now symmetry|]. split; [exact Hh|]. split; [exact Hw|].
    split; [|split; [now exists d, t|exact Enl]].
    intros ->. rewrite Tokens.string_app_nil in Ew. rewrite <- Ew in El.
    apply Nat.ltb_lt in El. lia.
Qed.

(** The text of a listed course, stripped by Python. *)
Lemma listed_text (s g1 g2 : string) :
  extract_groups s = Some (g1, g2) ->
  Str.strip Char.is_rust_space g1 <> EmptyString ->
  exists w,
    Str.strip Char.is_py_space s
    = (Str.strip Char.is_rust_space g1 ++ w ++ Str.rstrip Char.is_py_space g2)%string /\
    Str.forallb Char.is_py_space w = true /\ w <> EmptyString /\
    Str.forallb is_dept_char (Str.strip Char.is_rust_space g1) = true /\
    (exists d t, Str.rstrip Char.is_py_space g2 = String d t /\ Char.is_digit d = true) /\
    Str.forallb (fun c => negb (Char.is_newline c)) (Str.rstrip Char.is_py_space g2)
    = true.
Proof.
  intros E Hne.
  destruct (@rust_groups _ _ _ E Hne)
    as (head & w & Es & Eh & Eg & Hh & Hw & Hwn & (d & t & Ed & Hd) & Hnl).
  exists w.
  assert (Hg1 : Str.forallb is_dept_char g1 = true)
    by (rewrite Eg; now apply rstrip_all).
  assert (Hlg : Str.lstrip Char.is_rust_space g1 = Str.strip Char.is_rust_space g1).
  { unfold Str.strip. rewrite Eg, lstrip_rstrip_comm. now rewrite rstrip_idem. }
  assert (Hln : Str.lstrip Char.is_rust_space g1 <> EmptyString) by now rewrite Hlg.
  destruct (@rstrip_solid_head Char.is_py_space d t
              (NaturalKey.digit_not_py_space _ Hd)) as [t' Et].
  split; [|split; [|split; [|split; [|split]]]].
  - unfold Str.strip at 1. rewrite Es, Eh.
    assert (Hl1 : Str.lstrip Char.is_py_space ((g1 ++ w) ++ g2)
                  = (Str.strip Char.is_rust_space g1 ++ w ++ g2)%string).
    { rewrite append_assoc.
      rewrite (@lstrip_append_nonempty Char.is_py_space g1 (w ++ g2)).
      - now rewrite (@lstrip_ext is_dept_char Char.is_py_space Char.is_rust_space g1
                       dept_char_blank Hg1), Hlg.
      - now rewrite (@lstrip_ext is_dept_char Char.is_py_space Char.is_rust_space g1
                       dept_char_blank Hg1). }
    rewrite Hl1, <- append_assoc.
    rewrite (@rstrip_append_nonempty Char.is_py_space
               (Str.strip Char.is_rust_space g1 ++ w) g2).
    + now rewrite append_assoc.
    + rewrite Ed, Et. discriminate.
  - apply (@forallb_weaken Char.is_rust_space _ _); [exact rust_blank_py|exact Hw].
  - exact Hwn.
  - now apply strip_all.
  - rewrite Ed, Et. now exists d, t'.
  - destruct (FirstNumber.rstrip_split Char.is_py_space g2) as (w2 & E2 & _).
    rewrite E2 in Hnl. now apply forallb_prefix in Hnl.
Qed.

(** The table and the index read a listed course alike. *)
Lemma listed_row (r : Row) :
  listed (to_course r) = true ->
  extract_dept_and_number
    (Str.strip Char.is_py_space (fill_null "" (local_dept_number r)))
  = (Dept (to_course r), Str.strip Char.is_py_space (Number (to_course r))).
Proof.
  unfold listed, to_course. cbn [Dept Number]. unfold extract_column.
  destruct (local_dept_number r) as [s|]; [|discriminate].
  destruct (extract_groups s) as [[g1 g2]|] eqn:E; [|discriminate].
  cbn [Nat.eqb fill_null]. intros H. apply andb_true_iff in H as [H1 _].
  assert (Hne : Str.strip Char.is_rust_space g1 <> EmptyString).
  { intros E0. rewrite E0 in H1. discriminate. }
  destruct (@listed_text _ _ _ E Hne) as (w & Es & Hw & Hwn & Hd & (d & t & Et & Hdg) & Hnl).
  assert (Hnum : Str.strip Char.is_py_space (Str.strip Char.is_rust_space g2)
                 = Str.rstrip Char.is_py_space g2).
  { destruct (@rust_groups _ _ _ E Hne) as (_ & _ & _ & _ & _ & _ & _ & _ & (d0 & t0 & E0 & Hd0) & _).
    unfold Str.strip. rewrite E0. cbn [Str.lstrip].
    rewrite (Index.digit_not_blank _ Hd0).
    destruct (@rstrip_solid_head Char.is_rust_space d0 t0 (Index.digit_not_blank _ Hd0))
      as [t1 E1].
    rewrite E1. cbn [Str.lstrip]. rewrite (NaturalKey.digit_not_py_space _ Hd0).
    rewrite <- E1. apply rstrip_within. exact rust_blank_py. }
  rewrite Es, Hnum. apply extract_well_formed.
  - apply (@forallb_weaken is_dept_char _ _); [exact dept_char_py|exact Hd].
  - rewrite (@strip_ext is_dept_char Char.is_py_space Char.is_rust_space _
               dept_char_blank Hd).
    apply strip_idem.
  - exact Hne.
  - exact Hw.
  - exact Hwn.
  - now exists d, t.
  - exact Hnl.
  - apply rstrip_idem.
Qed.

End Rendering.

(** X21.  [extract_dept_and_number] takes a course text apart again: a
    department of capitals and blanks that starts and ends with a capital,
    one or more blanks, and a number that starts with a digit, holds no line
    feed and ends with no blank, come back as they were, whatever whitespace
    surrounds the text. *)
Theorem extract_dept_and_number_round_trip (before dept blanks number after : string) :
  Str.forallb Char.is_py_space before = true ->
  Str.forallb Char.is_py_space after = true ->
  Str.forallb is_py_dept_char dept = true ->
  Str.strip Char.is_py_space dept = dept ->
  dept <> EmptyString ->
  Str.forallb Char.is_py_space blanks = true ->
  blanks <> EmptyString ->
  (exists d t, number = String d t /\ Char.is_digit d = true) ->
  Str.forallb (fun c => negb (Char.is_newline c)) number = true ->
  Str.rstrip Char.is_py_space number = number ->
  extract_dept_and_number (before ++ (dept ++ blanks ++ number) ++ after)
  = (dept, number).
Proof.
  intros Hb Ha Hchars Hstrip Hne Hblanks Hbne Hnum Hnl Hrs.
  pose proof (Rendering.extract_well_formed Hchars Hstrip Hne Hblanks Hbne Hnum Hnl Hrs)
    as Hcore.
  destruct (Rendering.solid_head Hstrip Hne) as (a & rest & Ea & Hsolid).
  assert (Hpad : Str.strip Char.is_py_space (before ++ (dept ++ blanks ++ number) ++ after)
                 = Str.strip Char.is_py_space (dept ++ blanks ++ number))
    by now apply QueryText.strip_padding.
  assert (Hfull : Str.is_empty (before ++ (dept ++ blanks ++ number) ++ after) = false).
  { destruct (before ++ (dept ++ blanks ++ number) ++ after)%string eqn:E;
      [|reflexivity].
    exfalso. rewrite Ea in Hpad.
    unfold Str.strip in Hpad. cbn [append Str.lstrip Str.rstrip] in Hpad.
    rewrite Hsolid in Hpad. cbn [Str.rstrip] in Hpad.
    destruct (Str.rstrip Char.is_py_space (rest ++ blanks ++ number));
      [rewrite Hsolid in Hpad|]; discriminate. }
  unfold extract_dept_and_number in *. rewrite Hfull, Hpad.
  assert (Hcore' : Str.is_empty (dept ++ blanks ++ number) = false)
    by (rewrite Ea; reflexivity).
  rewrite Hcore' in Hcore.
  destruct (match_dept_and_number (Str.strip Char.is_py_space (dept ++ blanks ++ number)))
    as [[g1 g2]|]; [exact Hcore|].
  injection Hcore as E1 E2. congruence.
Qed.

Lemma extract_dept_and_number_round_trip_witness :
  extract_dept_and_number (" " ++ ("C D" ++ " " ++ "1") ++ "  ") = ("C D", "1").
Proof.
  apply (@extract_dept_and_number_round_trip " " "C D" " " "1" "  ");
    try reflexivity; try discriminate.
  exists "1"%char, EmptyString. split; reflexivity.
Defined.

(** X22.  The results table and the course index read a course text alike:
    for every row [load_de_anza_courses] lists, the department the table
    shows is the department of the index, and the number the table shows is
    the number of the index, stripped as Python strips. *)
Theorem table_shows_the_indexed_department (r : Row) :
  listed (to_course r) = true ->
  shown_dept (render_row r) = Dept (to_course r) /\
  shown_number (render_row r) = Str.strip Char.is_py_space (Number (to_course r)).
Proof.
  intros Hl. unfold render_row. rewrite (Rendering.listed_row r Hl).
  split; reflexivity.
Qed.

Lemma table_shows_the_indexed_department_witness :
  shown_dept (render_row Sample.de_anza_biol) = Dept (to_course Sample.de_anza_biol) /\
  shown_number (render_row Sample.de_anza_biol)
  = Str.strip Char.is_py_space (Number (to_course Sample.de_anza_biol)).
Proof.
  apply (table_shows_the_indexed_department Sample.de_anza_biol). reflexivity.
Defined.

(** * Further properties of the callbacks *)

Module Callbacks.
Import Selection SelectionMore Handlers.

(** The index is only there when the frame is. *)
Definition consistent (app : App) : Prop :=
  de_anza_courses app <> None -> app_df app <> None.

Lemma show_equivalencies_keeps `{Polars} (app : App) (department course_number : string) :
  app_df (show_equivalencies app department course_number) = app_df app /\
  de_anza_courses (show_equivalencies app department course_number)
  = de_anza_courses app.
Proof.
  destruct app as [df dac cur rc rt]. unfold show_equivalencies.
  cbn [app_df de_anza_courses].
  destruct df as [df|]; [|now split].
  destruct dac as [courses|]; [|now split].
  destruct (select_course courses department course_number); [now split|].
  destruct (unique_cells _) as [|first more]; [now split|].
  destruct (cell_eqb first (Some "")); [now split|].
  destruct (filter _ df); [now split|].
  match goal with
  | |- context [display_results ?a ?l] =>
      destruct (display_results_fields a l) as (K1 & K2 & _)
  end.
  now split.
Qed.

Lemma show_department_courses_total `{Polars} (app : App) (department : string) :
  consistent app ->
  exists after,
    show_department_courses app department = Returned after /\
    app_df after = app_df app /\ de_anza_courses after = de_anza_courses app.
Proof.
  intros Hc.
  assert (Hr : exists after, show_department_courses app department = Returned after).
  { destruct (de_anza_courses app) as [courses|] eqn:Ec.
    - destruct (app_df app) as [df|] eqn:Ed.
      + now apply (show_department_courses_returns app department Ed).
      + exfalso. apply Hc; [rewrite Ec; discriminate|exact Ed].
    - unfold show_department_courses. rewrite Ec. now eexists. }
  destruct Hr as [after Hr]. exists after. split; [exact Hr|].
  now apply (show_department_courses_keeps _ _ Hr).
Qed.

Lemma handle_keeps `{Polars} (w : Window) (e : Event) :
  consistent (win_app w) ->
  exists w',
    handle w e = Returned w' /\
    app_df (win_app w') = app_df (win_app w) /\
    de_anza_courses (win_app w') = de_anza_courses (win_app w).
Proof.
  intros Hc. destruct e as [d|item|]; cbn [handle].
  - destruct (@show_department_courses_total _ (win_app w) d Hc) as (after & Hr & K).
    eexists. split; [apply (on_dept_selected_eq w d Hr)|exact K].
  - unfold on_course_selected.
    destruct (selected_dept w) as [dept|]; [|now eexists].
    destruct (Str.is_empty dept); [now eexists|].
    cbn [win_app].
    destruct (Str.is_empty (Str.strip Char.is_py_space item)).
    + destruct (@show_department_courses_total _ (win_app w) dept Hc) as (after & Hr & K).
      rewrite Hr. eexists. split; [reflexivity|exact K].
    + eexists. split; [reflexivity|]. cbn [with_app win_app].
      apply show_equivalencies_keeps.
  - eexists. split; [reflexivity|]. now split.
Qed.

Lemma handle_all_keeps `{Polars} (events : list Event) :
  forall w,
    consistent (win_app w) ->
    exists w',
      handle_all w events = Returned w' /\
      app_df (win_app w') = app_df (win_app w) /\
      de_anza_courses (win_app w') = de_anza_courses (win_app w).
Proof.
  induction events as [|e rest IH]; intros w Hc; cbn [handle_all].
  - now exists w.
  - destruct (handle_keeps w e Hc) as (w1 & Hr & K1 & K2). rewrite Hr.
    destruct (IH w1) as (w' & Hr' & K1' & K2').
    { unfold consistent. now rewrite K1, K2. }
    exists w'. split; [exact Hr'|]. split; congruence.
Qed.

End Callbacks.

(** X23.  Once [load_de_anza_courses] has run on the application as
    [__init__] leaves it, with or without a frame, no sequence of choices in
    the two lists and of clicks on "Clear Selection" raises: every callback
    returns, and none of them changes the frame or the course index. *)
Theorem callbacks_never_raise `{Polars} (app : App) (w : Window)
  (events : list Event) :
  de_anza_courses app = None ->
  load_de_anza_courses app = Ok (win_app w) ->
  exists w',
    handle_all w events = Returned w' /\
    app_df (win_app w') = app_df app /\
    de_anza_courses (win_app w') = de_anza_courses (win_app w).
Proof.
  intros Hnone Hload.
  assert (Hdf : app_df (win_app w) = app_df app /\ Callbacks.consistent (win_app w)).
  { destruct (app_df app) as [df|] eqn:Ed.
    - rewrite (Selection.load_de_anza_courses_eq app Ed) in Hload.
      injection Hload as Hw. rewrite <- Hw. split; [reflexivity|].
      intros _. discriminate.
    - unfold load_de_anza_courses in Hload. rewrite Ed in Hload.
      injection Hload as Hw. rewrite <- Hw. split; [exact Ed|].
      intros Hx. congruence. }
  destruct Hdf as [Hdf Hc].
  destruct (Callbacks.handle_all_keeps events w Hc) as (w' & Hr & K1 & K2).
  exists w'. split; [exact Hr|]. split; congruence.
Qed.

Lemma callbacks_never_raise_witness :
  exists w',
    @handle_all (first_seen false) Sample.window
      [DeptSelected "BIOL"; CourseSelected "6A (BIOL 190) :: Cell Biology";
       ClearClicked; CourseSelected ""] = Returned w' /\
    app_df (win_app w') = app_df (Sample.started Sample.catalog) /\
    de_anza_courses (win_app w') = de_anza_courses (win_app Sample.window).
Proof.
  apply (@callbacks_never_raise (first_seen false) (Sample.started Sample.catalog)
           Sample.window); reflexivity.
Defined.
